(** * Logo composer and brand-kit export: a shallow embedding

    The development follows the editor component and the PDF export of the
    brand-identity tool.  Fields that the code only ever fills from integer
    literals and integer sliders (sizes, spacing, rotation) are [Z]; layer
    positions and pointer coordinates are [Q].  The numbers of the export
    (page width, font sizes, the cursor [y], the offsets of the swatches)
    are IEEE binary64 floats with the operations of JavaScript numbers.

    React state is modelled by explicit state passing.  [Canvas] gives every
    handler as a function from the state of the latest render to the next
    state; [Live] keeps the render apart from the state that the handlers
    have set since, as pointer-moves can be handled faster than the
    component renders. *)

From Stdlib Require Import ZArith QArith List String Ascii Bool Lia.
From Stdlib Require Import DecimalString Lqa.
From Stdlib Require Import PrimFloat Uint63.
Import ListNotations.

(** The literal [0.4] of the export stands for the nearest double, as it
    does in JavaScript. *)
Set Warnings "-inexact-float".

Local Open Scope string_scope.
Local Open Scope Z_scope.

(** [{ ...old, ...new }] for one key: a key present in the update wins. *)
Definition override {A : Type} (old : A) (new : option A) : A :=
  match new with
  | Some v => v
  | None => old
  end.

(** ** Layer model (the [TextLayer] and [logoSettings] types) *)

Inductive Align := align_left | align_center | align_right.

Module TextLayer.
Record t := mk {
  id : string;
  text : string;
  x : Q;
  y : Q;
  fontSize : Z;
  fontFamily : string;
  color : string;
  spacing : Z;
  rotation : Z;
  fontWeight : string;
  align : Align
}.
End TextLayer.

(** [Partial<TextLayer>]: every key optional, [id] included. *)
Module PartialTextLayer.
Record t := mk {
  id : option string;
  text : option string;
  x : option Q;
  y : option Q;
  fontSize : option Z;
  fontFamily : option string;
  color : option string;
  spacing : option Z;
  rotation : option Z;
  fontWeight : option string;
  align : option Align
}.
End PartialTextLayer.

(** [{ ...el, ...updates }] *)
Definition spreadTextLayer (el : TextLayer.t) (updates : PartialTextLayer.t)
  : TextLayer.t :=
  {| TextLayer.id := override (TextLayer.id el) (PartialTextLayer.id updates);
     TextLayer.text := override (TextLayer.text el) (PartialTextLayer.text updates);
     TextLayer.x := override (TextLayer.x el) (PartialTextLayer.x updates);
     TextLayer.y := override (TextLayer.y el) (PartialTextLayer.y updates);
     TextLayer.fontSize :=
       override (TextLayer.fontSize el) (PartialTextLayer.fontSize updates);
     TextLayer.fontFamily :=
       override (TextLayer.fontFamily el) (PartialTextLayer.fontFamily updates);
     TextLayer.color := override (TextLayer.color el) (PartialTextLayer.color updates);
     TextLayer.spacing :=
       override (TextLayer.spacing el) (PartialTextLayer.spacing updates);
     TextLayer.rotation :=
       override (TextLayer.rotation el) (PartialTextLayer.rotation updates);
     TextLayer.fontWeight :=
       override (TextLayer.fontWeight el) (PartialTextLayer.fontWeight updates);
     TextLayer.align := override (TextLayer.align el) (PartialTextLayer.align updates)
  |}.

Inductive Shape :=
  none | circle | square | rounded | triangle | hexagon | rectangle | oval.

Module LogoSettings.
Record t := mk {
  bgColor : string;
  shape : Shape;
  width : Z;
  height : Z;
  borderRadius : Z;
  iconColor : string;
  iconSize : Z;
  tintIcon : bool;
  textElements : list TextLayer.t
}.
End LogoSettings.

(** The [newSettings: any] bags handed to [updateLogoSettings]. *)
Module PartialLogoSettings.
Record t := mk {
  bgColor : option string;
  shape : option Shape;
  width : option Z;
  height : option Z;
  borderRadius : option Z;
  iconColor : option string;
  iconSize : option Z;
  tintIcon : option bool;
  textElements : option (list TextLayer.t)
}.
End PartialLogoSettings.

(** [{ ...logoSettings, ...newSettings }] *)
Definition spreadLogoSettings (s : LogoSettings.t) (n : PartialLogoSettings.t)
  : LogoSettings.t :=
  {| LogoSettings.bgColor :=
       override (LogoSettings.bgColor s) (PartialLogoSettings.bgColor n);
     LogoSettings.shape := override (LogoSettings.shape s) (PartialLogoSettings.shape n);
     LogoSettings.width := override (LogoSettings.width s) (PartialLogoSettings.width n);
     LogoSettings.height :=
       override (LogoSettings.height s) (PartialLogoSettings.height n);
     LogoSettings.borderRadius :=
       override (LogoSettings.borderRadius s) (PartialLogoSettings.borderRadius n);
     LogoSettings.iconColor :=
       override (LogoSettings.iconColor s) (PartialLogoSettings.iconColor n);
     LogoSettings.iconSize :=
       override (LogoSettings.iconSize s) (PartialLogoSettings.iconSize n);
     LogoSettings.tintIcon :=
       override (LogoSettings.tintIcon s) (PartialLogoSettings.tintIcon n);
     LogoSettings.textElements :=
       override (LogoSettings.textElements s) (PartialLogoSettings.textElements n)
  |}.

(** The settings the editor falls back to when the project has none yet;
    [iconColor] is the first colour of the current palette. *)
Definition defaultLogoSettings (firstColor : string) : LogoSettings.t :=
  {| LogoSettings.bgColor := "transparent";
     LogoSettings.shape := none;
     LogoSettings.width := 400;
     LogoSettings.height := 400;
     LogoSettings.borderRadius := 0;
     LogoSettings.iconColor := firstColor;
     LogoSettings.iconSize := 150;
     LogoSettings.tintIcon := false;
     LogoSettings.textElements := []
  |}.

(** ** Canvas controller (the interaction state of [ProjectEditor]) *)

(** JavaScript truthiness of a [string | null]: [null] and the empty string
    are falsy. *)
Definition truthy (s : option string) : bool :=
  match s with
  | None => false
  | Some s => negb (String.eqb s "")
  end.

(** [id === selectedElementId] *)
Definition strict_eq (i : string) (sel : option string) : bool :=
  match sel with
  | None => false
  | Some s => String.eqb i s
  end.

Module Canvas.

(** [logoSettings] is the constant of the latest render: the stored
    settings, or [defaultLogoSettings] when the project has none. *)
Record t := mk {
  logoSettings : LogoSettings.t;
  selectedElementId : option string;
  isDragging : bool;
  dragStart : Q * Q
}.

Definition textElements (st : t) : list TextLayer.t :=
  LogoSettings.textElements (logoSettings st).

Definition setSelectedElementId (st : t) (sel : option string) : t :=
  mk (logoSettings st) sel (isDragging st) (dragStart st).

Definition set_isDragging (st : t) (b : bool) : t :=
  mk (logoSettings st) (selectedElementId st) b (dragStart st).

Definition set_dragStart (st : t) (p : Q * Q) : t :=
  mk (logoSettings st) (selectedElementId st) (isDragging st) p.

Definition updateLogoSettings (st : t) (newSettings : PartialLogoSettings.t) : t :=
  mk (spreadLogoSettings (logoSettings st) newSettings)
     (selectedElementId st) (isDragging st) (dragStart st).

Definition just_textElements (l : list TextLayer.t) : PartialLogoSettings.t :=
  PartialLogoSettings.mk None None None None None None None None (Some l).

(** [Date.now().toString()] for the clock value [now]. *)
Definition timestamp_id (now : N) : string :=
  DecimalString.NilZero.string_of_uint (N.to_uint now).

(** [x || fallback] on strings. *)
Definition or_string (s fallback : string) : string :=
  if String.eqb s "" then fallback else s.

Definition addTextElement (projectName logoFont firstColor : string) (now : N)
    (st : t) : t :=
  let newText :=
    {| TextLayer.id := timestamp_id now;
       TextLayer.text := or_string projectName "Brand Name";
       TextLayer.x := (inject_Z (LogoSettings.width (logoSettings st)) / 2)%Q;
       TextLayer.y := (inject_Z (LogoSettings.height (logoSettings st)) / 2 + 80)%Q;
       TextLayer.fontSize := 32;
       TextLayer.fontFamily := or_string logoFont "Montserrat";
       TextLayer.color := firstColor;
       TextLayer.spacing := 0;
       TextLayer.rotation := 0;
       TextLayer.fontWeight := "bold";
       TextLayer.align := align_center |} in
  setSelectedElementId
    (updateLogoSettings st (just_textElements (textElements st ++ [newText])))
    (Some (TextLayer.id newText)).

Definition updateSelectedText (st : t) (updates : PartialTextLayer.t) : t :=
  if negb (truthy (selectedElementId st)) then st
  else
    let updatedElements :=
      map (fun el =>
             if strict_eq (TextLayer.id el) (selectedElementId st)
             then spreadTextLayer el updates
             else el)
          (textElements st) in
    updateLogoSettings st (just_textElements updatedElements).

Definition deleteSelectedText (st : t) : t :=
  if negb (truthy (selectedElementId st)) then st
  else
    let updatedElements :=
      filter (fun el => negb (strict_eq (TextLayer.id el) (selectedElementId st)))
             (textElements st) in
    setSelectedElementId
      (updateLogoSettings st (just_textElements updatedElements)) None.

Definition handleMouseDown (client : Q * Q) (id : string) (st : t) : t :=
  set_dragStart (set_isDragging (setSelectedElementId st (Some id)) true) client.

Definition move_to (px py : Q) : PartialTextLayer.t :=
  PartialTextLayer.mk None None (Some px) (Some py)
                      None None None None None None None.

Definition handleMouseMove (client : Q * Q) (st : t) : t :=
  if negb (isDragging st) || negb (truthy (selectedElementId st)) then st
  else
    let dx := (fst client - fst (dragStart st))%Q in
    let dy := (snd client - snd (dragStart st))%Q in
    let element :=
      find (fun el => strict_eq (TextLayer.id el) (selectedElementId st))
           (textElements st) in
    let st' :=
      match element with
      | Some element =>
          updateSelectedText st
            (move_to (TextLayer.x element + dx)%Q (TextLayer.y element + dy)%Q)
      | None => st
      end in
    set_dragStart st' client.

Definition handleMouseUp (st : t) : t := set_isDragging st false.

(** [onClick] of the canvas area. *)
Definition canvasClick (st : t) : t := setSelectedElementId st None.

(** [activeTextElement] *)
Definition activeTextElement (st : t) : option TextLayer.t :=
  find (fun el => strict_eq (TextLayer.id el) (selectedElementId st))
       (textElements st).

(** The border test of the layer's [className]: the layer is drawn as
    selected. *)
Definition shown_selected (st : t) (el : TextLayer.t) : bool :=
  strict_eq (TextLayer.id el) (selectedElementId st).

(** The shape buttons of the controls panel. *)
Definition shapeUpdates (s : Shape) : PartialLogoSettings.t :=
  let wh :=
    match s with
    | rectangle => (500, 300)
    | oval => (500, 300)
    | _ => (400, 400)
    end in
  PartialLogoSettings.mk None (Some s) (Some (fst wh)) (Some (snd wh))
                         None None None None None.

Definition selectShape (s : Shape) (st : t) : t :=
  updateLogoSettings st (shapeUpdates s).

(** The value an [<input type="range">] holds after an attempt to set it:
    the browser brings a value below [min] up to [min] and a value above
    [max] down to [max] before any [onChange] sees it. *)
Definition range_value (min max attempted : Z) : Z :=
  if attempted <? min then min
  else if max <? attempted then max
  else attempted.

(** The spacing slider: [<input type="range" min="-5" max="50">] and its
    [onChange], [updateSelectedText({ spacing: Number(e.target.value) })].
    The handler has no other caller: [e.target.value] is the value of the
    slider. *)
Definition spacing_min : Z := -5.
Definition spacing_max : Z := 50.

Definition just_spacing (v : Z) : PartialTextLayer.t :=
  PartialTextLayer.mk None None None None None None None (Some v)
                      None None None.

Definition onSpacingChange (attempted : Z) (st : t) : t :=
  let value := range_value spacing_min spacing_max attempted in
  updateSelectedText st (just_spacing value).

(** The events of the canvas and of the delete button. *)
Inductive Event :=
| MouseDown (client : Q * Q) (id : string)
| MouseMove (client : Q * Q)
| MouseUp
| MouseLeave
| CanvasClick
| DeleteClick.

Definition step (st : t) (e : Event) : t :=
  match e with
  | MouseDown client id => handleMouseDown client id st
  | MouseMove client => handleMouseMove client st
  | MouseUp => handleMouseUp st
  | MouseLeave => handleMouseUp st
  | CanvasClick => canvasClick st
  | DeleteClick => deleteSelectedText st
  end.

Definition run (st : t) (es : list Event) : t := fold_left step es st.

End Canvas.

(** ** The editor between two renders *)

Module Live.

(** What the handlers see and what they have set.  [logoSettings] and
    [selectedElementId] are the constants of the latest render: every
    handler of that render is a closure over them.  [setData] and
    [setSelectedElementId] only set the state of the next render, and the
    call made last wins ([setData] is handed a value, not a function of the
    previous state).  [isDragging] and [dragStart] are refs, so a write to
    them is seen by the next handler at once. *)
Record t := mk {
  logoSettings : LogoSettings.t;
  selectedElementId : option string;
  nextLogoSettings : LogoSettings.t;
  nextSelectedElementId : option string;
  isDragging : bool;
  dragStart : Q * Q
}.

Definition textElements (st : t) : list TextLayer.t :=
  LogoSettings.textElements (logoSettings st).

(** [setData({ ...data, visuals: { ...data.visuals, logoSettings: s } })] *)
Definition setLogoSettings (st : t) (s : LogoSettings.t) : t :=
  mk (logoSettings st) (selectedElementId st) s (nextSelectedElementId st)
     (isDragging st) (dragStart st).

Definition setSelectedElementId (st : t) (sel : option string) : t :=
  mk (logoSettings st) (selectedElementId st) (nextLogoSettings st) sel
     (isDragging st) (dragStart st).

Definition set_isDragging (st : t) (b : bool) : t :=
  mk (logoSettings st) (selectedElementId st) (nextLogoSettings st)
     (nextSelectedElementId st) b (dragStart st).

Definition set_dragStart (st : t) (p : Q * Q) : t :=
  mk (logoSettings st) (selectedElementId st) (nextLogoSettings st)
     (nextSelectedElementId st) (isDragging st) p.

Definition updateLogoSettings (st : t) (newSettings : PartialLogoSettings.t) : t :=
  setLogoSettings st (spreadLogoSettings (logoSettings st) newSettings).

Definition updateSelectedText (st : t) (updates : PartialTextLayer.t) : t :=
  if negb (truthy (selectedElementId st)) then st
  else
    let updatedElements :=
      map (fun el =>
             if strict_eq (TextLayer.id el) (selectedElementId st)
             then spreadTextLayer el updates
             else el)
          (textElements st) in
    updateLogoSettings st (Canvas.just_textElements updatedElements).

Definition handleMouseDown (client : Q * Q) (id : string) (st : t) : t :=
  set_dragStart (set_isDragging (setSelectedElementId st (Some id)) true) client.

Definition handleMouseMove (client : Q * Q) (st : t) : t :=
  if negb (isDragging st) || negb (truthy (selectedElementId st)) then st
  else
    let dx := (fst client - fst (dragStart st))%Q in
    let dy := (snd client - snd (dragStart st))%Q in
    let element :=
      find (fun el => strict_eq (TextLayer.id el) (selectedElementId st))
           (textElements st) in
    let st' :=
      match element with
      | Some element =>
          updateSelectedText st
            (Canvas.move_to (TextLayer.x element + dx)%Q (TextLayer.y element + dy)%Q)
      | None => st
      end in
    set_dragStart st' client.

Definition handleMouseUp (st : t) : t := set_isDragging st false.

(** The component renders: the state set since the last render becomes the
    constants of the new closures. *)
Definition render (st : t) : t :=
  mk (nextLogoSettings st) (nextSelectedElementId st)
     (nextLogoSettings st) (nextSelectedElementId st)
     (isDragging st) (dragStart st).

(** The editor right after a render that shows [st]. *)
Definition fresh (st : Canvas.t) : t :=
  mk (Canvas.logoSettings st) (Canvas.selectedElementId st)
     (Canvas.logoSettings st) (Canvas.selectedElementId st)
     (Canvas.isDragging st) (Canvas.dragStart st).

(** A pointer-move on the canvas, or a render of the component. *)
Inductive Event :=
| MouseMove (client : Q * Q)
| Render.

Definition step (st : t) (e : Event) : t :=
  match e with
  | MouseMove client => handleMouseMove client st
  | Render => render st
  end.

Definition run (st : t) (es : list Event) : t := fold_left step es st.

End Live.

(** ** Style resolver (the inline [style] of the container) *)

Definition Shape_eq_dec (a b : Shape) : {a = b} + {a <> b}.
Proof. decide equality. Defined.

(** [a === b] on shapes. *)
Definition Shape_eqb (a b : Shape) : bool :=
  if Shape_eq_dec a b then true else false.

(** [n.toString()] for an integer [n]. *)
Definition string_of_Z (n : Z) : string :=
  DecimalString.NilZero.string_of_int (Z.to_int n).

Module Style.

Inductive CssLength :=
| Percent (n : Z)
| Px (n : Z).

(** [clipPath]: ['none'], or a polygon given by its corners in percent of
    the box, x from the left and y from the top. *)
Inductive ClipPath :=
| ClipNone
| Polygon (points : list (Z * Z)).

Record Container := mk {
  width : CssLength;
  height : CssLength;
  backgroundColor : string;
  borderRadius : CssLength;
  clipPath : ClipPath
}.

Definition containerStyle (logoSettings : LogoSettings.t) : Container :=
  let shape := LogoSettings.shape logoSettings in
  {| width := Px (LogoSettings.width logoSettings);
     height := Px (LogoSettings.height logoSettings);
     backgroundColor := LogoSettings.bgColor logoSettings;
     borderRadius :=
       if Shape_eqb shape circle then Percent 50
       else if Shape_eqb shape oval then Percent 50
       else if Shape_eqb shape rounded then Px 40
       else if Shape_eqb shape square || Shape_eqb shape rectangle
            then Px 0
       else Px (LogoSettings.borderRadius logoSettings);
     clipPath :=
       if Shape_eqb shape triangle
       then Polygon [(50, 0); (0, 100); (100, 100)]
       else if Shape_eqb shape hexagon
       then Polygon [(25, 0); (75, 0); (100, 50); (75, 100); (25, 100); (0, 50)]
       else ClipNone
  |}.

(** The CSS text of the values, as the source writes them. *)
Definition css_length (l : CssLength) : string :=
  match l with
  | Percent n => string_of_Z n ++ "%"
  | Px n => string_of_Z n ++ "px"
  end.

Definition css_point (p : Z * Z) : string :=
  string_of_Z (fst p) ++ "% " ++ string_of_Z (snd p) ++ "%".

Definition css_clipPath (c : ClipPath) : string :=
  match c with
  | ClipNone => "none"
  | Polygon points => "polygon(" ++ String.concat ", " (map css_point points) ++ ")"
  end.

(** Mirror images of a corner in the vertical and the horizontal axis of
    the box. *)
Definition mirror_x (p : Z * Z) : Z * Z := (100 - fst p, snd p).
Definition mirror_y (p : Z * Z) : Z * Z := (fst p, 100 - snd p).

End Style.

(** ** Export engine ([exportToPDF]) *)

Module ColorPalette.
Record t := mk { name : string; colors : list string; style : string }.
End ColorPalette.

Module BrandGeneratedData.
Record Story := mkStory {
  vision : string; mission : string; problem : string;
  solution : string; positioning : string }.
Record Marketing := mkMarketing {
  shortDescription : string; longDescription : string }.
Record Fonts := mkFonts { logo : string; heading : string; body : string }.
Record Visuals := mkVisuals {
  palettes : list ColorPalette.t;
  selectedPaletteIndex : Z;
  fonts : Fonts;
  logoPrompt : string;
  logoIconUrl : option string;
  logoSettings : option LogoSettings.t }.
Record t := mk { story : Story; marketing : Marketing; visuals : Visuals }.
End BrandGeneratedData.

Module BrandProject.
Record t := mk {
  id : string;
  name : string;
  industry : string;
  description : string;
  tone : string;
  language : string;
  generatedData : option BrandGeneratedData.t
}.
End BrandProject.

Module Pdf.

(** The calls made on the [jsPDF] document, in order.  Sizes and
    coordinates are JavaScript numbers. *)
Inductive DocOp :=
| setFontSize (size : float)
| setFont (family style : string)
| setTextColor (r g b : Z)
| textCentered (s : string) (x y : float)
| text (s : string) (x y : float)
| textLines (lines : list string) (x y : float)
| addImage (data format : string) (x y w h : float)
| addPage
| setFillColor (c : string)
| rect (x y w h : float) (style : string)
| save (filename : string).

Inductive Exn :=
| ImageError (data : string)
| ColorError (c : string)
| TypeError (msg : string).

Inductive Completion (A : Type) :=
| Normal (a : A)
| Throw (e : Exn).
Arguments Normal {A} a.
Arguments Throw {A} e.

(** A run of a piece of [exportToPDF] from a value of the cursor [y]: how
    it completes, the cursor it leaves, the calls it made on the document
    and what it wrote with [console.error]. *)
Record Run (A : Type) := mkRun {
  completion : Completion A;
  cursor : float;
  emitted : list DocOp;
  logged : list Exn
}.
Arguments mkRun {A}.
Arguments completion {A}.
Arguments cursor {A}.
Arguments emitted {A}.
Arguments logged {A}.

Definition M (A : Type) : Type := float -> Run A.

Definition ret {A} (a : A) : M A := fun y => mkRun (Normal a) y [] [].

Definition bind {A B} (m : M A) (k : A -> M B) : M B :=
  fun y =>
    let r := m y in
    match completion r with
    | Normal a =>
        let r' := k a (cursor r) in
        mkRun (completion r') (cursor r')
              (emitted r ++ emitted r') (logged r ++ logged r')
    | Throw e => mkRun (Throw e) (cursor r) (emitted r) (logged r)
    end.

Definition emit (op : DocOp) : M unit := fun y => mkRun (Normal tt) y [op] [].
Definition get_y : M float := fun y => mkRun (Normal y) y [] [].
Definition set_y (y' : float) : M unit := fun _ => mkRun (Normal tt) y' [] [].
Definition throw {A} (e : Exn) : M A := fun y => mkRun (Throw e) y [] [].
Definition console_error (e : Exn) : M unit :=
  fun y => mkRun (Normal tt) y [] [e].

(** [try { m } catch (e) { handler e }] *)
Definition try_catch (m : M unit) (handler : Exn -> M unit) : M unit :=
  fun y =>
    let r := m y in
    match completion r with
    | Normal a => r
    | Throw e =>
        let r' := handler e (cursor r) in
        mkRun (completion r') (cursor r')
              (emitted r ++ emitted r') (logged r ++ logged r')
    end.

End Pdf.

Declare Scope pdf_scope.
Delimit Scope pdf_scope with pdf.
Notation "x <- c1 ;; c2" := (Pdf.bind c1 (fun x => c2))
  (at level 61, c1 at next level, right associativity) : pdf_scope.
Notation "c1 ;; c2" := (Pdf.bind c1 (fun _ => c2))
  (at level 61, right associativity) : pdf_scope.

(** What the export needs from the [jsPDF] library: the page width, the
    line breaking of a text in the current font size and style to a given
    width, whether [addImage] accepts the image data and whether
    [setFillColor] accepts the colour string (each of the two throws when it
    does not).  The other calls of the export are given strings and numbers
    of the right type and are taken to return. *)
Record JsPDF := mkJsPDF {
  pageWidth : float;
  splitTextToSize : string -> float -> string -> float -> list string;
  decodes : string -> bool;
  acceptsColor : string -> bool
}.

(** [a > b] on numbers: false when either side is [NaN]. *)
Definition gt (a b : float) : bool := PrimFloat.ltb b a.

(** [s.replace(/\s+/g, '_')] on ASCII text. *)
Definition is_space (c : ascii) : bool :=
  match nat_of_ascii c with
  | 9%nat | 10%nat | 11%nat | 12%nat | 13%nat | 32%nat => true
  | _ => false
  end.

Fixpoint replace_spaces (in_run : bool) (s : string) : string :=
  match s with
  | EmptyString => EmptyString
  | String c rest =>
      if is_space c
      then if in_run then replace_spaces true rest
           else String "_" (replace_spaces true rest)
      else String c (replace_spaces false rest)
  end.

Module ExportEngine.
Import Pdf.
Local Open Scope pdf_scope.
Local Open Scope float_scope.

Definition margin : float := 20.

(** [lines.length] as a number. *)
Definition lineCount (lines : list string) : float :=
  PrimFloat.of_uint63 (Uint63.of_Z (Z.of_nat (List.length lines))).

Definition addText (lib : JsPDF) (contentWidth : float)
    (text : string) (size : float) (style : string) (color : Z * Z * Z) : M unit :=
  emit (setFontSize size) ;;
  emit (setFont "helvetica" style) ;;
  emit (setTextColor (fst (fst color)) (snd (fst color)) (snd color)) ;;
  let lines := splitTextToSize lib text size style contentWidth in
  y <- get_y ;;
  (if gt (y + lineCount lines * size * 0.4) 280
   then emit addPage ;; set_y 20
   else ret tt) ;;
  y <- get_y ;;
  emit (textLines lines margin y) ;;
  set_y (y + (lineCount lines * size * 0.4 + 6)).

(** The defaults of [addText]'s [style] and [color] parameters. *)
Definition normal : string := "normal".
Definition dark : Z * Z * Z := (40%Z, 40%Z, 40%Z).
Definition indigo : Z * Z * Z := (79%Z, 70%Z, 229%Z).

(** [y += d] *)
Definition advance (d : float) : M unit := y <- get_y ;; set_y (y + d).

(** [doc.addImage], which throws on data it cannot decode. *)
Definition doc_addImage (lib : JsPDF) (data format : string) (x y w h : float)
  : M unit :=
  if decodes lib data then emit (addImage data format x y w h)
  else throw (ImageError data).

(** [doc.setFillColor], which throws on a string it cannot read as a
    colour. *)
Definition doc_setFillColor (lib : JsPDF) (c : string) : M unit :=
  if acceptsColor lib c then emit (setFillColor c)
  else throw (ColorError c).

(** [palettes[selectedPaletteIndex || 0]]; [None] is [undefined]. *)
Definition selectedPalette (v : BrandGeneratedData.Visuals)
  : option ColorPalette.t :=
  let i := BrandGeneratedData.selectedPaletteIndex v in
  if (i <? 0)%Z then None
  else nth_error (BrandGeneratedData.palettes v) (Z.to_nat i).

(** The body of [palette.colors.forEach], with the running [xOffset]; no
    [try] surrounds it. *)
Fixpoint swatches (lib : JsPDF) (colors : list string) (xOffset : float) : M unit :=
  match colors with
  | [] => ret tt
  | c :: rest =>
      y <- get_y ;;
      doc_setFillColor lib c ;;
      emit (rect xOffset y 30 30 "F") ;;
      emit (setFontSize 10) ;;
      emit (setTextColor 60 60 60) ;;
      emit (text c xOffset (y + 36)) ;;
      swatches lib rest (xOffset + 35)
  end.

(** Page 1: brand name and logo. *)
Definition coverPage (lib : JsPDF) (project : BrandProject.t)
    (d : BrandGeneratedData.t) : M unit :=
  let pageWidth := pageWidth lib in
  emit (setFontSize 50) ;;
  emit (setTextColor 79 70 229) ;;
  emit (textCentered (Canvas.or_string (BrandProject.name project) "Brand Name")
                     (pageWidth / 2) 100) ;;
  (if truthy (BrandGeneratedData.logoIconUrl (BrandGeneratedData.visuals d))
   then
     match BrandGeneratedData.logoIconUrl (BrandGeneratedData.visuals d) with
     | Some url =>
         try_catch
           (doc_addImage lib url "PNG" (pageWidth / 2 - 40) 120 80 80)
           (fun e => console_error e)
     | None => ret tt
     end
   else ret tt) ;;
  emit (setFontSize 12) ;;
  emit (setTextColor 150 150 150) ;;
  emit (textCentered "BrandForge AI Generated Identity" (pageWidth / 2) 280).

(** The pages after the cover, up to and including [doc.save]. *)
Definition laterPages (lib : JsPDF) (project : BrandProject.t)
    (d : BrandGeneratedData.t) : M unit :=
  let contentWidth := pageWidth lib - margin * 2 in
  let addText := addText lib contentWidth in
  let story := BrandGeneratedData.story d in
  let visuals := BrandGeneratedData.visuals d in
  let fonts := BrandGeneratedData.fonts visuals in
  emit addPage ;;
  set_y 20 ;;
  addText "Strategic Overview" 18 "bold" indigo ;;
  advance 5 ;;
  addText ("Industry: " ++ BrandProject.industry project)%string 12 normal dark ;;
  addText ("Tone: " ++ BrandProject.tone project)%string 12 normal dark ;;
  advance 5 ;;
  addText "Vision & Mission" 14 "bold" dark ;;
  addText (BrandGeneratedData.vision story) 11 normal dark ;;
  advance 2 ;;
  addText (BrandGeneratedData.mission story) 11 normal dark ;;
  advance 10 ;;
  addText "Strategic Positioning" 14 "bold" dark ;;
  addText (BrandGeneratedData.positioning story) 11 normal dark ;;
  emit addPage ;;
  set_y 20 ;;
  addText "Visual Identity System" 18 "bold" indigo ;;
  advance 5 ;;
  addText "Color Palette" 14 "bold" dark ;;
  match selectedPalette visuals with
  | None =>
      throw (TypeError "Cannot read properties of undefined (reading 'colors')")
  | Some palette =>
      swatches lib (ColorPalette.colors palette) margin ;;
      advance 50 ;;
      addText "Typography" 14 "bold" dark ;;
      addText ("Logo Font: " ++ BrandGeneratedData.logo fonts)%string 11 normal dark ;;
      addText ("Heading Font: " ++ BrandGeneratedData.heading fonts)%string
              11 normal dark ;;
      addText ("Body Font: " ++ BrandGeneratedData.body fonts)%string 11 normal dark ;;
      advance 10 ;;
      addText "Marketing Content" 14 "bold" dark ;;
      addText (BrandGeneratedData.shortDescription (BrandGeneratedData.marketing d))
              11 normal dark ;;
      emit (save (replace_spaces false (BrandProject.name project) ++ "_BrandKit.pdf")%string)
  end.

(** What one call of [exportToPDF] leaves behind. *)
Record Outcome := mkOutcome {
  exit : Completion unit;
  document : list DocOp;
  console : list Exn
}.

Definition exportToPDF (lib : JsPDF) (project : BrandProject.t) : Outcome :=
  match BrandProject.generatedData project with
  | None => mkOutcome (Normal tt) [] []
  | Some d =>
      let r := (coverPage lib project d ;; laterPages lib project d) 20 in
      mkOutcome (completion r) (emitted r) (logged r)
  end.

(** The downloaded file: the name given to [doc.save] and the calls made on
    the document before it. *)
Fixpoint saved_in (before ops : list DocOp) : option (string * list DocOp) :=
  match ops with
  | [] => None
  | save filename :: _ => Some (filename, rev before)
  | op :: rest => saved_in (op :: before) rest
  end.

Definition saved (o : Outcome) : option (string * list DocOp) :=
  saved_in [] (document o).


(** The same project with the icon image removed. *)
Definition without_icon_data (d : BrandGeneratedData.t) : BrandGeneratedData.t :=
  let v := BrandGeneratedData.visuals d in
  BrandGeneratedData.mk
    (BrandGeneratedData.story d) (BrandGeneratedData.marketing d)
    (BrandGeneratedData.mkVisuals
       (BrandGeneratedData.palettes v) (BrandGeneratedData.selectedPaletteIndex v)
       (BrandGeneratedData.fonts v) (BrandGeneratedData.logoPrompt v)
       None (BrandGeneratedData.logoSettings v)).

Definition without_icon (p : BrandProject.t) : BrandProject.t :=
  BrandProject.mk
    (BrandProject.id p) (BrandProject.name p) (BrandProject.industry p)
    (BrandProject.description p) (BrandProject.tone p) (BrandProject.language p)
    (option_map without_icon_data (BrandProject.generatedData p)).

End ExportEngine.

(** ** Notions used to state the properties *)

(** The targeted layer keeps every field the update does not name. *)
Definition keeps_unnamed_fields (updates : PartialTextLayer.t)
    (el el' : TextLayer.t) : Prop :=
  (PartialTextLayer.id updates = None -> TextLayer.id el' = TextLayer.id el) /\
  (PartialTextLayer.text updates = None -> TextLayer.text el' = TextLayer.text el) /\
  (PartialTextLayer.x updates = None -> TextLayer.x el' = TextLayer.x el) /\
  (PartialTextLayer.y updates = None -> TextLayer.y el' = TextLayer.y el) /\
  (PartialTextLayer.fontSize updates = None ->
   TextLayer.fontSize el' = TextLayer.fontSize el) /\
  (PartialTextLayer.fontFamily updates = None ->
   TextLayer.fontFamily el' = TextLayer.fontFamily el) /\
  (PartialTextLayer.color updates = None -> TextLayer.color el' = TextLayer.color el) /\
  (PartialTextLayer.spacing updates = None ->
   TextLayer.spacing el' = TextLayer.spacing el) /\
  (PartialTextLayer.rotation updates = None ->
   TextLayer.rotation el' = TextLayer.rotation el) /\
  (PartialTextLayer.fontWeight updates = None ->
   TextLayer.fontWeight el' = TextLayer.fontWeight el) /\
  (PartialTextLayer.align updates = None -> TextLayer.align el' = TextLayer.align el).

(** The function [updateSelectedText] maps over the layers. *)
Definition update_layer (sel : option string) (u : PartialTextLayer.t)
    (el : TextLayer.t) : TextLayer.t :=
  if strict_eq (TextLayer.id el) sel then spreadTextLayer el u else el.

(** Width and height of the container. *)
Definition size_of (st : Canvas.t) : Z * Z :=
  (LogoSettings.width (Canvas.logoSettings st),
   LogoSettings.height (Canvas.logoSettings st)).

(** Layer ids as the data model has them: unique, and never the empty
    string ([addTextElement] takes them from the clock). *)
Definition ids_well_formed (l : list TextLayer.t) : Prop :=
  NoDup (map TextLayer.id l) /\ ~ In "" (map TextLayer.id l).

(** The layers drawn with the selection border. *)
Definition selected_layers (st : Canvas.t) : list TextLayer.t :=
  filter (Canvas.shown_selected st) (Canvas.textElements st).

(** Pointer positions reached from [p] by successive deltas. *)
Fixpoint pointer_path (p : Q * Q) (deltas : list (Q * Q)) : list (Q * Q) :=
  match deltas with
  | [] => []
  | d :: rest =>
      let p' := (fst p + fst d, snd p + snd d)%Q in
      p' :: pointer_path p' rest
  end.

(** A drag after the pointer went down: pointer-moves, with the renders of
    the component wherever they fall between them. *)
Definition drag (st : Live.t) (events : list Live.Event) : Live.t :=
  Live.run st events.

(** The pointer-moves [pointer] all handled before the component renders
    again, and the same moves with a render after each. *)
Definition before_render (pointer : list (Q * Q)) : list Live.Event :=
  (map Live.MouseMove pointer ++ [Live.Render])%list.

Definition render_each (pointer : list (Q * Q)) : list Live.Event :=
  flat_map (fun client => [Live.MouseMove client; Live.Render]) pointer.

(** The positions of the layers. *)
Definition positions (l : list TextLayer.t) : list (Q * Q) :=
  map (fun el => (TextLayer.x el, TextLayer.y el)) l.

(** Calls that neither save the document nor add an image. *)
Definition plain (op : Pdf.DocOp) : bool :=
  match op with
  | Pdf.save _ => false
  | Pdf.addImage _ _ _ _ _ _ => false
  | _ => true
  end.

Definition is_save (op : Pdf.DocOp) : bool :=
  match op with
  | Pdf.save _ => true
  | _ => false
  end.

(** A piece of the export that always completes, logs nothing and makes
    only plain calls. *)
Definition Clean {A : Type} (m : Pdf.M A) : Prop :=
  forall y : float,
    (exists a, Pdf.completion (m y) = Pdf.Normal a) /\
    Pdf.logged (m y) = [] /\
    forallb plain (Pdf.emitted (m y)) = true.

(** A piece of the export that always completes, logs nothing and makes
    plain calls followed by one final [save]. *)
Definition Saves (filename : string) (m : Pdf.M unit) : Prop :=
  forall y : float,
    Pdf.completion (m y) = Pdf.Normal tt /\
    Pdf.logged (m y) = [] /\
    exists ops,
      Pdf.emitted (m y) = (ops ++ [Pdf.save filename])%list /\
      forallb plain ops = true.


(** The name under which [exportToPDF] saves. *)
Definition kit_filename (project : BrandProject.t) : string :=
  replace_spaces false (BrandProject.name project) ++ "_BrandKit.pdf".

(** The library with the same page, line breaking and colours, and an
    [addImage] that accepts every image. *)
Definition decoding_all (lib : JsPDF) : JsPDF :=
  mkJsPDF (pageWidth lib) (splitTextToSize lib) (fun _ => true) (acceptsColor lib).

(** The calls that print the cover: the title, the icon, the footer; and
    what the icon step writes to the console. *)
Definition cover_title (lib : JsPDF) (project : BrandProject.t) : list Pdf.DocOp :=
  [Pdf.setFontSize 50; Pdf.setTextColor 79 70 229;
   Pdf.textCentered (Canvas.or_string (BrandProject.name project) "Brand Name")
                    (pageWidth lib / 2)%float 100%float].

Definition cover_footer (lib : JsPDF) : list Pdf.DocOp :=
  [Pdf.setFontSize 12; Pdf.setTextColor 150 150 150;
   Pdf.textCentered "BrandForge AI Generated Identity"
                    (pageWidth lib / 2)%float 280%float].

Definition icon_call (lib : JsPDF) (url : string) : Pdf.DocOp :=
  Pdf.addImage url "PNG" (pageWidth lib / 2 - 40)%float 120%float 80%float 80%float.

Definition icon_url (d : BrandGeneratedData.t) : option string :=
  BrandGeneratedData.logoIconUrl (BrandGeneratedData.visuals d).

Definition cover_icon (lib : JsPDF) (d : BrandGeneratedData.t) : list Pdf.DocOp :=
  match icon_url d with
  | Some url => if truthy (Some url) && decodes lib url then [icon_call lib url] else []
  | None => []
  end.

Definition cover_log (lib : JsPDF) (d : BrandGeneratedData.t) : list Pdf.Exn :=
  match icon_url d with
  | Some url =>
      if truthy (Some url) && negb (decodes lib url) then [Pdf.ImageError url] else []
  | None => []
  end.

(** Sample data: a library that breaks every text into three lines and
    accepts the colours written with a leading [#]. *)
Definition sample_jsPDF (decodes : bool) : JsPDF :=
  mkJsPDF 210%float (fun text _ _ _ => [text; text; text]) (fun _ => decodes)
          (fun c => match c with String "#" _ => true | _ => false end).

Definition sample_data (icon : option string) : BrandGeneratedData.t :=
  BrandGeneratedData.mk
    (BrandGeneratedData.mkStory "vision" "mission" "problem" "solution" "positioning")
    (BrandGeneratedData.mkMarketing "short" "long")
    (BrandGeneratedData.mkVisuals
       [ColorPalette.mk "Main" ["#4f46e5"; "#ffffff"] "bold"] 0
       (BrandGeneratedData.mkFonts "Montserrat" "Poppins" "Lato")
       "a fox" icon None).

Definition sample_project (data : option BrandGeneratedData.t) : BrandProject.t :=
  BrandProject.mk "p1" "Acme  Corp" "Retail" "Shoes" "Bold" "English" data.

Definition sample_layer (id : string) (x y : Q) : TextLayer.t :=
  TextLayer.mk id "ACME" x y 32 "Montserrat" "#4f46e5" 0 0 "bold" align_center.

Definition sample_settings (layers : list TextLayer.t) : LogoSettings.t :=
  LogoSettings.mk "transparent" none 400 400 0 "#4f46e5" 150 false layers.

Definition sample_editor (layers : list TextLayer.t) (sel : option string)
  : Canvas.t :=
  Canvas.mk (sample_settings layers) sel false (0%Q, 0%Q).

(** ** Further notions: composing updates, moving layers *)

(** [{ ...a, ...b }] for one key of two update bags: the later bag wins. *)
Definition later_wins {A : Type} (a b : option A) : option A :=
  match b with
  | Some v => Some v
  | None => a
  end.

(** [{ ...a, ...b }] on updates of a text layer. *)
Definition mergeTextUpdates (a b : PartialTextLayer.t) : PartialTextLayer.t :=
  PartialTextLayer.mk
    (later_wins (PartialTextLayer.id a) (PartialTextLayer.id b))
    (later_wins (PartialTextLayer.text a) (PartialTextLayer.text b))
    (later_wins (PartialTextLayer.x a) (PartialTextLayer.x b))
    (later_wins (PartialTextLayer.y a) (PartialTextLayer.y b))
    (later_wins (PartialTextLayer.fontSize a) (PartialTextLayer.fontSize b))
    (later_wins (PartialTextLayer.fontFamily a) (PartialTextLayer.fontFamily b))
    (later_wins (PartialTextLayer.color a) (PartialTextLayer.color b))
    (later_wins (PartialTextLayer.spacing a) (PartialTextLayer.spacing b))
    (later_wins (PartialTextLayer.rotation a) (PartialTextLayer.rotation b))
    (later_wins (PartialTextLayer.fontWeight a) (PartialTextLayer.fontWeight b))
    (later_wins (PartialTextLayer.align a) (PartialTextLayer.align b)).

(** [{ ...a, ...b }] on updates of the logo settings. *)
Definition mergeLogoUpdates (a b : PartialLogoSettings.t) : PartialLogoSettings.t :=
  PartialLogoSettings.mk
    (later_wins (PartialLogoSettings.bgColor a) (PartialLogoSettings.bgColor b))
    (later_wins (PartialLogoSettings.shape a) (PartialLogoSettings.shape b))
    (later_wins (PartialLogoSettings.width a) (PartialLogoSettings.width b))
    (later_wins (PartialLogoSettings.height a) (PartialLogoSettings.height b))
    (later_wins (PartialLogoSettings.borderRadius a) (PartialLogoSettings.borderRadius b))
    (later_wins (PartialLogoSettings.iconColor a) (PartialLogoSettings.iconColor b))
    (later_wins (PartialLogoSettings.iconSize a) (PartialLogoSettings.iconSize b))
    (later_wins (PartialLogoSettings.tintIcon a) (PartialLogoSettings.tintIcon b))
    (later_wins (PartialLogoSettings.textElements a) (PartialLogoSettings.textElements b)).

(** The update bag of the tint checkbox: [{ tintIcon: checked }]. *)
Definition just_tintIcon (checked : bool) : PartialLogoSettings.t :=
  PartialLogoSettings.mk None None None None None None None (Some checked) None.

(** The layer that [addTextElement] builds ([newText]). *)
Definition newTextLayer (projectName logoFont firstColor : string) (now : N)
    (st : Canvas.t) : TextLayer.t :=
  TextLayer.mk (Canvas.timestamp_id now) (Canvas.or_string projectName "Brand Name")
    (inject_Z (LogoSettings.width (Canvas.logoSettings st)) / 2)%Q
    (inject_Z (LogoSettings.height (Canvas.logoSettings st)) / 2 + 80)%Q
    32 (Canvas.or_string logoFont "Montserrat") firstColor 0 0 "bold" align_center.

(** Two layers that differ at most in their position. *)
Definition same_but_position (el el' : TextLayer.t) : Prop :=
  TextLayer.id el' = TextLayer.id el /\
  TextLayer.text el' = TextLayer.text el /\
  TextLayer.fontSize el' = TextLayer.fontSize el /\
  TextLayer.fontFamily el' = TextLayer.fontFamily el /\
  TextLayer.color el' = TextLayer.color el /\
  TextLayer.spacing el' = TextLayer.spacing el /\
  TextLayer.rotation el' = TextLayer.rotation el /\
  TextLayer.fontWeight el' = TextLayer.fontWeight el /\
  TextLayer.align el' = TextLayer.align el.

(** Position by position, the layers of [after] are those of [before],
    moved at most, and not even moved unless they carry the id [sel]. *)
Definition moved_only (sel : option string) (before after : list TextLayer.t) : Prop :=
  Forall2 (fun el el' =>
             same_but_position el el' /\
             (strict_eq (TextLayer.id el) sel = false -> el' = el))
          before after.

(** Two settings with the same container and icon; only the layers may
    differ. *)
Definition same_container (a b : LogoSettings.t) : Prop :=
  LogoSettings.bgColor b = LogoSettings.bgColor a /\
  LogoSettings.shape b = LogoSettings.shape a /\
  LogoSettings.width b = LogoSettings.width a /\
  LogoSettings.height b = LogoSettings.height a /\
  LogoSettings.borderRadius b = LogoSettings.borderRadius a /\
  LogoSettings.iconColor b = LogoSettings.iconColor a /\
  LogoSettings.iconSize b = LogoSettings.iconSize a /\
  LogoSettings.tintIcon b = LogoSettings.tintIcon a.

(** An update bag that names at most shape, width and height. *)
Definition only_shape_and_size (u : PartialLogoSettings.t) : Prop :=
  PartialLogoSettings.bgColor u = None /\
  PartialLogoSettings.borderRadius u = None /\
  PartialLogoSettings.iconColor u = None /\
  PartialLogoSettings.iconSize u = None /\
  PartialLogoSettings.tintIcon u = None /\
  PartialLogoSettings.textElements u = None.

(** Events that neither press the pointer on a layer nor delete. *)
Definition passive (e : Canvas.Event) : bool :=
  match e with
  | Canvas.MouseDown _ _ => false
  | Canvas.DeleteClick => false
  | _ => true
  end.

(** ** Further notions: the exported document *)

(** The same project with other composer settings. *)
Definition with_logoSettings (ls : option LogoSettings.t) (p : BrandProject.t)
  : BrandProject.t :=
  BrandProject.mk
    (BrandProject.id p) (BrandProject.name p) (BrandProject.industry p)
    (BrandProject.description p) (BrandProject.tone p) (BrandProject.language p)
    (option_map
       (fun d =>
          let v := BrandGeneratedData.visuals d in
          BrandGeneratedData.mk
            (BrandGeneratedData.story d) (BrandGeneratedData.marketing d)
            (BrandGeneratedData.mkVisuals
               (BrandGeneratedData.palettes v) (BrandGeneratedData.selectedPaletteIndex v)
               (BrandGeneratedData.fonts v) (BrandGeneratedData.logoPrompt v)
               (BrandGeneratedData.logoIconUrl v) ls))
       (BrandProject.generatedData p)).

(** The number of pages of a document: the first one and one per
    [addPage]. *)
Definition is_addPage (op : Pdf.DocOp) : bool :=
  match op with
  | Pdf.addPage => true
  | _ => false
  end.

Definition pages (ops : list Pdf.DocOp) : nat :=
  S (List.length (filter is_addPage ops)).

(** A piece of the export that adds at least [n] pages. *)
Definition AddsPages (n : nat) (m : Pdf.M unit) : Prop :=
  forall y : float, (n <= List.length (filter is_addPage (Pdf.emitted (m y))))%nat.

(** The [xOffset] of the swatch at position [i] of the row: 35 added [i]
    times, as the loop does. *)
Definition swatch_offset (i : nat) (xOffset : float) : float :=
  Nat.iter i (fun x => (x + 35)%float) xOffset.

(** The five calls that draw the swatch of the colour [c] at [xOffset] for
    the cursor [y], in the order they are made. *)
Definition swatch_calls (c : string) (xOffset y : float) : list Pdf.DocOp :=
  [Pdf.setFillColor c;
   Pdf.rect xOffset y 30%float 30%float "F";
   Pdf.setFontSize 10%float;
   Pdf.setTextColor 60 60 60;
   Pdf.text c xOffset (y + 36)%float].

(** The calls of a whole row of swatches from [xOffset], for the cursor
    [y]. *)
Fixpoint row_calls (colors : list string) (xOffset y : float) : list Pdf.DocOp :=
  match colors with
  | [] => []
  | c :: rest => swatch_calls c xOffset y ++ row_calls rest (xOffset + 35)%float y
  end.

(** The calls number [5 * i] to [5 * i + 4] of a document. *)
Definition calls_of_swatch (i : nat) (ops : list Pdf.DocOp) : list Pdf.DocOp :=
  firstn 5 (skipn (5 * i) ops).

(** ** Further notions: what a document prints *)

(** A call of the document with its vertical position left open, where that
    position comes from the cursor. *)
Inductive Piece :=
| call (op : Pdf.DocOp)
| lines_at_cursor (lines : list string) (x : float)
| rect_at_cursor (x w h : float) (style : string)
| text_below_cursor (s : string) (x : float).

(** [prints doc pieces]: the calls of [doc] are the pieces, in this order
    and with nothing else between them; the vertical positions of blocks,
    rectangles and labels are free, and a block may come after the page
    break of a block that did not fit, in which case it stands at 20. *)
Inductive prints : list Pdf.DocOp -> list Piece -> Prop :=
| prints_nil : prints [] []
| prints_call (op : Pdf.DocOp) (doc : list Pdf.DocOp) (ps : list Piece) :
    prints doc ps -> prints (op :: doc) (call op :: ps)
| prints_lines (lines : list string) (x y : float)
    (doc : list Pdf.DocOp) (ps : list Piece) :
    prints doc ps ->
    prints (Pdf.textLines lines x y :: doc) (lines_at_cursor lines x :: ps)
| prints_lines_on_new_page (lines : list string) (x : float)
    (doc : list Pdf.DocOp) (ps : list Piece) :
    prints doc ps ->
    prints (Pdf.addPage :: Pdf.textLines lines x 20%float :: doc)
           (lines_at_cursor lines x :: ps)
| prints_rect (x y w h : float) (style : string)
    (doc : list Pdf.DocOp) (ps : list Piece) :
    prints doc ps ->
    prints (Pdf.rect x y w h style :: doc) (rect_at_cursor x w h style :: ps)
| prints_text (s : string) (x y : float) (doc : list Pdf.DocOp) (ps : list Piece) :
    prints doc ps ->
    prints (Pdf.text s x y :: doc) (text_below_cursor s x :: ps).

(** A piece of the export that always completes, logs nothing and prints
    [pieces]. *)
Definition Prints {A : Type} (pieces : list Piece) (m : Pdf.M A) : Prop :=
  forall y : float,
    (exists a, Pdf.completion (m y) = Pdf.Normal a) /\
    Pdf.logged (m y) = [] /\
    prints (Pdf.emitted (m y)) pieces.

(** The width of the text column. *)
Definition contentWidth (lib : JsPDF) : float :=
  (pageWidth lib - ExportEngine.margin * 2)%float.

(** One block of text: font size, font, colour, then the lines the library
    breaks the text into, at the left margin. *)
Definition block (lib : JsPDF) (text : string) (size : float) (style : string)
    (color : Z * Z * Z) : list Piece :=
  [call (Pdf.setFontSize size);
   call (Pdf.setFont "helvetica" style);
   call (Pdf.setTextColor (fst (fst color)) (snd (fst color)) (snd color));
   lines_at_cursor (splitTextToSize lib text size style (contentWidth lib))
                   ExportEngine.margin].

(** The row of swatches: per colour a filled 30 by 30 rectangle and the
    colour's text as label, 35 further right each time. *)
Fixpoint swatch_row (colors : list string) (xOffset : float) : list Piece :=
  match colors with
  | [] => []
  | c :: rest =>
      [call (Pdf.setFillColor c);
       rect_at_cursor xOffset 30%float 30%float "F";
       call (Pdf.setFontSize 10%float);
       call (Pdf.setTextColor 60 60 60);
       text_below_cursor c xOffset]
      ++ swatch_row rest (xOffset + 35)%float
  end.

(** The strategy page(s). *)
Definition strategy_pieces (lib : JsPDF) (project : BrandProject.t)
    (d : BrandGeneratedData.t) : list Piece :=
  let story := BrandGeneratedData.story d in
  ([call Pdf.addPage]
   ++ block lib "Strategic Overview" 18%float "bold" (79, 70, 229)
   ++ block lib ("Industry: " ++ BrandProject.industry project) 12%float
            "normal" (40, 40, 40)
   ++ block lib ("Tone: " ++ BrandProject.tone project) 12%float "normal" (40, 40, 40)
   ++ block lib "Vision & Mission" 14%float "bold" (40, 40, 40)
   ++ block lib (BrandGeneratedData.vision story) 11%float "normal" (40, 40, 40)
   ++ block lib (BrandGeneratedData.mission story) 11%float "normal" (40, 40, 40)
   ++ block lib "Strategic Positioning" 14%float "bold" (40, 40, 40)
   ++ block lib (BrandGeneratedData.positioning story) 11%float "normal" (40, 40, 40))%list.

(** The visual-identity page(s), for the colours of the selected palette. *)
Definition identity_pieces (lib : JsPDF) (d : BrandGeneratedData.t)
    (colors : list string) : list Piece :=
  let fonts := BrandGeneratedData.fonts (BrandGeneratedData.visuals d) in
  ([call Pdf.addPage]
   ++ block lib "Visual Identity System" 18%float "bold" (79, 70, 229)
   ++ block lib "Color Palette" 14%float "bold" (40, 40, 40)
   ++ swatch_row colors 20%float
   ++ block lib "Typography" 14%float "bold" (40, 40, 40)
   ++ block lib ("Logo Font: " ++ BrandGeneratedData.logo fonts) 11%float
            "normal" (40, 40, 40)
   ++ block lib ("Heading Font: " ++ BrandGeneratedData.heading fonts) 11%float
            "normal" (40, 40, 40)
   ++ block lib ("Body Font: " ++ BrandGeneratedData.body fonts) 11%float
            "normal" (40, 40, 40)
   ++ block lib "Marketing Content" 14%float "bold" (40, 40, 40)
   ++ block lib (BrandGeneratedData.shortDescription (BrandGeneratedData.marketing d))
            11%float "normal" (40, 40, 40))%list.

(** The whole kit with the image calls [icon] on its cover: title, icon,
    footer, strategy, visual identity.  With no image call it is the
    document that remains when the icon is left out. *)
Definition kit_pieces (icon : list Pdf.DocOp) (lib : JsPDF) (project : BrandProject.t)
    (d : BrandGeneratedData.t) (colors : list string) : list Piece :=
  (map call (cover_title lib project ++ icon ++ cover_footer lib)
   ++ strategy_pieces lib project d
   ++ identity_pieces lib d colors)%list.

(** ** Accounts ([simpleHash] and [handleAuth] of the sign-in screen) *)

(** A number as a signed 32-bit integer, as the bit operators take their
    operands and give their result. *)
Definition toInt32 (n : Z) : Z := (n + 2 ^ 31) mod 2 ^ 32 - 2 ^ 31.

(** [a << n] and [a & b] *)
Definition shl (a n : Z) : Z := toInt32 (Z.shiftl (toInt32 a) n).
Definition band (a b : Z) : Z := Z.land (toInt32 a) (toInt32 b).

(** The loop of [simpleHash] over the character codes of the string. *)
Fixpoint hashLoop (codes : list Z) (hash : Z) : Z :=
  match codes with
  | [] => hash
  | char :: rest =>
      let hash := shl hash 5 - hash + char in
      let hash := band hash hash in
      hashLoop rest hash
  end.

(** [str.charCodeAt(i)] for every [i], on ASCII text. *)
Definition charCodes (str : string) : list Z :=
  map (fun c => Z.of_nat (nat_of_ascii c)) (list_ascii_of_string str).

Definition simpleHash (str : string) : string :=
  string_of_Z (hashLoop (charCodes str) 0).

(** The polynomial hash with multiplier 31, in unbounded integers. *)
Definition polynomial31 (codes : list Z) : Z :=
  fold_left (fun h c => 31 * h + c) codes 0.

Module User.
Record t := mk {
  id : string;
  email : string;
  name : string;
  passwordHash : string
}.
End User.

Module Auth.

(** The two keys of [localStorage] the screen uses, as the values their
    JSON text stands for; [None] is a key that is not set. *)
Record Storage := mkStorage {
  bf_users : option (list User.t);
  bf_session : option User.t
}.

(** The state of the form when it is submitted. *)
Record Form := mkForm {
  isLogin : bool;
  email : string;
  name : string;
  password : string;
  confirmPassword : string
}.

(** What a submit leaves: the storage, the error shown, and the user handed
    to [onLogin], if any. *)
Record Outcome := mkOutcome {
  storage : Storage;
  error : string;
  onLogin : option User.t
}.

(** [JSON.parse(localStorage.getItem('bf_users') || '[]')] *)
Definition storedUsers (st : Storage) : list User.t :=
  match bf_users st with
  | Some users => users
  | None => []
  end.

(** [s.split(sep)[0]] *)
Fixpoint before_first (sep : ascii) (s : string) : string :=
  match s with
  | EmptyString => EmptyString
  | String c rest =>
      if Ascii.eqb c sep then EmptyString else String c (before_first sep rest)
  end.

Definition handleAuth (now : N) (form : Form) (st : Storage) : Outcome :=
  if negb (isLogin form) && negb (String.eqb (password form) (confirmPassword form))
  then mkOutcome st "Passwords do not match." None
  else
    let users := storedUsers st in
    let hashedPassword := simpleHash (password form) in
    if isLogin form then
      match find (fun u => String.eqb (User.email u) (email form)
                           && String.eqb (User.passwordHash u) hashedPassword) users with
      | Some user => mkOutcome (mkStorage (bf_users st) (Some user)) "" (Some user)
      | None => mkOutcome st "Invalid credentials or account does not exist." None
      end
    else
      match find (fun u => String.eqb (User.email u) (email form)) users with
      | Some _ => mkOutcome st "User already exists. Please login." None
      | None =>
          let newUser :=
            User.mk (Canvas.timestamp_id now) (email form)
                    (Canvas.or_string (name form) (before_first "@" (email form)))
                    hashedPassword in
          mkOutcome (mkStorage (Some (users ++ [newUser])%list) (Some newUser))
                    "" (Some newUser)
      end.

(** The sign-up and the sign-in form for an email and a password. *)
Definition signUp (email name password : string) : Form :=
  mkForm false email name password password.

Definition signIn (email password : string) : Form :=
  mkForm true email "" password "".

End Auth.

(** ** The project list ([App]) *)

(** A project as the list holds it: the fields the export reads, and
    [createdAt]. *)
Module Project.
Record t := mk {
  fields : BrandProject.t;
  createdAt : Z
}.

Definition id (p : t) : string := BrandProject.id (fields p).
Definition name (p : t) : string := BrandProject.name (fields p).

(** [{ ...p, name }] *)
Definition with_name (p : t) (name : string) : t :=
  mk (BrandProject.mk
        (BrandProject.id (fields p)) name (BrandProject.industry (fields p))
        (BrandProject.description (fields p)) (BrandProject.tone (fields p))
        (BrandProject.language (fields p)) (BrandProject.generatedData (fields p)))
     (createdAt p).
End Project.

Module App.

Inductive View := dashboard | new | editor.

(** The state of [App] that the project handlers read and write, with the
    [bf_projects] key of [localStorage] as the list its JSON text stands
    for. *)
Record t := mk {
  projects : list Project.t;
  view : View;
  selectedProject : option Project.t;
  industry : string;
  description : string;
  tone : string;
  language : string;
  isGenerating : bool;
  bf_projects : option (list Project.t)
}.

Definition setProjects (st : t) (l : list Project.t) : t :=
  mk l (view st) (selectedProject st) (industry st) (description st) (tone st)
     (language st) (isGenerating st) (bf_projects st).

Definition setSelectedProject (st : t) (p : option Project.t) : t :=
  mk (projects st) (view st) p (industry st) (description st) (tone st)
     (language st) (isGenerating st) (bf_projects st).

Definition setView (st : t) (v : View) : t :=
  mk (projects st) v (selectedProject st) (industry st) (description st) (tone st)
     (language st) (isGenerating st) (bf_projects st).

Definition setIsGenerating (st : t) (b : bool) : t :=
  mk (projects st) (view st) (selectedProject st) (industry st) (description st)
     (tone st) (language st) b (bf_projects st).

(** The effect "save projects on change": it writes only a list that is not
    empty. *)
Definition saveProjects (st : t) : t :=
  match projects st with
  | [] => st
  | _ :: _ =>
      mk (projects st) (view st) (selectedProject st) (industry st) (description st)
         (tone st) (language st) (isGenerating st) (Some (projects st))
  end.

(** The state after the first render and its effects, for what the storage
    holds. *)
Definition mount (stored : option (list Project.t)) : t :=
  let st := mk [] dashboard None "" "" "Professional" "English" false stored in
  match stored with
  | Some savedProjects => saveProjects (setProjects st savedProjects)
  | None => st
  end.

Definition handleNewProject (st : t) : t :=
  mk (projects st) new (selectedProject st) "" "" "Professional" "English"
     (isGenerating st) (bf_projects st).

(** [createProject] before its request: nothing happens unless industry and
    description are filled in. *)
Definition createProject_starts (st : t) : bool :=
  negb (String.eqb (industry st) "") && negb (String.eqb (description st) "").

(** [createProject] once the request has settled: [generated] is the bundle
    with the names it proposes, or [None] when the request failed; the two
    clock values are those of the two [Date.now()] calls. *)
Definition createProject (generated : option (list string * BrandGeneratedData.t))
    (now now' : N) (st : t) : t :=
  if negb (createProject_starts st) then st
  else
    let st := setIsGenerating st true in
    let st :=
      match generated with
      | Some (name0 :: _, data) =>
          let newProject :=
            Project.mk
              (BrandProject.mk (Canvas.timestamp_id now) name0 (industry st)
                 (description st) (tone st) (language st) (Some data))
              (Z.of_N now') in
          saveProjects
            (setView
               (setSelectedProject (setProjects st (newProject :: projects st))
                                   (Some newProject))
               editor)
      | Some ([], _) => st
      | None => st
      end in
    setIsGenerating st false.

Definition updateProject (updated : Project.t) (st : t) : t :=
  let updatedProjects :=
    map (fun p => if String.eqb (Project.id p) (Project.id updated) then updated else p)
        (projects st) in
  saveProjects (setSelectedProject (setProjects st updatedProjects) (Some updated)).

(** [confirmed] is the answer to the [confirm] dialog. *)
Definition deleteProject (id : string) (confirmed : bool) (st : t) : t :=
  if confirmed
  then saveProjects
         (setProjects st
            (filter (fun p => negb (String.eqb (Project.id p) id)) (projects st)))
  else st.

(** The rename entry of the card menu; [answer] is what [prompt] returned,
    [None] when it was cancelled. *)
Definition rename (id : string) (answer : option string) (st : t) : t :=
  if truthy answer
  then
    match answer with
    | Some name =>
        saveProjects
          (setProjects st
             (map (fun p => if String.eqb (Project.id p) id
                            then Project.with_name p name else p)
                  (projects st)))
    | None => st
    end
  else st.

Definition select (p : Project.t) (st : t) : t :=
  setView (setSelectedProject st (Some p)) editor.

Inductive Event :=
| NewProject
| CreateProject (generated : option (list string * BrandGeneratedData.t)) (now now' : N)
| UpdateProject (updated : Project.t)
| DeleteProject (id : string) (confirmed : bool)
| Rename (id : string) (answer : option string)
| Select (p : Project.t)
| Back.

Definition step (st : t) (e : Event) : t :=
  match e with
  | NewProject => handleNewProject st
  | CreateProject generated now now' => createProject generated now now' st
  | UpdateProject updated => updateProject updated st
  | DeleteProject id confirmed => deleteProject id confirmed st
  | Rename id answer => rename id answer st
  | Select p => select p st
  | Back => setView st dashboard
  end.

Definition run (st : t) (events : list Event) : t := fold_left step events st.

End App.

(** The stored list is the list on screen, unless that list is empty. *)
Definition stored_in_sync (st : App.t) : Prop :=
  App.projects st = [] \/ App.bf_projects st = Some (App.projects st).

(** ** Generating the icon ([handleGenerateLogo] of the editor) *)

Module Editor.

(** The [data] state of the editor and its in-flight flag. *)
Record t := mk {
  data : option BrandGeneratedData.t;
  isGeneratingLogo : bool
}.

(** [{ ...prev, visuals: { ...prev.visuals, logoIconUrl: url } }] *)
Definition with_icon (url : string) (prev : BrandGeneratedData.t)
  : BrandGeneratedData.t :=
  let v := BrandGeneratedData.visuals prev in
  BrandGeneratedData.mk
    (BrandGeneratedData.story prev) (BrandGeneratedData.marketing prev)
    (BrandGeneratedData.mkVisuals
       (BrandGeneratedData.palettes v) (BrandGeneratedData.selectedPaletteIndex v)
       (BrandGeneratedData.fonts v) (BrandGeneratedData.logoPrompt v)
       (Some url) (BrandGeneratedData.logoSettings v)).

(** [!data?.visuals.logoPrompt] is false: a request is made. *)
Definition handleGenerateLogo_starts (st : t) : bool :=
  match data st with
  | Some d =>
      negb (String.eqb (BrandGeneratedData.logoPrompt (BrandGeneratedData.visuals d)) "")
  | None => false
  end.

(** [handleGenerateLogo] once the request has settled: [result] is the image
    it returned, or [None] when it failed. *)
Definition handleGenerateLogo (result : option string) (st : t) : t :=
  if negb (handleGenerateLogo_starts st) then st
  else
    let st := mk (data st) true in
    let st :=
      match result with
      | Some url => mk (option_map (with_icon url) (data st)) (isGeneratingLogo st)
      | None => st
      end in
    mk (data st) false.

End Editor.

(** ** The chat widget ([sendMessage]) *)

Module Chat.

Inductive Role := user | model.

Record ChatMessage := mkMessage {
  role : Role;
  text : string;
  timestamp : N
}.

(** The state of the widget, the [bf_chat_session] key of [sessionStorage]
    as the list its JSON text stands for, and the number of requests that
    have not settled yet. *)
Record t := mk {
  messages : list ChatMessage;
  input : string;
  isLoading : bool;
  bf_chat_session : option (list ChatMessage);
  inFlight : nat
}.

(** [!input.trim()] on ASCII text: nothing but whitespace. *)
Definition blank (s : string) : bool := forallb is_space (list_ascii_of_string s).

(** The effect that saves a transcript that is not empty. *)
Definition saveSession (st : t) : t :=
  match messages st with
  | [] => st
  | _ :: _ => mk (messages st) (input st) (isLoading st) (Some (messages st)) (inFlight st)
  end.

(** [sendMessage] up to its request. *)
Definition sendMessage (now : N) (st : t) : t :=
  if blank (input st) then st
  else
    let userMsg := mkMessage user (input st) now in
    saveSession (mk (messages st ++ [userMsg])%list "" true (bf_chat_session st)
                    (S (inFlight st))).

(** The request of [sendMessage]: the transcript before the message, and the
    message. *)
Definition request (st : t) : option (list (Role * string) * string) :=
  if blank (input st) then None
  else Some (map (fun m => (role m, text m)) (messages st), input st).

(** [sendMessage] from the reply on: [reply] is the text returned, or [None]
    when the request failed. *)
Definition settle (reply : option string) (now : N) (st : t) : t :=
  match inFlight st with
  | O => st
  | S pending =>
      let answer :=
        match reply with
        | Some response => Canvas.or_string response "I'm here to help."
        | None => "Sorry, I can't connect right now."
        end in
      saveSession (mk (messages st ++ [mkMessage model answer now])%list (input st) false
                      (bf_chat_session st) pending)
  end.

Inductive Event :=
| Type_ (s : string)
| Send (now : N)
| Settle (reply : option string) (now : N).

Definition step (st : t) (e : Event) : t :=
  match e with
  | Type_ s => mk (messages st) s (isLoading st) (bf_chat_session st) (inFlight st)
  | Send now => sendMessage now st
  | Settle reply now => settle reply now st
  end.

Definition run (st : t) (events : list Event) : t := fold_left step events st.

(** The widget as mounted, for what the session storage holds. *)
Definition mount (saved : option (list ChatMessage)) : t :=
  match saved with
  | Some l => saveSession (mk l "" false saved 0)
  | None => mk [] "" false None 0
  end.

Definition count_role (r : Role) (l : list ChatMessage) : nat :=
  List.length (filter (fun m => match role m, r with
                                | user, user => true
                                | model, model => true
                                | _, _ => false
                                end) l).

(** No bubble is empty: a message of the user is not blank and a message of
    the advisor has some text. *)
Definition has_text (m : ChatMessage) : bool :=
  match role m with
  | user => negb (blank (text m))
  | model => negb (String.eqb (text m) "")
  end.

End Chat.

(** * Properties *)

(** ** Spreading records *)

Lemma spreadLogoSettings_textElements (s : LogoSettings.t) (l : list TextLayer.t) :
  spreadLogoSettings s (Canvas.just_textElements l)
  = LogoSettings.mk (LogoSettings.bgColor s) (LogoSettings.shape s)
      (LogoSettings.width s) (LogoSettings.height s) (LogoSettings.borderRadius s)
      (LogoSettings.iconColor s) (LogoSettings.iconSize s) (LogoSettings.tintIcon s) l.
Proof. reflexivity. Qed.

Lemma spreadLogoSettings_same_textElements (s : LogoSettings.t) :
  spreadLogoSettings s (Canvas.just_textElements (LogoSettings.textElements s)) = s.
Proof. destruct s; reflexivity. Qed.

Lemma spreadTextLayer_id_None (el : TextLayer.t) (u : PartialTextLayer.t) :
  PartialTextLayer.id u = None ->
  TextLayer.id (spreadTextLayer el u) = TextLayer.id el.
Proof. intros H. cbn. rewrite H. reflexivity. Qed.

Lemma spreadTextLayer_keeps (el : TextLayer.t) (u : PartialTextLayer.t) :
  keeps_unnamed_fields u el (spreadTextLayer el u).
Proof.
  unfold keeps_unnamed_fields; cbn.
  repeat split; intros H; rewrite H; reflexivity.
Qed.

Lemma keeps_unnamed_fields_refl (u : PartialTextLayer.t) (el : TextLayer.t) :
  keeps_unnamed_fields u el el.
Proof. unfold keeps_unnamed_fields; repeat split; reflexivity. Qed.

(** ** The update of the selected layer, as a map over the collection *)

Lemma updateSelectedText_falsy (st : Canvas.t) (u : PartialTextLayer.t) :
  truthy (Canvas.selectedElementId st) = false ->
  Canvas.updateSelectedText st u = st.
Proof. intros H. unfold Canvas.updateSelectedText. rewrite H. reflexivity. Qed.

Lemma updateSelectedText_truthy (st : Canvas.t) (u : PartialTextLayer.t) :
  truthy (Canvas.selectedElementId st) = true ->
  Canvas.updateSelectedText st u
  = Canvas.updateLogoSettings st
      (Canvas.just_textElements
         (map (update_layer (Canvas.selectedElementId st) u) (Canvas.textElements st))).
Proof. intros H. unfold Canvas.updateSelectedText. rewrite H. reflexivity. Qed.

Lemma map_update_layer_no_match (sel : option string) (u : PartialTextLayer.t)
    (l : list TextLayer.t) :
  (forall el, In el l -> strict_eq (TextLayer.id el) sel = false) ->
  map (update_layer sel u) l = l.
Proof.
  induction l as [|el l IH]; intros Hno; cbn; [reflexivity|].
  unfold update_layer at 1. rewrite (Hno el (or_introl eq_refl)).
  f_equal. apply IH. intros el' Hin. apply Hno. right. exact Hin.
Qed.

Lemma textElements_updateSelectedText (st : Canvas.t) (u : PartialTextLayer.t) :
  Canvas.textElements (Canvas.updateSelectedText st u)
  = if truthy (Canvas.selectedElementId st)
    then map (update_layer (Canvas.selectedElementId st) u) (Canvas.textElements st)
    else Canvas.textElements st.
Proof.
  destruct (truthy (Canvas.selectedElementId st)) eqn:Ht.
  - rewrite updateSelectedText_truthy by exact Ht. reflexivity.
  - rewrite updateSelectedText_falsy by exact Ht. reflexivity.
Qed.

Lemma update_layer_id (sel : option string) (u : PartialTextLayer.t) (el : TextLayer.t) :
  (forall i, PartialTextLayer.id u = Some i -> sel = Some i) ->
  TextLayer.id (update_layer sel u el) = TextLayer.id el.
Proof.
  intros Hid. unfold update_layer.
  destruct (strict_eq (TextLayer.id el) sel) eqn:E; [|reflexivity].
  cbn. destruct (PartialTextLayer.id u) as [i|]; cbn; [|reflexivity].
  rewrite (Hid i eq_refl) in E. cbn in E.
  apply String.eqb_eq in E. congruence.
Qed.

(** ** C1: shape buttons *)

(** C1 (as the code has it): choosing rectangle or oval sets the container to
    500 by 300 and choosing any of the six other shapes sets it to 400 by
    400, whatever the size was before; the chosen shape is stored and the
    other settings, the selection and the drag state are untouched. *)
Theorem selectShape_resets_size (st : Canvas.t) :
  size_of (Canvas.selectShape rectangle st) = (500, 300) /\
  size_of (Canvas.selectShape oval st) = (500, 300) /\
  size_of (Canvas.selectShape none st) = (400, 400) /\
  size_of (Canvas.selectShape square st) = (400, 400) /\
  size_of (Canvas.selectShape rounded st) = (400, 400) /\
  size_of (Canvas.selectShape circle st) = (400, 400) /\
  size_of (Canvas.selectShape triangle st) = (400, 400) /\
  size_of (Canvas.selectShape hexagon st) = (400, 400) /\
  forall s : Shape,
    let ls := Canvas.logoSettings st in
    let ls' := Canvas.logoSettings (Canvas.selectShape s st) in
    LogoSettings.shape ls' = s /\
    LogoSettings.bgColor ls' = LogoSettings.bgColor ls /\
    LogoSettings.borderRadius ls' = LogoSettings.borderRadius ls /\
    LogoSettings.iconColor ls' = LogoSettings.iconColor ls /\
    LogoSettings.iconSize ls' = LogoSettings.iconSize ls /\
    LogoSettings.tintIcon ls' = LogoSettings.tintIcon ls /\
    LogoSettings.textElements ls' = LogoSettings.textElements ls /\
    Canvas.selectedElementId (Canvas.selectShape s st) = Canvas.selectedElementId st.
Proof.
  repeat split.
Qed.

(** C1, the claim as written fails: from a 400 by 400 container, choosing
    oval gives 500 by 300, not 400 by 400. *)
Lemma selectShape_oval_is_not_400 :
  size_of (Canvas.selectShape oval (sample_editor [] None)) = (500, 300) /\
  size_of (Canvas.selectShape oval (sample_editor [] None)) <> (400, 400).
Proof. split; [reflexivity | discriminate]. Qed.

(** ** C5: update with an id that matches no layer *)

(** C5: when the selected id matches no layer of the collection (a stale id,
    or no selection at all), [updateSelectedText] changes nothing, whatever
    the update: the collection is the same list of the same values, and so is
    the whole editor state.  The operation is a total function: there is no
    error path. *)
Theorem updateSelectedText_unknown_id
    (st : Canvas.t) (updates : PartialTextLayer.t) :
  (forall el, In el (Canvas.textElements st) ->
              strict_eq (TextLayer.id el) (Canvas.selectedElementId st) = false) ->
  Canvas.textElements (Canvas.updateSelectedText st updates) = Canvas.textElements st /\
  Canvas.updateSelectedText st updates = st.
Proof.
  intros Hno.
  assert (E : Canvas.updateSelectedText st updates = st).
  { destruct (truthy (Canvas.selectedElementId st)) eqn:Ht.
    - rewrite updateSelectedText_truthy by exact Ht.
      rewrite map_update_layer_no_match by exact Hno.
      destruct st as [ls sel dr ds]. unfold Canvas.updateLogoSettings; cbn.
      unfold Canvas.textElements; cbn.
      rewrite spreadLogoSettings_same_textElements. reflexivity.
    - apply updateSelectedText_falsy. exact Ht. }
  rewrite E. split; reflexivity.
Qed.

Lemma updateSelectedText_unknown_id_witness :
  let st := sample_editor [sample_layer "17" 200 280; sample_layer "18" 10 10]
                          (Some "16") in
  Canvas.updateSelectedText st (Canvas.just_spacing 7) = st.
Proof.
  cbv zeta.
  apply (updateSelectedText_unknown_id
           (sample_editor [sample_layer "17" 200 280; sample_layer "18" 10 10]
                          (Some "16"))
           (Canvas.just_spacing 7)).
  intros el [H | [H | []]]; subst el; reflexivity.
Defined.

(** ** C10: what an update leaves alone *)

(** C10 (as the code has it): for an update that does not rename the layer
    (it does not name [id], or names the selected id itself), the collection
    keeps its length, its ids and their order; at every position, a layer
    whose id is not the selected one is unchanged, and a layer with the
    selected id becomes the spread of the update over it, which keeps every
    field the update does not name. *)
Theorem updateSelectedText_frame
    (st : Canvas.t) (updates : PartialTextLayer.t) :
  (forall i, PartialTextLayer.id updates = Some i ->
             Canvas.selectedElementId st = Some i) ->
  let before := Canvas.textElements st in
  let after := Canvas.textElements (Canvas.updateSelectedText st updates) in
  List.length after = List.length before /\
  map TextLayer.id after = map TextLayer.id before /\
  forall (n : nat) (el : TextLayer.t),
    nth_error before n = Some el ->
    exists el',
      nth_error after n = Some el' /\
      (strict_eq (TextLayer.id el) (Canvas.selectedElementId st) = false -> el' = el) /\
      (strict_eq (TextLayer.id el) (Canvas.selectedElementId st) = true ->
       truthy (Canvas.selectedElementId st) = true ->
       el' = spreadTextLayer el updates) /\
      keeps_unnamed_fields updates el el'.
Proof.
  intros Hid before after. subst before after.
  rewrite textElements_updateSelectedText.
  destruct (truthy (Canvas.selectedElementId st)) eqn:Ht.
  - split; [apply length_map|]. split.
    + rewrite map_map. apply map_ext. intros el. apply update_layer_id. exact Hid.
    + intros n el Hn. exists (update_layer (Canvas.selectedElementId st) updates el).
      split; [apply map_nth_error; exact Hn|].
      unfold update_layer.
      destruct (strict_eq (TextLayer.id el) (Canvas.selectedElementId st)).
      * split; [intros H; discriminate H|]. split; [reflexivity|].
        apply spreadTextLayer_keeps.
      * split; [reflexivity|]. split; [intros H; discriminate H|].
        apply keeps_unnamed_fields_refl.
  - split; [reflexivity|]. split; [reflexivity|].
    intros n el Hn. exists el. split; [exact Hn|]. split; [reflexivity|].
    split; [intros _ H; discriminate H|]. apply keeps_unnamed_fields_refl.
Qed.

Lemma updateSelectedText_frame_witness :
  let st := sample_editor [sample_layer "17" 200 280; sample_layer "18" 10 10]
                          (Some "18") in
  map TextLayer.id (Canvas.textElements (Canvas.updateSelectedText st (Canvas.just_spacing 7)))
  = ["17"; "18"].
Proof.
  cbv zeta.
  apply (updateSelectedText_frame
           (sample_editor [sample_layer "17" 200 280; sample_layer "18" 10 10]
                          (Some "18"))
           (Canvas.just_spacing 7)).
  intros i H. discriminate H.
Defined.

(** C10, the claim as written fails for an update that names [id]: the
    layer is renamed, so the ids of the collection change. *)
Lemma updateSelectedText_can_rename :
  let st := sample_editor [sample_layer "17" 200 280; sample_layer "18" 10 10]
                          (Some "18") in
  let rename :=
    PartialTextLayer.mk (Some "99") None None None None None None None None None None in
  In "18" (map TextLayer.id (Canvas.textElements st)) /\
  map TextLayer.id (Canvas.textElements (Canvas.updateSelectedText st rename))
  = ["17"; "99"] /\
  map TextLayer.id (Canvas.textElements (Canvas.updateSelectedText st rename))
  <> map TextLayer.id (Canvas.textElements st).
Proof.
  cbv zeta. split; [right; left; reflexivity|]. split; [reflexivity|].
  intros H. discriminate H.
Qed.

(** ** C7: letter spacing *)

(** C7: the spacing of a layer is set through the spacing slider, whose
    range is -5 to 50.  The browser brings the attempted value into that
    range and the handler stores the slider's value in every layer with the
    selected id, leaving the layer's other fields as they are.  So an
    attempt to set a spacing below -5 stores exactly -5, as does -5 itself;
    an attempt within the range stores the value as it is; and whatever the
    attempt, the stored spacing lies between -5 and 50.  The layers that are
    not selected stay as they are. *)
Theorem spacing_is_clamped (st : Canvas.t) (attempted : Z) :
  truthy (Canvas.selectedElementId st) = true ->
  forall (n : nat) (el : TextLayer.t),
    nth_error (Canvas.textElements st) n = Some el ->
    (strict_eq (TextLayer.id el) (Canvas.selectedElementId st) = true ->
     exists stored,
       nth_error (Canvas.textElements (Canvas.onSpacingChange attempted st)) n
       = Some (TextLayer.mk (TextLayer.id el) (TextLayer.text el)
                 (TextLayer.x el) (TextLayer.y el)
                 (TextLayer.fontSize el) (TextLayer.fontFamily el) (TextLayer.color el)
                 stored
                 (TextLayer.rotation el) (TextLayer.fontWeight el) (TextLayer.align el)) /\
       (attempted <= -5 -> stored = -5) /\
       (-5 <= attempted <= 50 -> stored = attempted) /\
       (50 <= attempted -> stored = 50) /\
       -5 <= stored <= 50) /\
    (strict_eq (TextLayer.id el) (Canvas.selectedElementId st) = false ->
     nth_error (Canvas.textElements (Canvas.onSpacingChange attempted st)) n = Some el).
Proof.
  intros Ht n el Hn. unfold Canvas.onSpacingChange. cbv zeta.
  rewrite textElements_updateSelectedText, Ht.
  rewrite (map_nth_error
             (update_layer (Canvas.selectedElementId st)
                (Canvas.just_spacing
                   (Canvas.range_value Canvas.spacing_min Canvas.spacing_max attempted)))
             _ _ Hn).
  unfold update_layer. split; intros Hsel; rewrite Hsel; [|reflexivity].
  exists (Canvas.range_value Canvas.spacing_min Canvas.spacing_max attempted).
  split; [reflexivity|].
  unfold Canvas.range_value, Canvas.spacing_min, Canvas.spacing_max.
  destruct (Z.ltb_spec attempted (-5)); [lia|].
  destruct (Z.ltb_spec 50 attempted); lia.
Qed.

Lemma spacing_is_clamped_witness :
  let st := sample_editor [sample_layer "17" 200 280] (Some "17") in
  Canvas.textElements (Canvas.onSpacingChange (-6) st)
  = [TextLayer.mk "17" "ACME" 200 280 32 "Montserrat" "#4f46e5" (-5) 0 "bold"
                  align_center] /\
  Canvas.textElements (Canvas.onSpacingChange (-5) st)
  = [TextLayer.mk "17" "ACME" 200 280 32 "Montserrat" "#4f46e5" (-5) 0 "bold"
                  align_center].
Proof.
  cbv zeta.
  destruct (proj1 (spacing_is_clamped
                     (sample_editor [sample_layer "17" 200 280] (Some "17")) (-6)
                     eq_refl 0%nat (sample_layer "17" 200 280) eq_refl) eq_refl)
    as (s6 & H6 & Hfloor6 & _).
  destruct (proj1 (spacing_is_clamped
                     (sample_editor [sample_layer "17" 200 280] (Some "17")) (-5)
                     eq_refl 0%nat (sample_layer "17" 200 280) eq_refl) eq_refl)
    as (s5 & H5 & Hfloor5 & _).
  rewrite (Hfloor6 ltac:(lia)) in H6. rewrite (Hfloor5 ltac:(lia)) in H5.
  split.
  - destruct (Canvas.textElements
                (Canvas.onSpacingChange (-6)
                   (sample_editor [sample_layer "17" 200 280] (Some "17"))))
      as [|a [|b l]] eqn:E; try discriminate.
    cbn in H6. injection H6 as ->. reflexivity.
  - destruct (Canvas.textElements
                (Canvas.onSpacingChange (-5)
                   (sample_editor [sample_layer "17" 200 280] (Some "17"))))
      as [|a [|b l]] eqn:E; try discriminate.
    cbn in H5. injection H5 as ->. reflexivity.
Defined.

(** ** C2: dragging *)

Lemma find_update_layer (sel : option string) (u : PartialTextLayer.t)
    (l : list TextLayer.t) (el : TextLayer.t) :
  PartialTextLayer.id u = None ->
  find (fun el => strict_eq (TextLayer.id el) sel) l = Some el ->
  find (fun el => strict_eq (TextLayer.id el) sel) (map (update_layer sel u) l)
  = Some (spreadTextLayer el u).
Proof.
  intros Hu. induction l as [|a l IH]; cbn [map find]; [discriminate|].
  destruct (strict_eq (TextLayer.id a) sel) eqn:E.
  - intros H. injection H as <-.
    assert (Ea : update_layer sel u a = spreadTextLayer a u)
      by (unfold update_layer; rewrite E; reflexivity).
    rewrite Ea, spreadTextLayer_id_None by exact Hu. rewrite E. reflexivity.
  - assert (Ea : update_layer sel u a = a)
      by (unfold update_layer; rewrite E; reflexivity).
    rewrite Ea, E. exact IH.
Qed.

Lemma truthy_Some (sel : string) : sel <> "" -> truthy (Some sel) = true.
Proof.
  intros H. cbn. destruct (String.eqb_spec sel ""); [contradiction | reflexivity].
Qed.

(** One pointer-move handled right after a render, while a layer is being
    dragged. *)
Lemma handleMouseMove_dragging
    (st : Canvas.t) (sel : string) (el : TextLayer.t) (client : Q * Q) :
  Canvas.isDragging st = true ->
  Canvas.selectedElementId st = Some sel ->
  sel <> "" ->
  Canvas.activeTextElement st = Some el ->
  let st' := Canvas.handleMouseMove client st in
  Canvas.isDragging st' = true /\
  Canvas.selectedElementId st' = Some sel /\
  Canvas.dragStart st' = client /\
  Canvas.activeTextElement st'
  = Some (spreadTextLayer el
            (Canvas.move_to
               (TextLayer.x el + (fst client - fst (Canvas.dragStart st)))%Q
               (TextLayer.y el + (snd client - snd (Canvas.dragStart st)))%Q)).
Proof.
  intros Hd Hsel Hne Hact st'. subst st'.
  pose proof (truthy_Some sel Hne) as Ht. rewrite <- Hsel in Ht.
  unfold Canvas.handleMouseMove. rewrite Hd, Ht. cbn [negb orb].
  unfold Canvas.activeTextElement in Hact. rewrite Hact.
  rewrite updateSelectedText_truthy by exact Ht.
  unfold Canvas.activeTextElement, Canvas.textElements; cbn.
  repeat split; try assumption.
  apply find_update_layer; [reflexivity | exact Hact].
Qed.

(** A handler that runs right after a render, followed by the next render,
    is the handler of [Canvas]. *)
Lemma render_after_move (client : Q * Q) (st : Canvas.t) :
  Live.render (Live.handleMouseMove client (Live.fresh st))
  = Live.fresh (Canvas.handleMouseMove client st).
Proof.
  unfold Live.handleMouseMove, Canvas.handleMouseMove.
  change (Live.isDragging (Live.fresh st)) with (Canvas.isDragging st).
  change (Live.selectedElementId (Live.fresh st)) with (Canvas.selectedElementId st).
  change (Live.textElements (Live.fresh st)) with (Canvas.textElements st).
  change (Live.dragStart (Live.fresh st)) with (Canvas.dragStart st).
  destruct (negb (Canvas.isDragging st) || negb (truthy (Canvas.selectedElementId st)));
    [reflexivity|].
  destruct (find _ (Canvas.textElements st)) as [element|]; [|reflexivity].
  unfold Live.updateSelectedText, Canvas.updateSelectedText.
  change (Live.selectedElementId (Live.fresh st)) with (Canvas.selectedElementId st).
  destruct (negb (truthy (Canvas.selectedElementId st))); reflexivity.
Qed.

(** With a render after every pointer-move the editor goes through the
    states of [Canvas.run]. *)
Lemma drag_render_each (pointer : list (Q * Q)) (st : Canvas.t) :
  drag (Live.fresh st) (render_each pointer)
  = Live.fresh (Canvas.run st (map Canvas.MouseMove pointer)).
Proof.
  revert st. induction pointer as [|client pointer IH]; intros st; [reflexivity|].
  unfold drag, Canvas.run in *.
  cbn [render_each flat_map app map fold_left Live.run Live.step Canvas.step].
  rewrite render_after_move. apply IH.
Qed.

Lemma last_nonempty {A : Type} (a : A) (l : list A) (d d' : A) :
  last (a :: l) d = last (a :: l) d'.
Proof.
  revert a. induction l as [|b l IH]; intros a; [reflexivity|].
  change (last (a :: b :: l) d) with (last (b :: l) d).
  change (last (a :: b :: l) d') with (last (b :: l) d').
  apply IH.
Qed.

(** Pointer-moves that are handled without a render between them leave the
    render and its closures as they are; only the recorded pointer position
    follows the pointer. *)
Lemma moves_keep_the_render (pointer : list (Q * Q)) (st : Live.t) :
  Live.isDragging st = true ->
  truthy (Live.selectedElementId st) = true ->
  let st' := Live.run st (map Live.MouseMove pointer) in
  Live.logoSettings st' = Live.logoSettings st /\
  Live.selectedElementId st' = Live.selectedElementId st /\
  Live.nextSelectedElementId st' = Live.nextSelectedElementId st /\
  Live.isDragging st' = true /\
  Live.dragStart st' = last pointer (Live.dragStart st).
Proof.
  revert st. induction pointer as [|client pointer IH]; intros st Hd Ht.
  - cbn. auto.
  - cbv zeta. unfold Live.run. cbn [map fold_left Live.step].
    assert (H1 : Live.logoSettings (Live.handleMouseMove client st) = Live.logoSettings st
                 /\ Live.selectedElementId (Live.handleMouseMove client st)
                    = Live.selectedElementId st
                 /\ Live.nextSelectedElementId (Live.handleMouseMove client st)
                    = Live.nextSelectedElementId st
                 /\ Live.isDragging (Live.handleMouseMove client st) = true
                 /\ Live.dragStart (Live.handleMouseMove client st) = client).
    { unfold Live.handleMouseMove. rewrite Hd, Ht. cbn [negb orb].
      destruct (find _ (Live.textElements st)) as [element|].
      - unfold Live.updateSelectedText. rewrite Ht. cbn. auto.
      - cbn. auto. }
    destruct H1 as (Hl & Hs & Hn & Hd' & Hp).
    destruct (IH (Live.handleMouseMove client st) Hd' ltac:(rewrite Hs; exact Ht))
      as (Hl' & Hs' & Hn' & Hd'' & Hp').
    unfold Live.run in Hl', Hs', Hn', Hd'', Hp'.
    rewrite Hl', Hs', Hn', Hd'', Hp', Hl, Hs, Hn, Hp.
    repeat split.
    destruct pointer as [|p pointer]; [reflexivity|].
    change (last (client :: p :: pointer) (Live.dragStart st))
      with (last (p :: pointer) (Live.dragStart st)).
    apply last_nonempty.
Qed.

(** C2 (as the code has it): while a layer is dragged, a pointer-move sets
    the layer's position for the next render to its position in the last
    render plus the pointer's displacement since the last recorded
    position, and records the new pointer position at once.  So when
    several pointer-moves are handled before the component renders, the
    render then shows the layer at its old position plus the last delta
    alone: the deltas before it are lost. *)
Theorem moves_before_a_render_keep_the_last_delta
    (st : Live.t) (sel : string) (el : TextLayer.t)
    (pointer : list (Q * Q)) (client : Q * Q) :
  Live.isDragging st = true ->
  Live.selectedElementId st = Some sel ->
  sel <> "" ->
  find (fun el => strict_eq (TextLayer.id el) (Some sel)) (Live.textElements st)
  = Some el ->
  let recorded := last pointer (Live.dragStart st) in
  let st' := drag st (before_render (pointer ++ [client])) in
  Live.textElements st'
  = map (update_layer (Some sel)
           (Canvas.move_to (TextLayer.x el + (fst client - fst recorded))%Q
                           (TextLayer.y el + (snd client - snd recorded))%Q))
        (Live.textElements st) /\
  Live.dragStart st' = client.
Proof.
  intros Hd Hsel Hne Hfind recorded st'. subst recorded st'.
  pose proof (truthy_Some sel Hne) as Ht. rewrite <- Hsel in Ht.
  unfold drag, before_render, Live.run.
  rewrite map_app, <- app_assoc, fold_left_app.
  destruct (moves_keep_the_render pointer st Hd Ht) as (Hl & Hs & _ & Hd' & Hp).
  unfold Live.run in Hl, Hs, Hd', Hp.
  set (st1 := fold_left Live.step (map Live.MouseMove pointer) st) in *.
  cbn [map app fold_left Live.step].
  unfold Live.handleMouseMove, Live.textElements. rewrite Hd', Hs, Hl, Hp, Ht.
  cbn [negb orb]. unfold Live.textElements in Hfind. rewrite Hsel, Hfind.
  unfold Live.updateSelectedText. rewrite Hs, Ht. cbn [negb].
  unfold Live.textElements. rewrite Hl, Hsel. split; reflexivity.
Qed.

(** The example of the specification: the pointer goes down on the layer
    at (100,100), the component renders, and the three pointer-moves with
    the deltas (3,0), (0,4), (-1,-1) are handled before it renders again.
    The layer ends at (99,99), not at (102,103). *)
Lemma moves_before_a_render_keep_the_last_delta_witness :
  let st := Live.render
              (Live.handleMouseDown (50, 60)%Q "17"
                 (Live.fresh (sample_editor [sample_layer "17" 100 100] None))) in
  let pointer := pointer_path (50, 60)%Q [(3, 0); (0, 4); (-1, -1)]%Q in
  positions (Live.textElements (drag st (before_render pointer))) = [(99, 99)%Q] /\
  positions (Live.textElements (drag st (before_render pointer))) <> [(102, 103)%Q].
Proof.
  cbv zeta.
  destruct (moves_before_a_render_keep_the_last_delta
              (Live.render
                 (Live.handleMouseDown (50, 60)%Q "17"
                    (Live.fresh (sample_editor [sample_layer "17" 100 100] None))))
              "17" (sample_layer "17" 100 100)
              [(53, 60); (53, 64)]%Q (52, 63)%Q
              eq_refl eq_refl ltac:(discriminate) eq_refl) as [Hlayers _].
  change (pointer_path (50, 60)%Q [(3, 0); (0, 4); (-1, -1)]%Q)
    with ([(53, 60); (53, 64)] ++ [(52, 63)])%Q%list.
  rewrite Hlayers. split; [reflexivity | discriminate].
Defined.

(** The same moves with a render after each of them do reach (102,103). *)
Lemma drag_with_a_render_after_each_move :
  let st := Live.render
              (Live.handleMouseDown (50, 60)%Q "17"
                 (Live.fresh (sample_editor [sample_layer "17" 100 100] None))) in
  let pointer := pointer_path (50, 60)%Q [(3, 0); (0, 4); (-1, -1)]%Q in
  positions (Live.textElements (drag st (render_each pointer))) = [(102, 103)%Q].
Proof. reflexivity. Qed.

(** ** C4: selection *)

Lemma filter_all {A : Type} (l : list A) : filter (fun _ => true) l = l.
Proof. induction l as [|a l IH]; cbn; [reflexivity | rewrite IH; reflexivity]. Qed.

Lemma map_filter_id (keep : string -> bool) (l : list TextLayer.t) :
  map TextLayer.id (filter (fun el => keep (TextLayer.id el)) l)
  = filter keep (map TextLayer.id l).
Proof.
  induction l as [|a l IH]; cbn; [reflexivity|].
  destruct (keep (TextLayer.id a)); cbn; rewrite IH; reflexivity.
Qed.

Lemma ids_handleMouseMove (client : Q * Q) (st : Canvas.t) :
  map TextLayer.id (Canvas.textElements (Canvas.handleMouseMove client st))
  = map TextLayer.id (Canvas.textElements st).
Proof.
  unfold Canvas.handleMouseMove.
  destruct (negb (Canvas.isDragging st) || negb (truthy (Canvas.selectedElementId st)));
    [reflexivity|].
  destruct (find _ (Canvas.textElements st)) as [element|]; [|reflexivity].
  change (Canvas.textElements (Canvas.set_dragStart ?s client))
    with (Canvas.textElements s).
  rewrite textElements_updateSelectedText.
  destruct (truthy (Canvas.selectedElementId st)); [|reflexivity].
  rewrite map_map. apply map_ext. intros el.
  apply update_layer_id. intros i H. discriminate H.
Qed.

Lemma textElements_deleteSelectedText (st : Canvas.t) :
  Canvas.textElements (Canvas.deleteSelectedText st)
  = if truthy (Canvas.selectedElementId st)
    then filter (fun el => negb (strict_eq (TextLayer.id el) (Canvas.selectedElementId st)))
                (Canvas.textElements st)
    else Canvas.textElements st.
Proof.
  unfold Canvas.deleteSelectedText.
  destruct (truthy (Canvas.selectedElementId st)); reflexivity.
Qed.

(** Every event keeps the ids of the layers, in order, up to removal. *)
Lemma step_ids (st : Canvas.t) (e : Canvas.Event) :
  exists keep : string -> bool,
    map TextLayer.id (Canvas.textElements (Canvas.step st e))
    = filter keep (map TextLayer.id (Canvas.textElements st)).
Proof.
  destruct e as [client i|client| | | |]; cbn [Canvas.step];
    try (exists (fun _ => true); rewrite filter_all; reflexivity).
  - exists (fun _ => true). rewrite filter_all. apply ids_handleMouseMove.
  - rewrite textElements_deleteSelectedText.
    destruct (truthy (Canvas.selectedElementId st)).
    + exists (fun i => negb (strict_eq i (Canvas.selectedElementId st))).
      apply (map_filter_id (fun i => negb (strict_eq i (Canvas.selectedElementId st)))).
    + exists (fun _ => true). rewrite filter_all. reflexivity.
Qed.

Lemma ids_well_formed_step (st : Canvas.t) (e : Canvas.Event) :
  ids_well_formed (Canvas.textElements st) ->
  ids_well_formed (Canvas.textElements (Canvas.step st e)).
Proof.
  intros [Hnd Hne]. destruct (step_ids st e) as [keep Hk].
  unfold ids_well_formed. rewrite Hk. split.
  - apply NoDup_filter. exact Hnd.
  - intros Hin. apply filter_In in Hin. apply Hne. apply Hin.
Qed.

Lemma ids_well_formed_run (events : list Canvas.Event) (st : Canvas.t) :
  ids_well_formed (Canvas.textElements st) ->
  ids_well_formed (Canvas.textElements (Canvas.run st events)).
Proof.
  revert st. induction events as [|e events IH]; intros st Hwf; cbn; [exact Hwf|].
  apply IH. apply ids_well_formed_step. exact Hwf.
Qed.

Lemma filter_absent_id (i : string) (l : list TextLayer.t) :
  ~ In i (map TextLayer.id l) ->
  filter (fun el => strict_eq (TextLayer.id el) (Some i)) l = [].
Proof.
  induction l as [|a l IH]; cbn; intros Hni; [reflexivity|].
  destruct (String.eqb_spec (TextLayer.id a) i) as [E|E].
  - exfalso. apply Hni. left. exact E.
  - apply IH. intros Hin. apply Hni. right. exact Hin.
Qed.

(** With unique ids, the layers drawn selected after selecting [el] are
    [el] alone. *)
Lemma filter_unique_id (el : TextLayer.t) (l : list TextLayer.t) :
  NoDup (map TextLayer.id l) ->
  In el l ->
  filter (fun a => strict_eq (TextLayer.id a) (Some (TextLayer.id el))) l = [el].
Proof.
  induction l as [|a l IH]; cbn [map filter]; intros Hnd Hin; [destruct Hin|].
  inversion Hnd as [|? ? Hna Hnd']; subst.
  destruct Hin as [<-|Hin].
  - cbn. rewrite String.eqb_refl. f_equal. apply filter_absent_id. exact Hna.
  - cbn. destruct (String.eqb_spec (TextLayer.id a) (TextLayer.id el)) as [E|E].
    + exfalso. apply Hna. rewrite E. apply in_map. exact Hin.
    + apply IH; assumption.
Qed.

Lemma selected_at_most_one (sel : option string) (l : list TextLayer.t) :
  NoDup (map TextLayer.id l) ->
  (List.length (filter (fun a => strict_eq (TextLayer.id a) sel) l) <= 1)%nat.
Proof.
  destruct sel as [i|]; cbn [strict_eq].
  - induction l as [|a l IH]; cbn [map filter]; intros Hnd; [cbn; lia|].
    inversion Hnd as [|? ? Hna Hnd']; subst.
    destruct (String.eqb_spec (TextLayer.id a) i) as [E|E].
    + subst i. pose proof (filter_absent_id _ _ Hna) as F.
      cbn [strict_eq] in F. rewrite F. cbn. lia.
    + apply IH. exact Hnd'.
  - intros _. induction l as [|a l IH]; cbn; [lia | exact IH].
Qed.

Lemma filter_none_selected (l : list TextLayer.t) :
  filter (fun a => strict_eq (TextLayer.id a) None) l = [].
Proof. induction l as [|a l IH]; cbn; [reflexivity | exact IH]. Qed.

(** C4: starting from layers with well-formed ids, after any sequence of
    canvas events at most one layer is selected; a pointer-down on a layer
    makes it the selected one, and the only one; a click on the canvas
    background leaves nothing selected; deleting the selected layer removes
    it and leaves nothing selected. *)
Theorem selection_exclusive (st0 : Canvas.t) (events : list Canvas.Event) :
  ids_well_formed (Canvas.textElements st0) ->
  let st := Canvas.run st0 events in
  (List.length (selected_layers st) <= 1)%nat /\
  (forall (client : Q * Q) (el : TextLayer.t),
     In el (Canvas.textElements st) ->
     let st' := Canvas.step st (Canvas.MouseDown client (TextLayer.id el)) in
     Canvas.selectedElementId st' = Some (TextLayer.id el) /\
     selected_layers st' = [el]) /\
  (Canvas.selectedElementId (Canvas.step st Canvas.CanvasClick) = None /\
   selected_layers (Canvas.step st Canvas.CanvasClick) = []) /\
  (forall el : TextLayer.t,
     In el (selected_layers st) ->
     let st' := Canvas.step st Canvas.DeleteClick in
     Canvas.selectedElementId st' = None /\
     selected_layers st' = [] /\
     ~ In el (Canvas.textElements st')).
Proof.
  intros Hwf0 st.
  pose proof (ids_well_formed_run events st0 Hwf0) as [Hnd Hne].
  fold st in Hnd, Hne.
  split; [apply selected_at_most_one; exact Hnd|].
  split; [|split].
  - intros client el Hin st'. split; [reflexivity|].
    apply (filter_unique_id el _ Hnd Hin).
  - split; [reflexivity|]. apply filter_none_selected.
  - intros el Hin st'. subst st'.
    apply filter_In in Hin. destruct Hin as [Hin Hsel].
    unfold Canvas.shown_selected in Hsel.
    destruct (Canvas.selectedElementId st) as [sel|] eqn:Es; [|discriminate Hsel].
    cbn in Hsel. apply String.eqb_eq in Hsel.
    assert (Hnz : sel <> "").
    { intros ->. apply Hne. rewrite <- Hsel. apply in_map. exact Hin. }
    pose proof (truthy_Some sel Hnz) as Ht. rewrite <- Es in Ht.
    cbn [Canvas.step].
    assert (Ed : Canvas.selectedElementId (Canvas.deleteSelectedText st) = None).
    { unfold Canvas.deleteSelectedText. rewrite Ht. reflexivity. }
    split; [exact Ed|]. split.
    + unfold selected_layers, Canvas.shown_selected. rewrite Ed.
      apply filter_none_selected.
    + rewrite textElements_deleteSelectedText, Ht. intros Hin'.
      apply filter_In in Hin'. destruct Hin' as [_ Hk].
      rewrite Es in Hk. cbn in Hk. rewrite Hsel, String.eqb_refl in Hk.
      discriminate Hk.
Qed.

Lemma sample_ids_well_formed :
  ids_well_formed [sample_layer "17" 200 280; sample_layer "18" 10 10].
Proof.
  split; cbn.
  - constructor.
    + intros [H | []]. discriminate H.
    + constructor; [intros [] | constructor].
  - intros [H | [H | []]]; discriminate H.
Defined.

Lemma selection_exclusive_witness :
  let st0 := sample_editor [sample_layer "17" 200 280; sample_layer "18" 10 10] None in
  let events :=
    [Canvas.MouseDown (5, 5)%Q "17"; Canvas.MouseMove (8, 9)%Q; Canvas.MouseUp;
     Canvas.MouseDown (1, 1)%Q "18"; Canvas.CanvasClick;
     Canvas.MouseDown (2, 2)%Q "17"; Canvas.DeleteClick;
     Canvas.MouseDown (2, 2)%Q "18"] in
  (List.length (selected_layers (Canvas.run st0 events)) <= 1)%nat.
Proof.
  cbv zeta.
  apply (selection_exclusive
           (sample_editor [sample_layer "17" 200 280; sample_layer "18" 10 10] None)
           [Canvas.MouseDown (5, 5)%Q "17"; Canvas.MouseMove (8, 9)%Q; Canvas.MouseUp;
            Canvas.MouseDown (1, 1)%Q "18"; Canvas.CanvasClick;
            Canvas.MouseDown (2, 2)%Q "17"; Canvas.DeleteClick;
            Canvas.MouseDown (2, 2)%Q "18"]
           sample_ids_well_formed).
Defined.

(** The ids [addTextElement] hands out are never empty. *)
Lemma timestamp_id_not_empty (now : N) : Canvas.timestamp_id now <> "".
Proof.
  unfold Canvas.timestamp_id, DecimalString.NilZero.string_of_uint.
  destruct (N.to_uint now); cbn; discriminate.
Qed.

(** ** C3: the style of the container *)

(** C3: whatever the other settings are, circle and oval give a border
    radius of 50%, rounded gives 40px, square and rectangle give 0px, and
    none (like every shape left to the default branch) gives the stored
    [borderRadius] in px, all without a clip path; triangle is clipped to
    the three corners top centre, bottom left, bottom right; hexagon is
    clipped to six corners that are their own mirror image in both axes of
    the box.  The CSS text is the one of the source. *)
Theorem containerStyle_table
    (bg : string) (w h r : Z) (ic : string) (isz : Z) (tint : bool)
    (layers : list TextLayer.t) :
  let style (s : Shape) :=
    Style.containerStyle (LogoSettings.mk bg s w h r ic isz tint layers) in
  let hexagon_points := [(25, 0); (75, 0); (100, 50); (75, 100); (25, 100); (0, 50)] in
  (Style.borderRadius (style circle) = Style.Percent 50 /\
   Style.borderRadius (style oval) = Style.Percent 50 /\
   Style.css_length (Style.Percent 50) = "50%") /\
  (Style.borderRadius (style rounded) = Style.Px 40 /\
   Style.css_length (Style.Px 40) = "40px") /\
  (Style.borderRadius (style square) = Style.Px 0 /\
   Style.borderRadius (style rectangle) = Style.Px 0 /\
   Style.css_length (Style.Px 0) = "0px") /\
  (Style.borderRadius (style none) = Style.Px r /\
   Style.borderRadius (style triangle) = Style.Px r /\
   Style.borderRadius (style hexagon) = Style.Px r /\
   Style.css_length (Style.Px r) = string_of_Z r ++ "px") /\
  (Style.clipPath (style circle) = Style.ClipNone /\
   Style.clipPath (style oval) = Style.ClipNone /\
   Style.clipPath (style rounded) = Style.ClipNone /\
   Style.clipPath (style square) = Style.ClipNone /\
   Style.clipPath (style rectangle) = Style.ClipNone /\
   Style.clipPath (style none) = Style.ClipNone /\
   Style.css_clipPath Style.ClipNone = "none") /\
  (Style.clipPath (style triangle) = Style.Polygon [(50, 0); (0, 100); (100, 100)] /\
   Style.css_clipPath (Style.clipPath (style triangle))
   = "polygon(50% 0%, 0% 100%, 100% 100%)") /\
  (Style.clipPath (style hexagon) = Style.Polygon hexagon_points /\
   Style.css_clipPath (Style.clipPath (style hexagon))
   = "polygon(25% 0%, 75% 0%, 100% 50%, 75% 100%, 25% 100%, 0% 50%)" /\
   List.length hexagon_points = 6%nat /\
   forall p, In p hexagon_points ->
             In (Style.mirror_x p) hexagon_points /\
             In (Style.mirror_y p) hexagon_points).
Proof.
  cbv zeta.
  repeat (split; [repeat split; reflexivity|]).
  repeat (split; [reflexivity|]).
  intros p H. cbn in H.
  repeat (destruct H as [H|H]; [subst p; cbn; tauto|]). destruct H.
Qed.

(** ** C6: pagination of [addText] *)

Ltac run_pdf :=
  cbv beta iota zeta
      delta [Pdf.bind Pdf.emit Pdf.get_y Pdf.set_y Pdf.ret Pdf.throw
             Pdf.console_error Pdf.try_catch
             Pdf.completion Pdf.cursor Pdf.emitted Pdf.logged app].

(** C6: [addText] always places its block and completes.  The test is the
    program's own, on JavaScript numbers: the cursor plus the block's height
    (number of wrapped lines times the font size times 0.4, each operation
    rounded to a double) is compared with 280.  When the sum is greater,
    [addText] first starts a new page and puts the cursor back to 20, so the
    block is placed at 20 on the new page; otherwise the block is placed at
    the current cursor and no page is added.  Either way the cursor then
    moves down by the block's height plus 6. *)
Theorem addText_pagination
    (lib : JsPDF) (contentWidth : float) (text : string) (size : float)
    (style : string) (color : Z * Z * Z) (y : float) :
  let lines := splitTextToSize lib text size style contentWidth in
  let blockHeight := (ExportEngine.lineCount lines * size * 0.4)%float in
  let r := ExportEngine.addText lib contentWidth text size style color y in
  let font :=
    [Pdf.setFontSize size; Pdf.setFont "helvetica" style;
     Pdf.setTextColor (fst (fst color)) (snd (fst color)) (snd color)] in
  Pdf.completion r = Pdf.Normal tt /\
  Pdf.logged r = [] /\
  (gt (y + blockHeight) 280 = true ->
   Pdf.emitted r
   = (font ++ [Pdf.addPage; Pdf.textLines lines ExportEngine.margin 20%float])%list /\
   Pdf.cursor r = (20 + (blockHeight + 6))%float) /\
  (gt (y + blockHeight) 280 = false ->
   Pdf.emitted r = (font ++ [Pdf.textLines lines ExportEngine.margin y])%list /\
   Pdf.cursor r = (y + (blockHeight + 6))%float).
Proof.
  intros lines blockHeight r font. subst r font.
  unfold ExportEngine.addText. fold lines. fold blockHeight.
  run_pdf.
  destruct (gt (y + blockHeight) 280) eqn:E; run_pdf.
  - split; [reflexivity|]. split; [reflexivity|]. split.
    + intros _. split; reflexivity.
    + intros H. discriminate H.
  - split; [reflexivity|]. split; [reflexivity|]. split.
    + intros H. discriminate H.
    + intros _. split; reflexivity.
Qed.

Lemma addText_pagination_witness :
  Pdf.emitted
    (ExportEngine.addText (sample_jsPDF true) 170 "Tone: Bold" 11 "normal"
                          ExportEngine.dark 270%float)
  = [Pdf.setFontSize 11; Pdf.setFont "helvetica" "normal"; Pdf.setTextColor 40 40 40;
     Pdf.addPage;
     Pdf.textLines ["Tone: Bold"; "Tone: Bold"; "Tone: Bold"] 20%float 20%float].
Proof.
  apply (addText_pagination (sample_jsPDF true) 170 "Tone: Bold" 11 "normal"
                            ExportEngine.dark 270%float).
  reflexivity.
Defined.

(** X10: the page test is taken on doubles, so the sum is rounded before it
    is compared with 280.  From the cursor 275.6 a single line of size 11
    has the height 4.4 and the sum is the double 280 itself: the block stays
    on the page, at 275.6.  From the cursor 275.7 the same block goes to a
    new page, at 20. *)
Lemma addText_rounds_before_comparing :
  let lib := mkJsPDF 210 (fun text _ _ _ => [text]) (fun _ => true) (fun _ => true) in
  let font :=
    [Pdf.setFontSize 11; Pdf.setFont "helvetica" "normal"; Pdf.setTextColor 40 40 40] in
  (275.6 + ExportEngine.lineCount ["Lato"] * 11 * 0.4 = 280)%float /\
  Pdf.emitted (ExportEngine.addText lib 170 "Lato" 11 "normal" ExportEngine.dark 275.6%float)
  = (font ++ [Pdf.textLines ["Lato"] 20%float 275.6%float])%list /\
  Pdf.emitted (ExportEngine.addText lib 170 "Lato" 11 "normal" ExportEngine.dark 275.7%float)
  = (font ++ [Pdf.addPage; Pdf.textLines ["Lato"] 20%float 20%float])%list.
Proof. cbv zeta. split; [|split]; vm_compute; reflexivity. Qed.

(** ** The export as a sequence of document calls *)

Lemma Clean_ret {A : Type} (a : A) : Clean (Pdf.ret a).
Proof. intros y. cbn. eauto. Qed.

Lemma Clean_emit (op : Pdf.DocOp) : plain op = true -> Clean (Pdf.emit op).
Proof. intros H y. cbn. rewrite H. eauto. Qed.

Lemma Clean_get_y : Clean Pdf.get_y.
Proof. intros y. cbn. eauto. Qed.

Lemma Clean_set_y (y' : float) : Clean (Pdf.set_y y').
Proof. intros y. cbn. eauto. Qed.

Lemma Clean_bind {A B : Type} (m : Pdf.M A) (k : A -> Pdf.M B) :
  Clean m -> (forall a, Clean (k a)) -> Clean (Pdf.bind m k).
Proof.
  intros Hm Hk y. unfold Pdf.bind.
  destruct (Hm y) as ([a Ha] & Hl & Hp). rewrite Ha.
  destruct (Hk a (Pdf.cursor (m y))) as ([b Hb] & Hl' & Hp').
  cbn. rewrite Hl, Hl', forallb_app, Hp, Hp'. eauto.
Qed.

Lemma Clean_if {A : Type} (b : bool) (m1 m2 : Pdf.M A) :
  Clean m1 -> Clean m2 -> Clean (if b then m1 else m2).
Proof. destruct b; auto. Qed.

Create HintDb pdf.
#[local] Hint Resolve Clean_ret Clean_get_y Clean_set_y Clean_if : pdf.
#[local] Hint Extern 1 (Clean (Pdf.emit _)) => apply Clean_emit; reflexivity : pdf.
#[local] Hint Extern 2 (Clean (Pdf.bind _ _)) => apply Clean_bind; [|intro] : pdf.

Lemma Clean_advance (d : float) : Clean (ExportEngine.advance d).
Proof. unfold ExportEngine.advance. auto with pdf. Qed.

Lemma Clean_addText (lib : JsPDF) (contentWidth : float) (text : string) (size : float)
    (style : string) (color : Z * Z * Z) :
  Clean (ExportEngine.addText lib contentWidth text size style color).
Proof. unfold ExportEngine.addText. auto 20 with pdf. Qed.

Lemma Clean_setFillColor (lib : JsPDF) (c : string) :
  acceptsColor lib c = true -> Clean (ExportEngine.doc_setFillColor lib c).
Proof.
  intros H. unfold ExportEngine.doc_setFillColor. rewrite H. auto with pdf.
Qed.

Lemma Clean_swatches (lib : JsPDF) (colors : list string) (xOffset : float) :
  forallb (acceptsColor lib) colors = true ->
  Clean (ExportEngine.swatches lib colors xOffset).
Proof.
  revert xOffset. induction colors as [|c rest IH]; intros xOffset H;
    cbn [ExportEngine.swatches].
  - auto with pdf.
  - cbn [forallb] in H. apply andb_true_iff in H. destruct H as [Hc Hrest].
    pose proof (Clean_setFillColor lib c Hc) as Hfill.
    pose proof (fun x => IH x Hrest) as Hrow.
    auto 20 with pdf.
Qed.

#[local] Hint Resolve Clean_advance Clean_addText Clean_swatches : pdf.

Lemma Saves_save (filename : string) : Saves filename (Pdf.emit (Pdf.save filename)).
Proof. intros y. cbn. repeat split. exists []. split; reflexivity. Qed.

Lemma Saves_bind {A : Type} (filename : string) (m : Pdf.M A) (k : A -> Pdf.M unit) :
  Clean m -> (forall a, Saves filename (k a)) -> Saves filename (Pdf.bind m k).
Proof.
  intros Hm Hk y. unfold Pdf.bind.
  destruct (Hm y) as ([a Ha] & Hl & Hp). rewrite Ha.
  destruct (Hk a (Pdf.cursor (m y))) as (Hc & Hl' & ops & He & Hp').
  cbn. rewrite Hl, Hl', Hc, He. repeat split.
  exists (Pdf.emitted (m y) ++ ops)%list. split.
  - apply app_assoc.
  - rewrite forallb_app, Hp, Hp'. reflexivity.
Qed.

(** With the selected palette present and its colours accepted, the pages
    after the cover are plain calls ending in the [save] of the kit. *)
Lemma Saves_laterPages (lib : JsPDF) (project : BrandProject.t)
    (d : BrandGeneratedData.t) (palette : ColorPalette.t) :
  ExportEngine.selectedPalette (BrandGeneratedData.visuals d) = Some palette ->
  forallb (acceptsColor lib) (ColorPalette.colors palette) = true ->
  Saves (kit_filename project) (ExportEngine.laterPages lib project d).
Proof.
  intros Hp Hc. unfold ExportEngine.laterPages. rewrite Hp.
  repeat (apply Saves_bind; [auto with pdf | intro]).
  apply Saves_save.
Qed.

(** *** Pieces that throw *)








(** *** What the pieces print *)

Lemma prints_app (d1 d2 : list Pdf.DocOp) (p1 p2 : list Piece) :
  prints d1 p1 -> prints d2 p2 -> prints (d1 ++ d2) (p1 ++ p2).
Proof.
  intros H1 H2. induction H1; cbn [app]; try (constructor; assumption).
  exact H2.
Qed.

Lemma prints_calls (ops : list Pdf.DocOp) : prints ops (map call ops).
Proof. induction ops as [|op ops IH]; cbn [map]; constructor. exact IH. Qed.

(** A document that prints pieces ending in a call ends in that call. *)
Lemma prints_last_call (ps : list Piece) (op : Pdf.DocOp) (doc : list Pdf.DocOp) :
  prints doc (ps ++ [call op]) ->
  exists doc', doc = (doc' ++ [op])%list /\ prints doc' ps.
Proof.
  revert doc. induction ps as [|p ps IH]; intros doc H; cbn [app] in H.
  - inversion H as [|? ? ? H0| | | |]; subst. inversion H0; subst.
    exists []. split; [reflexivity | constructor].
  - inversion H as [|? ? ? H0|? ? ? ? ? H0|? ? ? ? H0|? ? ? ? ? ? ? H0|? ? ? ? ? H0];
      subst; destruct (IH _ H0) as (doc' & -> & Hd);
      eexists; (split; [|constructor; exact Hd]); reflexivity.
Qed.

Lemma Prints_ret {A : Type} (a : A) : Prints [] (Pdf.ret a).
Proof. intros y. cbn. split; [eauto|]. split; [reflexivity | constructor]. Qed.

Lemma Prints_set_y (y' : float) : Prints [] (Pdf.set_y y').
Proof. intros y. cbn. split; [eauto|]. split; [reflexivity | constructor]. Qed.

Lemma Prints_emit (op : Pdf.DocOp) : Prints [call op] (Pdf.emit op).
Proof.
  intros y. cbn. split; [eauto|]. split; [reflexivity | repeat constructor].
Qed.

Lemma Prints_bind {A B : Type} (p1 p2 : list Piece) (m : Pdf.M A) (k : A -> Pdf.M B) :
  Prints p1 m -> (forall a, Prints p2 (k a)) -> Prints (p1 ++ p2) (Pdf.bind m k).
Proof.
  intros Hm Hk y. unfold Pdf.bind.
  destruct (Hm y) as ([a Ha] & Hl & Hp). rewrite Ha.
  destruct (Hk a (Pdf.cursor (m y))) as ([b Hb] & Hl' & Hp').
  cbn. rewrite Hl, Hl'. split; [eauto|]. split; [reflexivity|].
  apply prints_app; assumption.
Qed.

Lemma Prints_advance (d : float) : Prints [] (ExportEngine.advance d).
Proof. intros y. cbn. split; [eauto|]. split; [reflexivity | constructor]. Qed.

Lemma Prints_addText (lib : JsPDF) (text : string) (size : float) (style : string)
    (color : Z * Z * Z) :
  Prints (block lib text size style color)
         (ExportEngine.addText lib (contentWidth lib) text size style color).
Proof.
  intros y.
  destruct (addText_pagination lib (contentWidth lib) text size style color y)
    as (Hc & Hl & Hbreak & Hstay).
  cbv zeta in Hbreak, Hstay.
  rewrite Hc, Hl. split; [eauto|]. split; [reflexivity|].
  destruct (gt (y + ExportEngine.lineCount
                       (splitTextToSize lib text size style (contentWidth lib))
                     * size * 0.4) 280).
  - destruct (Hbreak eq_refl) as [-> _]. unfold block. cbn [app].
    do 3 apply prints_call. apply prints_lines_on_new_page. constructor.
  - destruct (Hstay eq_refl) as [-> _]. unfold block. cbn [app].
    do 3 apply prints_call. apply prints_lines. constructor.
Qed.

Lemma Prints_swatches (lib : JsPDF) (colors : list string) (xOffset : float) :
  forallb (acceptsColor lib) colors = true ->
  Prints (swatch_row colors xOffset) (ExportEngine.swatches lib colors xOffset).
Proof.
  revert xOffset. induction colors as [|c rest IH]; intros xOffset H y;
    cbn [ExportEngine.swatches swatch_row].
  - apply Prints_ret.
  - cbn [forallb] in H. apply andb_true_iff in H. destruct H as [Hc Hrest].
    destruct (IH (xOffset + 35)%float Hrest y) as ([a Ha] & Hl & Hp).
    unfold ExportEngine.doc_setFillColor. rewrite Hc. run_pdf.
    fold (ExportEngine.swatches lib rest (xOffset + 35)%float y).
    destruct (ExportEngine.swatches lib rest (xOffset + 35)%float y)
      as [comp cur ops lg].
    cbn [Pdf.completion Pdf.logged Pdf.emitted] in Ha, Hl, Hp. subst comp lg.
    split; [eauto|]. split; [reflexivity|].
    apply prints_call, prints_rect. do 2 apply prints_call. apply prints_text.
    exact Hp.
Qed.

Lemma Prints_eq {A : Type} (p p' : list Piece) (m : Pdf.M A) :
  Prints p m -> p = p' -> Prints p' m.
Proof. intros H <-. exact H. Qed.

(** With the selected palette present and its colours accepted, the pages
    after the cover print the strategy and the visual identity, and then
    save. *)
Lemma Prints_laterPages (lib : JsPDF) (project : BrandProject.t)
    (d : BrandGeneratedData.t) (palette : ColorPalette.t) :
  ExportEngine.selectedPalette (BrandGeneratedData.visuals d) = Some palette ->
  forallb (acceptsColor lib) (ColorPalette.colors palette) = true ->
  Prints (strategy_pieces lib project d
          ++ identity_pieces lib d (ColorPalette.colors palette)
          ++ [call (Pdf.save (kit_filename project))])
         (ExportEngine.laterPages lib project d).
Proof.
  intros Hp Hc. unfold ExportEngine.laterPages. rewrite Hp.
  eapply Prints_eq.
  - repeat (eapply Prints_bind;
            [ first [ apply Prints_emit | apply Prints_set_y | apply Prints_advance
                    | apply Prints_addText | apply Prints_swatches; exact Hc ]
            | intro ]).
    apply Prints_emit.
  - unfold strategy_pieces, identity_pieces. cbn [app]. rewrite <- !app_assoc.
    reflexivity.
Qed.

(** *** The export of a project with generated data *)

Lemma coverPage_run (lib : JsPDF) (project : BrandProject.t)
    (d : BrandGeneratedData.t) (y : float) :
  ExportEngine.coverPage lib project d y
  = Pdf.mkRun (Pdf.Normal tt) y
      (cover_title lib project ++ cover_icon lib d ++ cover_footer lib)%list
      (cover_log lib d).
Proof.
  unfold ExportEngine.coverPage, cover_icon, cover_log, icon_url.
  destruct (BrandGeneratedData.logoIconUrl (BrandGeneratedData.visuals d)) as [url|];
    [|reflexivity].
  destruct (truthy (Some url)); [|reflexivity].
  unfold ExportEngine.doc_addImage.
  destruct (decodes lib url); reflexivity.
Qed.

Lemma bind_run {A B : Type} (m : Pdf.M A) (k : A -> Pdf.M B) (y : float)
    (a : A) (c : float) (ops : list Pdf.DocOp) (lg : list Pdf.Exn) :
  m y = Pdf.mkRun (Pdf.Normal a) c ops lg ->
  Pdf.bind m k y
  = Pdf.mkRun (Pdf.completion (k a c)) (Pdf.cursor (k a c))
              (ops ++ Pdf.emitted (k a c)) (lg ++ Pdf.logged (k a c)).
Proof. intros H. unfold Pdf.bind. rewrite H. reflexivity. Qed.

(** The export is the cover followed by the later pages from the cursor
    20. *)
Lemma exportToPDF_run (lib : JsPDF) (project : BrandProject.t)
    (d : BrandGeneratedData.t) :
  BrandProject.generatedData project = Some d ->
  ExportEngine.exportToPDF lib project
  = ExportEngine.mkOutcome
      (Pdf.completion (ExportEngine.laterPages lib project d 20%float))
      ((cover_title lib project ++ cover_icon lib d ++ cover_footer lib)
       ++ Pdf.emitted (ExportEngine.laterPages lib project d 20%float))
      (cover_log lib d ++ Pdf.logged (ExportEngine.laterPages lib project d 20%float)).
Proof.
  intros Hd. unfold ExportEngine.exportToPDF. rewrite Hd.
  rewrite (bind_run _ _ _ _ _ _ _ (coverPage_run lib project d 20%float)).
  reflexivity.
Qed.

Lemma plain_not_save (ops : list Pdf.DocOp) :
  forallb plain ops = true -> forallb (fun op => negb (is_save op)) ops = true.
Proof.
  induction ops as [|op ops IH]; cbn; [reflexivity|].
  intros H. apply andb_true_iff in H. destruct H as [H1 H2].
  rewrite (IH H2), andb_true_r. destruct op; try reflexivity; discriminate H1.
Qed.

Lemma saved_in_app (ops before : list Pdf.DocOp) (filename : string)
    (rest : list Pdf.DocOp) :
  forallb (fun op => negb (is_save op)) ops = true ->
  ExportEngine.saved_in before (ops ++ Pdf.save filename :: rest)
  = Some (filename, (rev before ++ ops)%list).
Proof.
  revert before. induction ops as [|op ops IH]; intros before H.
  - cbn. rewrite app_nil_r. reflexivity.
  - cbn in H. apply andb_true_iff in H. destruct H as [H1 H2].
    specialize (IH (op :: before) H2). cbn [rev] in IH.
    rewrite <- app_assoc in IH. cbn [app] in IH.
    destruct op; cbn [app ExportEngine.saved_in]; try exact IH; discriminate H1.
Qed.


Lemma cover_not_save (lib : JsPDF) (project : BrandProject.t)
    (d : BrandGeneratedData.t) :
  forallb (fun op => negb (is_save op))
          (cover_title lib project ++ cover_icon lib d ++ cover_footer lib) = true.
Proof.
  unfold cover_icon. destruct (icon_url d) as [url|]; [|reflexivity].
  destruct (truthy (Some url) && decodes lib url); reflexivity.
Qed.

(** The export of a project that has its generated data and its selected
    palette, with colours that the library accepts: it returns normally,
    having saved the cover and the later pages under the kit's name; the
    later pages print the strategy and the visual identity; the console
    holds what the icon step logged. *)
Lemma exportToPDF_with_data (lib : JsPDF) (project : BrandProject.t)
    (d : BrandGeneratedData.t) (palette : ColorPalette.t) :
  BrandProject.generatedData project = Some d ->
  ExportEngine.selectedPalette (BrandGeneratedData.visuals d) = Some palette ->
  forallb (acceptsColor lib) (ColorPalette.colors palette) = true ->
  exists later,
    forallb plain later = true /\
    Pdf.emitted (ExportEngine.laterPages lib project d 20%float)
    = (later ++ [Pdf.save (kit_filename project)])%list /\
    prints later (strategy_pieces lib project d
                  ++ identity_pieces lib d (ColorPalette.colors palette)) /\
    ExportEngine.exit (ExportEngine.exportToPDF lib project) = Pdf.Normal tt /\
    ExportEngine.console (ExportEngine.exportToPDF lib project) = cover_log lib d /\
    ExportEngine.saved (ExportEngine.exportToPDF lib project)
    = Some (kit_filename project,
            (cover_title lib project ++ cover_icon lib d ++ cover_footer lib ++ later)%list).
Proof.
  intros Hd Hp Hc.
  destruct (Saves_laterPages lib project d palette Hp Hc 20%float)
    as (Hcomp & Hl & later & He & Hplain).
  destruct (Prints_laterPages lib project d palette Hp Hc 20%float) as (_ & _ & Hprints).
  rewrite app_assoc in Hprints.
  apply prints_last_call in Hprints. destruct Hprints as (later' & He' & Hprints).
  rewrite He in He'. apply app_inj_tail in He'. destruct He' as [<- _].
  exists later. split; [exact Hplain|]. split; [exact He|]. split; [exact Hprints|].
  rewrite (exportToPDF_run lib project d Hd).
  unfold ExportEngine.saved.
  cbn [ExportEngine.exit ExportEngine.console ExportEngine.document].
  rewrite Hcomp, Hl, He, app_nil_r. split; [reflexivity|]. split; [reflexivity|].
  rewrite app_assoc. rewrite saved_in_app.
  - cbn [rev app]. rewrite <- !app_assoc. reflexivity.
  - rewrite forallb_app, cover_not_save, (plain_not_save _ Hplain). reflexivity.
Qed.


(** ** C8: a missing or undecodable icon *)

Lemma filter_forallb {A : Type} (f : A -> bool) (l : list A) :
  forallb f l = true -> filter f l = l.
Proof.
  induction l as [|a l IH]; cbn; [reflexivity|].
  intros H. apply andb_true_iff in H. destruct H as [H1 H2].
  rewrite H1, (IH H2). reflexivity.
Qed.

Lemma cover_icon_failed (lib : JsPDF) (d : BrandGeneratedData.t) :
  truthy (icon_url d) = false
  \/ (exists url, icon_url d = Some url /\ decodes lib url = false) ->
  cover_icon lib d = [].
Proof.
  unfold cover_icon. intros [H | (url & H & Hdec)].
  - destruct (icon_url d) as [url|]; [|reflexivity]. rewrite H. reflexivity.
  - rewrite H, Hdec, andb_false_r. reflexivity.
Qed.

Lemma cover_icon_plain (lib : JsPDF) (d : BrandGeneratedData.t) :
  filter plain (cover_icon lib d) = [].
Proof.
  unfold cover_icon. destruct (icon_url d) as [url|]; [|reflexivity].
  destruct (truthy (Some url) && decodes lib url); reflexivity.
Qed.

Lemma swatches_decoding_all (lib : JsPDF) (colors : list string) (xOffset : float) :
  ExportEngine.swatches (decoding_all lib) colors xOffset
  = ExportEngine.swatches lib colors xOffset.
Proof.
  revert xOffset. induction colors as [|c rest IH]; intros xOffset;
    cbn [ExportEngine.swatches]; [reflexivity|].
  rewrite IH. reflexivity.
Qed.

(** The pages after the cover do not depend on what [addImage] accepts. *)
Lemma laterPages_decoding_all (lib : JsPDF) (project : BrandProject.t)
    (d : BrandGeneratedData.t) :
  ExportEngine.laterPages (decoding_all lib) project d
  = ExportEngine.laterPages lib project d.
Proof.
  unfold ExportEngine.laterPages.
  destruct (ExportEngine.selectedPalette (BrandGeneratedData.visuals d)) as [palette|];
    [|reflexivity].
  rewrite swatches_decoding_all. reflexivity.
Qed.

(** C8 (as the code has it): let the project have generated data, and let
    its icon be missing or such that [addImage] cannot decode it.  Then the
    export ends as it does for the same project without an icon, with the
    same calls on the document: the icon step aborts nothing.  An
    undecodable icon is logged once; a missing icon is not logged at all.
    When the selected palette is there and the library accepts its colours,
    the export returns normally and saves the kit, and the saved document is
    complete but for the image: it prints the cover title and footer, the
    strategy and the visual identity, in this order and with nothing else,
    and it is the document that a successful [addImage] would have given,
    less the image. *)
Theorem icon_failure_does_not_abort
    (lib : JsPDF) (project : BrandProject.t) (d : BrandGeneratedData.t) :
  BrandProject.generatedData project = Some d ->
  truthy (icon_url d) = false
  \/ (exists url, icon_url d = Some url /\ decodes lib url = false) ->
  let o := ExportEngine.exportToPDF lib project in
  let o' := ExportEngine.exportToPDF lib (ExportEngine.without_icon project) in
  ExportEngine.exit o = ExportEngine.exit o' /\
  ExportEngine.document o = ExportEngine.document o' /\
  ExportEngine.console o
  = (match icon_url d with
     | Some url => if truthy (Some url) then [Pdf.ImageError url] else []
     | None => []
     end ++ ExportEngine.console o')%list /\
  forall palette : ColorPalette.t,
    ExportEngine.selectedPalette (BrandGeneratedData.visuals d) = Some palette ->
    forallb (acceptsColor lib) (ColorPalette.colors palette) = true ->
    ExportEngine.exit o = Pdf.Normal tt /\
    ExportEngine.console o' = [] /\
    exists doc,
      ExportEngine.saved o = Some (kit_filename project, doc) /\
      prints doc (kit_pieces [] lib project d (ColorPalette.colors palette)) /\
      exists doc',
        ExportEngine.saved (ExportEngine.exportToPDF (decoding_all lib) project)
        = Some (kit_filename project, doc') /\
        filter plain doc' = doc.
Proof.
  intros Hd Hicon o o'. subst o o'.
  assert (Hd' : BrandProject.generatedData (ExportEngine.without_icon project)
                = Some (ExportEngine.without_icon_data d))
    by (cbn; rewrite Hd; reflexivity).
  assert (Hlog : cover_log lib d
                 = match icon_url d with
                   | Some url => if truthy (Some url) then [Pdf.ImageError url] else []
                   | None => []
                   end).
  { unfold cover_log. destruct Hicon as [H | (url & H & Hdec)].
    - destruct (icon_url d) as [url|]; [|reflexivity]. rewrite H. reflexivity.
    - rewrite H, Hdec. cbn [negb]. rewrite andb_true_r. reflexivity. }
  assert (Hgen :
            ExportEngine.exit (ExportEngine.exportToPDF lib project)
            = ExportEngine.exit
                (ExportEngine.exportToPDF lib (ExportEngine.without_icon project)) /\
            ExportEngine.document (ExportEngine.exportToPDF lib project)
            = ExportEngine.document
                (ExportEngine.exportToPDF lib (ExportEngine.without_icon project)) /\
            ExportEngine.console (ExportEngine.exportToPDF lib project)
            = (cover_log lib d
               ++ ExportEngine.console
                    (ExportEngine.exportToPDF lib (ExportEngine.without_icon project)))%list).
  { rewrite (exportToPDF_run lib project d Hd).
    rewrite (exportToPDF_run lib _ _ Hd').
    cbn [ExportEngine.exit ExportEngine.console ExportEngine.document].
    rewrite (cover_icon_failed lib d Hicon).
    split; [reflexivity|]. split; reflexivity. }
  destruct Hgen as (Hexit_eq & Hdoc_eq & Hcons_eq). rewrite Hlog in Hcons_eq.
  split; [exact Hexit_eq|]. split; [exact Hdoc_eq|]. split; [exact Hcons_eq|].
  intros palette Hp Hc.
  destruct (exportToPDF_with_data lib project d palette Hd Hp Hc)
    as (later & Hplain & He & Hprints & Hexit & _ & Hsaved).
  rewrite (cover_icon_failed lib d Hicon) in Hsaved. cbn [app] in Hsaved.
  split; [exact Hexit|]. split.
  { destruct (exportToPDF_with_data lib (ExportEngine.without_icon project)
                (ExportEngine.without_icon_data d) palette Hd' Hp Hc)
      as (_ & _ & _ & _ & _ & Hcons' & _).
    exact Hcons'. }
  eexists. split; [exact Hsaved|]. split.
  - unfold kit_pieces. change ([] ++ cover_footer lib)%list with (cover_footer lib).
    rewrite (app_assoc (cover_title lib project)).
    apply prints_app; [apply prints_calls | exact Hprints].
  - destruct (exportToPDF_with_data (decoding_all lib) project d palette Hd Hp Hc)
      as (later' & _ & He' & _ & _ & _ & Hsaved').
    rewrite laterPages_decoding_all in He'.
    rewrite He in He'. apply app_inj_tail in He'. destruct He' as [<- _].
    eexists. split; [exact Hsaved'|].
    change (cover_title (decoding_all lib) project) with (cover_title lib project).
    change (cover_footer (decoding_all lib)) with (cover_footer lib).
    rewrite !filter_app, cover_icon_plain, (filter_forallb _ _ Hplain).
    reflexivity.
Qed.

Lemma icon_failure_does_not_abort_witness :
  let project := sample_project (Some (sample_data (Some "data:image/png;base64,AAAA"))) in
  let o := ExportEngine.exportToPDF (sample_jsPDF false) project in
  ExportEngine.exit o = Pdf.Normal tt /\
  ExportEngine.console o = [Pdf.ImageError "data:image/png;base64,AAAA"] /\
  exists doc,
    ExportEngine.saved o = Some ("Acme_Corp_BrandKit.pdf", doc) /\
    prints doc
      (kit_pieces [] (sample_jsPDF false) project
         (sample_data (Some "data:image/png;base64,AAAA")) ["#4f46e5"; "#ffffff"]).
Proof.
  cbv zeta.
  destruct (icon_failure_does_not_abort
              (sample_jsPDF false)
              (sample_project (Some (sample_data (Some "data:image/png;base64,AAAA"))))
              (sample_data (Some "data:image/png;base64,AAAA"))
              eq_refl
              (or_intror (ex_intro _ "data:image/png;base64,AAAA" (conj eq_refl eq_refl))))
    as (_ & _ & Hcons & Hkit).
  destruct (Hkit (ColorPalette.mk "Main" ["#4f46e5"; "#ffffff"] "bold") eq_refl eq_refl)
    as (Hexit & Hquiet & doc & Hsaved & Hprints & _).
  split; [exact Hexit|]. split.
  - rewrite Hcons, Hquiet. reflexivity.
  - exists doc. split; [exact Hsaved | exact Hprints].
Defined.

(** C8, the claim as written fails: a missing icon is skipped without any
    log entry; the kit is saved and the console stays empty. *)
Lemma missing_icon_is_not_logged :
  let project := sample_project (Some (sample_data None)) in
  let o := ExportEngine.exportToPDF (sample_jsPDF true) project in
  icon_url (sample_data None) = None /\
  ExportEngine.exit o = Pdf.Normal tt /\
  (exists doc, ExportEngine.saved o = Some ("Acme_Corp_BrandKit.pdf", doc)) /\
  ExportEngine.console o = [] /\
  ~ (exists e, In e (ExportEngine.console o)).
Proof.
  cbv zeta. split; [reflexivity|]. split; [vm_compute; reflexivity|].
  split; [eexists; vm_compute; reflexivity|].
  split; [vm_compute; reflexivity|].
  intros [e H]. vm_compute in H. exact H.
Qed.

(** ** C9: how an export ends *)




(** When the selected palette is missing, reading its colours throws: the
    export stops on the third page with nothing saved. *)
Lemma exportToPDF_without_palette_throws :
  let d :=
    BrandGeneratedData.mk
      (BrandGeneratedData.mkStory "vision" "mission" "problem" "solution" "positioning")
      (BrandGeneratedData.mkMarketing "short" "long")
      (BrandGeneratedData.mkVisuals [] 0
         (BrandGeneratedData.mkFonts "Montserrat" "Poppins" "Lato") "a fox" None None) in
  let o := ExportEngine.exportToPDF (sample_jsPDF true) (sample_project (Some d)) in
  ExportEngine.exit o
  = Pdf.Throw (Pdf.TypeError "Cannot read properties of undefined (reading 'colors')") /\
  ExportEngine.saved o = None /\
  ExportEngine.console o = [].
Proof. cbv zeta. vm_compute. repeat split. Qed.

(** When the library rejects a colour of the palette, [setFillColor]
    throws: the export stops in the row of swatches, after the swatches of
    the colours before it, with nothing saved and nothing logged. *)
Lemma exportToPDF_with_rejected_colour_throws :
  let d :=
    BrandGeneratedData.mk
      (BrandGeneratedData.mkStory "vision" "mission" "problem" "solution" "positioning")
      (BrandGeneratedData.mkMarketing "short" "long")
      (BrandGeneratedData.mkVisuals
         [ColorPalette.mk "Main" ["#4f46e5"; "indigo-ish"; "#ffffff"] "bold"] 0
         (BrandGeneratedData.mkFonts "Montserrat" "Poppins" "Lato") "a fox" None None) in
  let o := ExportEngine.exportToPDF (sample_jsPDF true) (sample_project (Some d)) in
  ExportEngine.exit o = Pdf.Throw (Pdf.ColorError "indigo-ish") /\
  ExportEngine.saved o = None /\
  ExportEngine.console o = [] /\
  filter (fun op => match op with Pdf.setFillColor _ => true | _ => false end)
         (ExportEngine.document o)
  = [Pdf.setFillColor "#4f46e5"].
Proof. cbv zeta. vm_compute. repeat split. Qed.

(** * Further properties of the editor *)

(** ** Adding and deleting layers *)

Lemma NoDup_snoc {A : Type} (l : list A) (a : A) :
  NoDup l -> ~ In a l -> NoDup (l ++ [a]).
Proof.
  induction l as [|b l IH]; cbn; intros Hnd Hni.
  - constructor; [intros [] | constructor].
  - inversion Hnd as [|? ? Hb Hl]; subst. constructor.
    + intros Hin. apply in_app_or in Hin. destruct Hin as [Hin | [E | []]].
      * exact (Hb Hin).
      * apply Hni. left. symmetry. exact E.
    + apply IH; [exact Hl|]. intros Hin. apply Hni. right. exact Hin.
Qed.

Lemma find_absent_id (i : string) (l : list TextLayer.t) :
  ~ In i (map TextLayer.id l) ->
  find (fun el => strict_eq (TextLayer.id el) (Some i)) l = None.
Proof.
  induction l as [|a l IH]; cbn; intros Hni; [reflexivity|].
  destruct (String.eqb_spec (TextLayer.id a) i) as [E|E].
  - exfalso. apply Hni. left. exact E.
  - apply IH. intros Hin. apply Hni. right. exact Hin.
Qed.

Lemma find_app_absent {A : Type} (f : A -> bool) (l l' : list A) :
  find f l = None -> find f (l ++ l') = find f l'.
Proof.
  induction l as [|a l IH]; cbn; [reflexivity|].
  destruct (f a); [discriminate | exact IH].
Qed.

Lemma filter_keep_others (i : string) (l : list TextLayer.t) :
  ~ In i (map TextLayer.id l) ->
  filter (fun el => negb (strict_eq (TextLayer.id el) (Some i))) l = l.
Proof.
  induction l as [|a l IH]; cbn; intros Hni; [reflexivity|].
  destruct (String.eqb_spec (TextLayer.id a) i) as [E|E].
  - exfalso. apply Hni. left. exact E.
  - cbn. f_equal. apply IH. intros Hin. apply Hni. right. exact Hin.
Qed.

Lemma textElements_addTextElement
    (projectName logoFont firstColor : string) (now : N) (st : Canvas.t) :
  Canvas.textElements (Canvas.addTextElement projectName logoFont firstColor now st)
  = (Canvas.textElements st ++ [newTextLayer projectName logoFont firstColor now st])%list.
Proof. reflexivity. Qed.

Lemma selectedElementId_addTextElement
    (projectName logoFont firstColor : string) (now : N) (st : Canvas.t) :
  Canvas.selectedElementId (Canvas.addTextElement projectName logoFont firstColor now st)
  = Some (Canvas.timestamp_id now).
Proof. reflexivity. Qed.

(** X1: a new text layer goes to the end of the collection (so it paints on
    top), stands at the container's centre shifted down by 80, and becomes
    the selection; the layers already there are untouched.  When its
    timestamp id is not yet in use, the ids stay well formed and the new
    layer is the one the text editor shows and the only one drawn
    selected. *)
Theorem addTextElement_appends_and_selects
    (projectName logoFont firstColor : string) (now : N) (st : Canvas.t) :
  ids_well_formed (Canvas.textElements st) ->
  ~ In (Canvas.timestamp_id now) (map TextLayer.id (Canvas.textElements st)) ->
  let st' := Canvas.addTextElement projectName logoFont firstColor now st in
  exists newText,
    Canvas.textElements st' = (Canvas.textElements st ++ [newText])%list /\
    TextLayer.id newText = Canvas.timestamp_id now /\
    TextLayer.x newText
    = (inject_Z (LogoSettings.width (Canvas.logoSettings st)) / 2)%Q /\
    TextLayer.y newText
    = (inject_Z (LogoSettings.height (Canvas.logoSettings st)) / 2 + 80)%Q /\
    Canvas.selectedElementId st' = Some (TextLayer.id newText) /\
    ids_well_formed (Canvas.textElements st') /\
    Canvas.activeTextElement st' = Some newText /\
    selected_layers st' = [newText].
Proof.
  intros [Hnd Hne] Hfresh st'. subst st'.
  exists (newTextLayer projectName logoFont firstColor now st).
  split; [reflexivity|]. split; [reflexivity|]. split; [reflexivity|].
  split; [reflexivity|]. split; [reflexivity|].
  assert (Hself : strict_eq
                    (TextLayer.id (newTextLayer projectName logoFont firstColor now st))
                    (Some (Canvas.timestamp_id now)) = true)
    by apply String.eqb_refl.
  split; [|split].
  - unfold ids_well_formed. rewrite textElements_addTextElement, map_app. split.
    + apply NoDup_snoc; assumption.
    + intros Hin. apply in_app_or in Hin. destruct Hin as [Hin | [E | []]].
      * exact (Hne Hin).
      * exact (timestamp_id_not_empty now E).
  - unfold Canvas.activeTextElement.
    rewrite textElements_addTextElement, selectedElementId_addTextElement.
    rewrite find_app_absent by (apply find_absent_id; exact Hfresh).
    cbn [find]. rewrite Hself. reflexivity.
  - unfold selected_layers, Canvas.shown_selected.
    rewrite textElements_addTextElement, selectedElementId_addTextElement, filter_app.
    rewrite (filter_absent_id _ _ Hfresh). cbn [filter app]. rewrite Hself.
    reflexivity.
Qed.

Lemma addTextElement_appends_and_selects_witness :
  exists newText,
    Canvas.textElements
      (Canvas.addTextElement "Acme" "Poppins" "#4f46e5" 1700000000000
         (sample_editor [sample_layer "17" 200 280; sample_layer "18" 10 10] None))
    = [sample_layer "17" 200 280; sample_layer "18" 10 10; newText] /\
    TextLayer.id newText = "1700000000000".
Proof.
  destruct (addTextElement_appends_and_selects "Acme" "Poppins" "#4f46e5" 1700000000000
              (sample_editor [sample_layer "17" 200 280; sample_layer "18" 10 10] None)
              sample_ids_well_formed)
    as (newText & Hl & Hid & _).
  - cbn. intros [H | [H | []]]; discriminate H.
  - exists newText. split; [exact Hl | exact Hid].
Defined.

(** X2: adding a text layer with an unused id and deleting it at once brings
    back the settings as they were, layer for layer, and leaves nothing
    selected. *)
Theorem add_then_delete_restores
    (projectName logoFont firstColor : string) (now : N) (st : Canvas.t) :
  ~ In (Canvas.timestamp_id now) (map TextLayer.id (Canvas.textElements st)) ->
  let st' :=
    Canvas.deleteSelectedText
      (Canvas.addTextElement projectName logoFont firstColor now st) in
  Canvas.logoSettings st' = Canvas.logoSettings st /\
  Canvas.selectedElementId st' = None.
Proof.
  intros Hfresh st'. subst st'.
  unfold Canvas.deleteSelectedText.
  rewrite textElements_addTextElement, selectedElementId_addTextElement.
  rewrite (truthy_Some _ (timestamp_id_not_empty now)). cbn [negb].
  split; [|reflexivity].
  rewrite filter_app, (filter_keep_others _ _ Hfresh).
  assert (Hself : strict_eq
                    (TextLayer.id (newTextLayer projectName logoFont firstColor now st))
                    (Some (Canvas.timestamp_id now)) = true)
    by apply String.eqb_refl.
  cbn [filter]. rewrite Hself. cbn [negb]. rewrite app_nil_r.
  unfold Canvas.textElements.
  destruct st as [ls sel dr ds]. destruct ls. reflexivity.
Qed.

Lemma add_then_delete_restores_witness :
  Canvas.logoSettings
    (Canvas.deleteSelectedText
       (Canvas.addTextElement "Acme" "Poppins" "#4f46e5" 1700000000000
          (sample_editor [sample_layer "17" 200 280] (Some "17"))))
  = sample_settings [sample_layer "17" 200 280].
Proof.
  apply (add_then_delete_restores "Acme" "Poppins" "#4f46e5" 1700000000000
           (sample_editor [sample_layer "17" 200 280] (Some "17"))).
  cbn. intros [H | []]. discriminate H.
Defined.

Lemma filter_selected_length (sel : string) (l : list TextLayer.t) :
  NoDup (map TextLayer.id l) ->
  In sel (map TextLayer.id l) ->
  S (List.length (filter (fun el => negb (strict_eq (TextLayer.id el) (Some sel))) l))
  = List.length l.
Proof.
  induction l as [|a l IH]; cbn [map filter List.length]; intros Hnd Hin; [destruct Hin|].
  inversion Hnd as [|? ? Hna Hnd']; subst.
  destruct (strict_eq (TextLayer.id a) (Some sel)) eqn:E; cbn [negb].
  - cbn in E. apply String.eqb_eq in E. rewrite <- E in *.
    rewrite (filter_keep_others _ _ Hna). reflexivity.
  - cbn [List.length]. f_equal. apply IH; [exact Hnd'|].
    destruct Hin as [Hin|Hin]; [|exact Hin].
    cbn in E. rewrite Hin, String.eqb_refl in E. discriminate E.
Qed.

(** X3: deleting with a selection removes every layer that carries the
    selected id and nothing else: the layers that remain are the others, in
    their order, and the container and icon settings are as before.  With
    unique ids and the selected layer present, exactly one layer goes. *)
Theorem deleteSelectedText_removes_selected (st : Canvas.t) (sel : string) :
  Canvas.selectedElementId st = Some sel ->
  sel <> "" ->
  let before := Canvas.textElements st in
  let after := Canvas.textElements (Canvas.deleteSelectedText st) in
  after = filter (fun el => negb (String.eqb (TextLayer.id el) sel)) before /\
  (forall el, In el after <-> In el before /\ TextLayer.id el <> sel) /\
  same_container (Canvas.logoSettings st)
                 (Canvas.logoSettings (Canvas.deleteSelectedText st)) /\
  (NoDup (map TextLayer.id before) -> In sel (map TextLayer.id before) ->
   S (List.length after) = List.length before).
Proof.
  intros Hsel Hne before after. subst before after.
  rewrite textElements_deleteSelectedText, Hsel, (truthy_Some sel Hne).
  split; [reflexivity|]. split; [|split].
  - intros el. rewrite filter_In. cbn [strict_eq].
    destruct (String.eqb_spec (TextLayer.id el) sel) as [E|E]; cbn [negb].
    + split; [intros [_ H]; discriminate H | intros [_ H]; contradiction].
    + split; [intros [H _]; split; assumption | intros [H _]; split; [exact H|reflexivity]].
  - unfold Canvas.deleteSelectedText. rewrite Hsel, (truthy_Some sel Hne).
    cbn [negb]. repeat split.
  - apply filter_selected_length.
Qed.

Lemma deleteSelectedText_removes_selected_witness :
  Canvas.textElements
    (Canvas.deleteSelectedText
       (sample_editor [sample_layer "17" 200 280; sample_layer "18" 10 10;
                       sample_layer "17" 5 5] (Some "17")))
  = [sample_layer "18" 10 10].
Proof.
  apply (deleteSelectedText_removes_selected
           (sample_editor [sample_layer "17" 200 280; sample_layer "18" 10 10;
                           sample_layer "17" 5 5] (Some "17"))
           "17" eq_refl).
  discriminate.
Defined.

(** ** What a drag moves *)

Lemma same_but_position_refl (el : TextLayer.t) : same_but_position el el.
Proof. unfold same_but_position. repeat split; reflexivity. Qed.

Lemma moved_only_refl (sel : option string) (l : list TextLayer.t) :
  moved_only sel l l.
Proof.
  induction l as [|a l IH]; constructor; [|exact IH].
  split; [apply same_but_position_refl | reflexivity].
Qed.

Lemma moved_only_trans (sel : option string) (a b c : list TextLayer.t) :
  moved_only sel a b -> moved_only sel b c -> moved_only sel a c.
Proof.
  intros Hab. revert c. induction Hab as [|x y a b [Hxy Hfix] Hab IH]; intros c Hbc.
  - inversion Hbc; subst. constructor.
  - inversion Hbc as [|? z ? c' [Hyz Hfix'] Hbc']; subst. constructor.
    + split.
      * unfold same_but_position in *.
        destruct Hxy as (h1 & h2 & h3 & h4 & h5 & h6 & h7 & h8 & h9).
        destruct Hyz as (g1 & g2 & g3 & g4 & g5 & g6 & g7 & g8 & g9).
        repeat split; congruence.
      * intros Hx. specialize (Hfix Hx). subst y. exact (Hfix' Hx).
    + apply IH. exact Hbc'.
Qed.

Lemma moved_only_update (sel : option string) (px py : Q) (l : list TextLayer.t) :
  moved_only sel l (map (update_layer sel (Canvas.move_to px py)) l).
Proof.
  induction l as [|a l IH]; cbn [map]; constructor; [|exact IH].
  unfold update_layer. destruct (strict_eq (TextLayer.id a) sel).
  - split; [|intros H; discriminate H].
    unfold same_but_position. cbn. repeat split; reflexivity.
  - split; [apply same_but_position_refl | reflexivity].
Qed.

Lemma selectedElementId_updateSelectedText (st : Canvas.t) (u : PartialTextLayer.t) :
  Canvas.selectedElementId (Canvas.updateSelectedText st u) = Canvas.selectedElementId st.
Proof.
  unfold Canvas.updateSelectedText.
  destruct (negb (truthy (Canvas.selectedElementId st))); reflexivity.
Qed.

Lemma same_container_updateSelectedText (st : Canvas.t) (u : PartialTextLayer.t) :
  same_container (Canvas.logoSettings st)
                 (Canvas.logoSettings (Canvas.updateSelectedText st u)).
Proof.
  unfold Canvas.updateSelectedText.
  destruct (negb (truthy (Canvas.selectedElementId st))); repeat split.
Qed.

Lemma handleMouseMove_moved_only (client : Q * Q) (st : Canvas.t) :
  moved_only (Canvas.selectedElementId st) (Canvas.textElements st)
             (Canvas.textElements (Canvas.handleMouseMove client st)) /\
  Canvas.selectedElementId (Canvas.handleMouseMove client st)
  = Canvas.selectedElementId st /\
  same_container (Canvas.logoSettings st)
                 (Canvas.logoSettings (Canvas.handleMouseMove client st)).
Proof.
  unfold Canvas.handleMouseMove.
  destruct (negb (Canvas.isDragging st) || negb (truthy (Canvas.selectedElementId st))).
  - split; [apply moved_only_refl|]. split; [reflexivity | repeat split].
  - destruct (find _ (Canvas.textElements st)) as [element|].
    + change (Canvas.textElements (Canvas.set_dragStart ?s client))
        with (Canvas.textElements s).
      change (Canvas.selectedElementId (Canvas.set_dragStart ?s client))
        with (Canvas.selectedElementId s).
      change (Canvas.logoSettings (Canvas.set_dragStart ?s client))
        with (Canvas.logoSettings s).
      split; [|split].
      * rewrite textElements_updateSelectedText.
        destruct (truthy (Canvas.selectedElementId st));
          [apply moved_only_update | apply moved_only_refl].
      * apply selectedElementId_updateSelectedText.
      * apply same_container_updateSelectedText.
    + split; [apply moved_only_refl|]. split; [reflexivity | repeat split].
Qed.

Lemma same_container_trans (a b c : LogoSettings.t) :
  same_container a b -> same_container b c -> same_container a c.
Proof. unfold same_container. intuition congruence. Qed.

(** One pointer-move between renders: the render stays, and the layers set
    for the next render are either the ones set before or the rendered
    ones with only the selected layers moved. *)
Lemma Live_handleMouseMove_moved_only (client : Q * Q) (st : Live.t) :
  Live.logoSettings (Live.handleMouseMove client st) = Live.logoSettings st /\
  Live.selectedElementId (Live.handleMouseMove client st) = Live.selectedElementId st /\
  Live.nextSelectedElementId (Live.handleMouseMove client st)
  = Live.nextSelectedElementId st /\
  (Live.nextLogoSettings (Live.handleMouseMove client st) = Live.nextLogoSettings st
   \/ (moved_only (Live.selectedElementId st) (Live.textElements st)
         (LogoSettings.textElements
            (Live.nextLogoSettings (Live.handleMouseMove client st))) /\
       same_container (Live.logoSettings st)
         (Live.nextLogoSettings (Live.handleMouseMove client st)))).
Proof.
  unfold Live.handleMouseMove.
  destruct (negb (Live.isDragging st) || negb (truthy (Live.selectedElementId st)));
    [auto|].
  destruct (find _ (Live.textElements st)) as [element|]; [|cbn; auto].
  unfold Live.updateSelectedText.
  destruct (negb (truthy (Live.selectedElementId st))); [cbn; auto|].
  cbn. do 3 (split; [reflexivity|]). right. split.
  - apply moved_only_update.
  - repeat split.
Qed.

(** X4: however the pointer moves and whenever the component renders, a
    drag changes nothing but the position of layers that carry the selected
    id: in what is shown and in what is set for the next render, every
    other layer is exactly as before, the dragged one keeps its id, text,
    font, colour, spacing, rotation and alignment, the order and number of
    layers stay, and so do the selection, the container and the icon.  In
    particular this holds of the pointer-moves of [Canvas.run], which have a
    render after each. *)
Theorem drag_moves_only_selected
    (events : list Live.Event) (pointer : list (Q * Q)) (st : Canvas.t) :
  let sel := Canvas.selectedElementId st in
  let shown := drag (Live.fresh st) events in
  let st' := Canvas.run st (map Canvas.MouseMove pointer) in
  (moved_only sel (Canvas.textElements st) (Live.textElements shown) /\
   moved_only sel (Canvas.textElements st)
              (LogoSettings.textElements (Live.nextLogoSettings shown)) /\
   Live.selectedElementId shown = sel /\
   Live.nextSelectedElementId shown = sel /\
   same_container (Canvas.logoSettings st) (Live.logoSettings shown) /\
   same_container (Canvas.logoSettings st) (Live.nextLogoSettings shown)) /\
  (moved_only sel (Canvas.textElements st) (Canvas.textElements st') /\
   Canvas.selectedElementId st' = sel /\
   same_container (Canvas.logoSettings st) (Canvas.logoSettings st')).
Proof.
  cbv zeta.
  assert (Hall : forall (events : list Live.Event) (shown : Live.t),
             moved_only (Canvas.selectedElementId st) (Canvas.textElements st)
                        (Live.textElements shown) /\
             moved_only (Canvas.selectedElementId st) (Canvas.textElements st)
                        (LogoSettings.textElements (Live.nextLogoSettings shown)) /\
             Live.selectedElementId shown = Canvas.selectedElementId st /\
             Live.nextSelectedElementId shown = Canvas.selectedElementId st /\
             same_container (Canvas.logoSettings st) (Live.logoSettings shown) /\
             same_container (Canvas.logoSettings st) (Live.nextLogoSettings shown) ->
             moved_only (Canvas.selectedElementId st) (Canvas.textElements st)
                        (Live.textElements (drag shown events)) /\
             moved_only (Canvas.selectedElementId st) (Canvas.textElements st)
                        (LogoSettings.textElements
                           (Live.nextLogoSettings (drag shown events))) /\
             Live.selectedElementId (drag shown events) = Canvas.selectedElementId st /\
             Live.nextSelectedElementId (drag shown events)
             = Canvas.selectedElementId st /\
             same_container (Canvas.logoSettings st)
                            (Live.logoSettings (drag shown events)) /\
             same_container (Canvas.logoSettings st)
                            (Live.nextLogoSettings (drag shown events))).
  { clear events. intros events.
    induction events as [|e events IH]; intros shown Inv; [exact Inv|].
    unfold drag, Live.run in *. cbn [fold_left]. apply IH.
    destruct Inv as (Hm & Hm' & Hs & Hs' & Hc & Hc').
    destruct e as [client|]; cbn [Live.step].
    - destruct (Live_handleMouseMove_moved_only client shown)
        as (El & Es & En & Hnext).
      unfold Live.textElements in *. rewrite El, Es, En.
      split; [exact Hm|]. split; [|split; [exact Hs|]; split; [exact Hs'|];
                                   split; [exact Hc|]].
      + destruct Hnext as [-> | [Hmv _]]; [exact Hm'|].
        rewrite Hs in Hmv. exact (moved_only_trans _ _ _ _ Hm Hmv).
      + destruct Hnext as [-> | [_ Hsame]]; [exact Hc'|].
        exact (same_container_trans _ _ _ Hc Hsame).
    - unfold Live.textElements in *.
      exact (conj Hm' (conj Hm' (conj Hs' (conj Hs' (conj Hc' Hc'))))). }
  split.
  - apply Hall. unfold Live.textElements. cbn.
    split; [apply moved_only_refl|]. split; [apply moved_only_refl|].
    repeat split.
  - destruct (Hall (render_each pointer) (Live.fresh st)) as (Hm & _ & Hs & _ & Hc & _).
    { unfold Live.textElements. cbn.
      split; [apply moved_only_refl|]. split; [apply moved_only_refl|].
      repeat split. }
    rewrite drag_render_each in Hm, Hs, Hc.
    split; [exact Hm|]. split; [exact Hs | exact Hc].
Qed.

(** ** Events that change nothing in the design *)

Lemma passive_step (st : Canvas.t) (e : Canvas.Event) :
  Canvas.isDragging st = false ->
  passive e = true ->
  Canvas.logoSettings (Canvas.step st e) = Canvas.logoSettings st /\
  Canvas.isDragging (Canvas.step st e) = false.
Proof.
  intros Hd Hp. destruct e; try discriminate Hp; cbn [Canvas.step].
  - unfold Canvas.handleMouseMove. rewrite Hd. cbn. split; [reflexivity | exact Hd].
  - split; reflexivity.
  - split; reflexivity.
  - split; [reflexivity | exact Hd].
Qed.

(** X5: without a pointer-down on a layer and without the delete button, no
    sequence of pointer moves, releases, leaves and canvas clicks changes the
    design: the layers, the container and the icon stay exactly as they
    were. *)
Theorem no_pointer_down_no_change (events : list Canvas.Event) (st : Canvas.t) :
  Canvas.isDragging st = false ->
  forallb passive events = true ->
  Canvas.logoSettings (Canvas.run st events) = Canvas.logoSettings st.
Proof.
  revert st. induction events as [|e events IH]; intros st Hd Hp; [reflexivity|].
  cbn in Hp. apply andb_true_iff in Hp. destruct Hp as [He Hes].
  destruct (passive_step st e Hd He) as [Hl Hd'].
  cbn [Canvas.run fold_left]. unfold Canvas.run in IH.
  rewrite (IH _ Hd' Hes). exact Hl.
Qed.

Lemma no_pointer_down_no_change_witness :
  Canvas.logoSettings
    (Canvas.run (sample_editor [sample_layer "17" 200 280] (Some "17"))
       [Canvas.MouseMove (3, 4)%Q; Canvas.MouseUp; Canvas.MouseMove (9, 9)%Q;
        Canvas.CanvasClick; Canvas.MouseLeave])
  = sample_settings [sample_layer "17" 200 280].
Proof.
  apply (no_pointer_down_no_change
           [Canvas.MouseMove (3, 4)%Q; Canvas.MouseUp; Canvas.MouseMove (9, 9)%Q;
            Canvas.CanvasClick; Canvas.MouseLeave]
           (sample_editor [sample_layer "17" 200 280] (Some "17"))
           eq_refl eq_refl).
Defined.

(** ** How updates compose *)

Lemma override_later_wins {A : Type} (x : A) (a b : option A) :
  override (override x a) b = override x (later_wins a b).
Proof. destruct b; reflexivity. Qed.

Lemma spreadTextLayer_merge (el : TextLayer.t) (a b : PartialTextLayer.t) :
  spreadTextLayer (spreadTextLayer el a) b = spreadTextLayer el (mergeTextUpdates a b).
Proof.
  unfold spreadTextLayer, mergeTextUpdates.
  cbn [TextLayer.id TextLayer.text TextLayer.x TextLayer.y TextLayer.fontSize
       TextLayer.fontFamily TextLayer.color TextLayer.spacing TextLayer.rotation
       TextLayer.fontWeight TextLayer.align
       PartialTextLayer.id PartialTextLayer.text PartialTextLayer.x PartialTextLayer.y
       PartialTextLayer.fontSize PartialTextLayer.fontFamily PartialTextLayer.color
       PartialTextLayer.spacing PartialTextLayer.rotation PartialTextLayer.fontWeight
       PartialTextLayer.align].
  rewrite !override_later_wins. reflexivity.
Qed.

Lemma spreadLogoSettings_merge (s : LogoSettings.t) (a b : PartialLogoSettings.t) :
  spreadLogoSettings (spreadLogoSettings s a) b
  = spreadLogoSettings s (mergeLogoUpdates a b).
Proof.
  unfold spreadLogoSettings, mergeLogoUpdates.
  cbn [LogoSettings.bgColor LogoSettings.shape LogoSettings.width LogoSettings.height
       LogoSettings.borderRadius LogoSettings.iconColor LogoSettings.iconSize
       LogoSettings.tintIcon LogoSettings.textElements
       PartialLogoSettings.bgColor PartialLogoSettings.shape PartialLogoSettings.width
       PartialLogoSettings.height PartialLogoSettings.borderRadius
       PartialLogoSettings.iconColor PartialLogoSettings.iconSize
       PartialLogoSettings.tintIcon PartialLogoSettings.textElements].
  rewrite !override_later_wins. reflexivity.
Qed.

(** X6: two updates of the selected text layer in a row are one update with
    the two bags merged, the later one winning key by key, provided the
    first does not rename the layer. *)
Theorem updateSelectedText_composes (st : Canvas.t) (a b : PartialTextLayer.t) :
  PartialTextLayer.id a = None ->
  Canvas.updateSelectedText (Canvas.updateSelectedText st a) b
  = Canvas.updateSelectedText st (mergeTextUpdates a b).
Proof.
  intros Ha.
  destruct (truthy (Canvas.selectedElementId st)) eqn:Ht.
  - assert (Ht' : truthy (Canvas.selectedElementId (Canvas.updateSelectedText st a))
                  = true)
      by (rewrite selectedElementId_updateSelectedText; exact Ht).
    rewrite (updateSelectedText_truthy _ b Ht').
    rewrite selectedElementId_updateSelectedText, textElements_updateSelectedText, Ht.
    rewrite (updateSelectedText_truthy st a Ht).
    rewrite (updateSelectedText_truthy st _ Ht).
    rewrite map_map.
    replace (map (fun el => update_layer (Canvas.selectedElementId st) b
                              (update_layer (Canvas.selectedElementId st) a el))
                 (Canvas.textElements st))
      with (map (update_layer (Canvas.selectedElementId st) (mergeTextUpdates a b))
                (Canvas.textElements st)).
    + reflexivity.
    + apply map_ext. intros el. unfold update_layer.
      destruct (strict_eq (TextLayer.id el) (Canvas.selectedElementId st)) eqn:E.
      * rewrite spreadTextLayer_id_None by exact Ha. rewrite E.
        symmetry. apply spreadTextLayer_merge.
      * rewrite E. reflexivity.
  - rewrite (updateSelectedText_falsy st a Ht).
    rewrite (updateSelectedText_falsy st b Ht).
    rewrite (updateSelectedText_falsy st _ Ht). reflexivity.
Qed.

Lemma updateSelectedText_composes_witness :
  let st := sample_editor [sample_layer "17" 200 280; sample_layer "18" 10 10]
                          (Some "18") in
  Canvas.updateSelectedText
    (Canvas.updateSelectedText st (Canvas.just_spacing 7)) (Canvas.move_to 1 2)
  = Canvas.updateSelectedText st
      (mergeTextUpdates (Canvas.just_spacing 7) (Canvas.move_to 1 2)).
Proof.
  cbv zeta.
  apply (updateSelectedText_composes
           (sample_editor [sample_layer "17" 200 280; sample_layer "18" 10 10]
                          (Some "18"))
           (Canvas.just_spacing 7) (Canvas.move_to 1 2) eq_refl).
Defined.

(** X7: two updates of the logo settings in a row are one update with the
    two bags merged, the later one winning key by key; in particular the
    same update twice is the update once, and switching the icon tint and
    then switching it back gives the settings one started from. *)
Theorem updateLogoSettings_composes (st : Canvas.t) (a b : PartialLogoSettings.t) :
  Canvas.updateLogoSettings (Canvas.updateLogoSettings st a) b
  = Canvas.updateLogoSettings st (mergeLogoUpdates a b) /\
  Canvas.updateLogoSettings (Canvas.updateLogoSettings st a) a
  = Canvas.updateLogoSettings st a /\
  forall checked : bool,
    Canvas.updateLogoSettings
      (Canvas.updateLogoSettings st (just_tintIcon checked))
      (just_tintIcon (LogoSettings.tintIcon (Canvas.logoSettings st)))
    = st.
Proof.
  split; [|split].
  - unfold Canvas.updateLogoSettings. cbn [Canvas.logoSettings Canvas.selectedElementId
      Canvas.isDragging Canvas.dragStart].
    rewrite spreadLogoSettings_merge. reflexivity.
  - unfold Canvas.updateLogoSettings. cbn [Canvas.logoSettings Canvas.selectedElementId
      Canvas.isDragging Canvas.dragStart].
    rewrite spreadLogoSettings_merge. f_equal.
    unfold spreadLogoSettings, mergeLogoUpdates. cbn.
    destruct a as [a1 a2 a3 a4 a5 a6 a7 a8 a9]; cbn.
    destruct a1, a2, a3, a4, a5, a6, a7, a8, a9; reflexivity.
  - intros checked. destruct st as [ls sel dr ds]. destruct ls. reflexivity.
Qed.

(** X8: choosing a shape overrides whatever shape, width and height were set
    before: after any update that names only shape, width or height (another
    shape button, the size sliders) the result of the shape button is the
    same as without that update.  The size after a shape button depends on
    that shape alone. *)
Theorem selectShape_last_wins (s : Shape) (u : PartialLogoSettings.t) (st : Canvas.t) :
  only_shape_and_size u ->
  Canvas.selectShape s (Canvas.updateLogoSettings st u) = Canvas.selectShape s st.
Proof.
  intros (h1 & h2 & h3 & h4 & h5 & h6).
  unfold Canvas.selectShape, Canvas.updateLogoSettings.
  cbn [Canvas.logoSettings Canvas.selectedElementId Canvas.isDragging Canvas.dragStart].
  f_equal. unfold spreadLogoSettings. cbn. rewrite h1, h2, h3, h4, h5, h6.
  reflexivity.
Qed.

Lemma selectShape_last_wins_witness :
  Canvas.selectShape circle
    (Canvas.selectShape rectangle (sample_editor [sample_layer "17" 200 280] None))
  = Canvas.selectShape circle (sample_editor [sample_layer "17" 200 280] None).
Proof.
  apply (selectShape_last_wins circle (Canvas.shapeUpdates rectangle)
           (sample_editor [sample_layer "17" 200 280] None)).
  repeat split.
Defined.

(** * Further properties of the export *)

(** ** The file name *)

Lemma replace_spaces_no_space (in_run : bool) (s : string) :
  Forall (fun c => is_space c = false) (list_ascii_of_string (replace_spaces in_run s)).
Proof.
  revert in_run. induction s as [|c s IH]; intros in_run; cbn [replace_spaces].
  - constructor.
  - destruct (is_space c) eqn:E.
    + destruct in_run; [apply IH|]. cbn. constructor; [reflexivity | apply IH].
    + cbn. constructor; [exact E | apply IH].
Qed.

Lemma replace_spaces_fixed (in_run : bool) (s : string) :
  Forall (fun c => is_space c = false) (list_ascii_of_string s) ->
  replace_spaces in_run s = s.
Proof.
  revert in_run. induction s as [|c s IH]; intros in_run H; cbn [replace_spaces];
    [reflexivity|].
  cbn in H. inversion H as [|? ? Hc Hs]; subst. rewrite Hc. f_equal. apply IH. exact Hs.
Qed.

Lemma list_ascii_of_string_app (a b : string) :
  list_ascii_of_string (a ++ b)
  = (list_ascii_of_string a ++ list_ascii_of_string b)%list.
Proof. induction a as [|c a IH]; cbn; [reflexivity | rewrite IH; reflexivity]. Qed.

(** X9: the name of the saved kit never contains a whitespace character,
    whatever the project is called; a project name without whitespace is
    used as it is, so replacing once more changes nothing. *)
Theorem kit_filename_has_no_whitespace (project : BrandProject.t) :
  Forall (fun c => is_space c = false) (list_ascii_of_string (kit_filename project)) /\
  replace_spaces false (kit_filename project) = kit_filename project /\
  (Forall (fun c => is_space c = false)
          (list_ascii_of_string (BrandProject.name project)) ->
   kit_filename project = BrandProject.name project ++ "_BrandKit.pdf").
Proof.
  assert (H : Forall (fun c => is_space c = false)
                     (list_ascii_of_string (kit_filename project))).
  { unfold kit_filename. rewrite list_ascii_of_string_app. apply Forall_app. split.
    - apply replace_spaces_no_space.
    - cbn. repeat constructor. }
  split; [exact H|]. split.
  - apply replace_spaces_fixed. exact H.
  - intros Hn. unfold kit_filename. rewrite (replace_spaces_fixed _ _ Hn). reflexivity.
Qed.

Lemma kit_filename_has_no_whitespace_witness :
  kit_filename (BrandProject.mk "p1" "Acme" "Retail" "Shoes" "Bold" "English" None)
  = "Acme_BrandKit.pdf".
Proof.
  apply (kit_filename_has_no_whitespace
           (BrandProject.mk "p1" "Acme" "Retail" "Shoes" "Bold" "English" None)).
  cbn. repeat constructor.
Defined.

(** ** What the export reads *)

(** X11: the exported kit does not depend on the composer: two projects that
    differ only in their logo settings (container, icon settings, text
    layers) give the same calls on the document, the same console output and
    the same saved file. *)
Theorem exportToPDF_ignores_logoSettings
    (lib : JsPDF) (ls : option LogoSettings.t) (project : BrandProject.t) :
  ExportEngine.exportToPDF lib (with_logoSettings ls project)
  = ExportEngine.exportToPDF lib project /\
  ExportEngine.saved (ExportEngine.exportToPDF lib (with_logoSettings ls project))
  = ExportEngine.saved (ExportEngine.exportToPDF lib project).
Proof.
  assert (E : ExportEngine.exportToPDF lib (with_logoSettings ls project)
              = ExportEngine.exportToPDF lib project).
  { destruct project as [i n ind des t l [d|]]; [|reflexivity]. reflexivity. }
  rewrite E. split; reflexivity.
Qed.

(** ** The palette swatches *)

Lemma swatches_run (lib : JsPDF) (colors : list string) (xOffset y : float) :
  forallb (acceptsColor lib) colors = true ->
  ExportEngine.swatches lib colors xOffset y
  = Pdf.mkRun (Pdf.Normal tt) y (row_calls colors xOffset y) [].
Proof.
  revert xOffset. induction colors as [|c rest IH]; intros xOffset H;
    cbn [ExportEngine.swatches row_calls]; [reflexivity|].
  cbn [forallb] in H. apply andb_true_iff in H. destruct H as [Hc Hrest].
  unfold ExportEngine.doc_setFillColor. rewrite Hc. run_pdf.
  fold (ExportEngine.swatches lib rest (xOffset + 35)%float y).
  rewrite (IH _ Hrest). reflexivity.
Qed.

Lemma swatches_run_rejected (lib : JsPDF) (good : list string) (bad : string)
    (rest : list string) (xOffset y : float) :
  forallb (acceptsColor lib) good = true ->
  acceptsColor lib bad = false ->
  ExportEngine.swatches lib (good ++ bad :: rest) xOffset y
  = Pdf.mkRun (Pdf.Throw (Pdf.ColorError bad)) y (row_calls good xOffset y) [].
Proof.
  revert xOffset. induction good as [|c good IH]; intros xOffset Hgood Hbad;
    cbn [app ExportEngine.swatches row_calls].
  - unfold ExportEngine.doc_setFillColor. rewrite Hbad. reflexivity.
  - cbn [forallb] in Hgood. apply andb_true_iff in Hgood. destruct Hgood as [Hc Hgood].
    unfold ExportEngine.doc_setFillColor. rewrite Hc. run_pdf.
    fold (ExportEngine.swatches lib (good ++ bad :: rest) (xOffset + 35)%float y).
    rewrite (IH _ Hgood Hbad). reflexivity.
Qed.

Lemma row_calls_length (colors : list string) (xOffset y : float) :
  List.length (row_calls colors xOffset y) = (5 * List.length colors)%nat.
Proof.
  revert xOffset. induction colors as [|c rest IH]; intros xOffset; [reflexivity|].
  cbn [row_calls swatch_calls app List.length]. rewrite IH. lia.
Qed.

Lemma calls_of_swatch_row (colors : list string) (xOffset y : float)
    (i : nat) (c : string) :
  nth_error colors i = Some c ->
  calls_of_swatch i (row_calls colors xOffset y)
  = swatch_calls c (swatch_offset i xOffset) y.
Proof.
  revert xOffset i. induction colors as [|c' rest IH]; intros xOffset i H.
  - destruct i; discriminate H.
  - destruct i as [|i]; cbn [nth_error] in H.
    + injection H as ->. reflexivity.
    + unfold calls_of_swatch. replace (5 * S i)%nat with (5 + 5 * i)%nat by lia.
      cbn [row_calls swatch_calls app Nat.add skipn].
      unfold swatch_offset. rewrite Nat.iter_succ_r.
      exact (IH (xOffset + 35)%float i H).
Qed.

(** X12: when the library accepts every colour, the palette row is one
    swatch per colour, in the palette's order, and nothing else: the five
    calls of the i-th colour are, in this order, [setFillColor] with the
    colour, the 30 by 30 filled rectangle at the cursor, the font size 10,
    the grey text colour, and the colour's own text as label 36 below the
    cursor; rectangle and label stand at the same x, which is 35 further
    right for each colour before.  At the first colour that the library
    rejects, [setFillColor] throws: the row holds the swatches of the
    colours before it and nothing of that colour or of the ones after.
    Either way nothing is logged and the cursor stays where it was. *)
Theorem swatches_one_per_colour
    (lib : JsPDF) (colors : list string) (xOffset y : float) :
  let r := ExportEngine.swatches lib colors xOffset y in
  (forallb (acceptsColor lib) colors = true ->
   Pdf.completion r = Pdf.Normal tt /\
   Pdf.cursor r = y /\
   Pdf.logged r = [] /\
   List.length (Pdf.emitted r) = (5 * List.length colors)%nat /\
   forall (i : nat) (c : string),
     nth_error colors i = Some c ->
     calls_of_swatch i (Pdf.emitted r)
     = [Pdf.setFillColor c;
        Pdf.rect (swatch_offset i xOffset) y 30%float 30%float "F";
        Pdf.setFontSize 10%float;
        Pdf.setTextColor 60 60 60;
        Pdf.text c (swatch_offset i xOffset) (y + 36)%float]) /\
  (forall (good : list string) (bad : string) (rest : list string),
     colors = (good ++ bad :: rest)%list ->
     forallb (acceptsColor lib) good = true ->
     acceptsColor lib bad = false ->
     Pdf.completion r = Pdf.Throw (Pdf.ColorError bad) /\
     Pdf.cursor r = y /\
     Pdf.logged r = [] /\
     Pdf.emitted r = Pdf.emitted (ExportEngine.swatches lib good xOffset y)).
Proof.
  cbv zeta. split.
  - intros H. rewrite (swatches_run lib colors xOffset y H).
    cbn [Pdf.completion Pdf.cursor Pdf.logged Pdf.emitted].
    do 3 (split; [reflexivity|]). split; [apply row_calls_length|].
    intros i c Hc. exact (calls_of_swatch_row colors xOffset y i c Hc).
  - intros good bad rest -> Hgood Hbad.
    rewrite (swatches_run_rejected lib good bad rest xOffset y Hgood Hbad).
    rewrite (swatches_run lib good xOffset y Hgood).
    repeat split.
Qed.

Lemma swatches_one_per_colour_witness :
  calls_of_swatch 1
    (Pdf.emitted
       (ExportEngine.swatches (sample_jsPDF true) ["#4f46e5"; "#ffffff"]
                              ExportEngine.margin 40%float))
  = [Pdf.setFillColor "#ffffff";
     Pdf.rect 55%float 40%float 30%float 30%float "F";
     Pdf.setFontSize 10%float;
     Pdf.setTextColor 60 60 60;
     Pdf.text "#ffffff" 55%float 76%float].
Proof.
  destruct (swatches_one_per_colour (sample_jsPDF true) ["#4f46e5"; "#ffffff"]
                                    ExportEngine.margin 40%float) as [Hok _].
  destruct (Hok eq_refl) as (_ & _ & _ & _ & Hcalls).
  exact (Hcalls 1%nat "#ffffff" eq_refl).
Defined.

(** ** The pages of the kit *)

Lemma AddsPages_zero (m : Pdf.M unit) : AddsPages 0 m.
Proof. intros y. apply Nat.le_0_l. Qed.

Lemma AddsPages_skip {A : Type} (n : nat) (m : Pdf.M A) (k : A -> Pdf.M unit) :
  Clean m -> (forall a, AddsPages n (k a)) -> AddsPages n (Pdf.bind m k).
Proof.
  intros Hm Hk y. unfold Pdf.bind.
  destruct (Hm y) as ([a Ha] & _ & _). rewrite Ha. cbn [Pdf.emitted].
  rewrite filter_app, length_app.
  specialize (Hk a (Pdf.cursor (m y))). lia.
Qed.

Lemma AddsPages_page (n : nat) (k : unit -> Pdf.M unit) :
  (forall a, AddsPages n (k a)) ->
  AddsPages (S n) (Pdf.bind (Pdf.emit Pdf.addPage) k).
Proof.
  intros Hk y. unfold Pdf.bind, Pdf.emit. cbn.
  specialize (Hk tt y). lia.
Qed.

Lemma AddsPages_laterPages (lib : JsPDF) (project : BrandProject.t)
    (d : BrandGeneratedData.t) :
  AddsPages 2 (ExportEngine.laterPages lib project d).
Proof.
  unfold ExportEngine.laterPages.
  repeat first [ apply AddsPages_page; intros _
               | apply AddsPages_skip; [auto with pdf | intros _] ].
  apply AddsPages_zero.
Qed.

(** X13: when the selected palette is there and the library accepts its
    colours, the saved kit has at least three pages: the cover, and the two
    pages the export opens for the strategy and for the visual identity;
    blocks that do not fit add more. *)
Theorem saved_kit_has_three_pages
    (lib : JsPDF) (project : BrandProject.t) (d : BrandGeneratedData.t)
    (palette : ColorPalette.t) :
  BrandProject.generatedData project = Some d ->
  ExportEngine.selectedPalette (BrandGeneratedData.visuals d) = Some palette ->
  forallb (acceptsColor lib) (ColorPalette.colors palette) = true ->
  exists doc,
    ExportEngine.saved (ExportEngine.exportToPDF lib project)
    = Some (kit_filename project, doc) /\
    (3 <= pages doc)%nat.
Proof.
  intros Hd Hp Hc.
  destruct (exportToPDF_with_data lib project d palette Hd Hp Hc)
    as (later & _ & He & _ & _ & _ & Hsaved).
  eexists. split; [exact Hsaved|].
  pose proof (AddsPages_laterPages lib project d 20%float) as Hn.
  rewrite He, filter_app in Hn. cbn in Hn. rewrite app_nil_r in Hn.
  unfold pages. rewrite !filter_app, !length_app. lia.
Qed.

Lemma saved_kit_has_three_pages_witness :
  exists doc,
    ExportEngine.saved
      (ExportEngine.exportToPDF (sample_jsPDF true)
         (sample_project (Some (sample_data None))))
    = Some ("Acme_Corp_BrandKit.pdf", doc) /\
    (3 <= pages doc)%nat.
Proof.
  apply (saved_kit_has_three_pages (sample_jsPDF true)
           (sample_project (Some (sample_data None)))
           (sample_data None)
           (ColorPalette.mk "Main" ["#4f46e5"; "#ffffff"] "bold")
           eq_refl eq_refl eq_refl).
Defined.

(** * Properties of the accounts *)

(** ** The password hash *)

Lemma toInt32_range (n : Z) : - 2 ^ 31 <= toInt32 n < 2 ^ 31.
Proof.
  unfold toInt32. change (2 ^ 31) with 2147483648. change (2 ^ 32) with 4294967296.
  pose proof (Z.mod_pos_bound (n + 2147483648) 4294967296 eq_refl). lia.
Qed.

Lemma toInt32_spec (n : Z) : exists k, toInt32 n = n + k * 2 ^ 32.
Proof.
  unfold toInt32. change (2 ^ 31) with 2147483648. change (2 ^ 32) with 4294967296.
  exists (- ((n + 2147483648) / 4294967296)).
  pose proof (Z.div_mod (n + 2147483648) 4294967296 ltac:(discriminate)). lia.
Qed.

Lemma toInt32_shift (n k : Z) : toInt32 (n + k * 2 ^ 32) = toInt32 n.
Proof.
  unfold toInt32. change (2 ^ 31) with 2147483648. change (2 ^ 32) with 4294967296.
  replace (n + k * 4294967296 + 2147483648) with (n + 2147483648 + k * 4294967296)
    by lia.
  rewrite Z_mod_plus_full. reflexivity.
Qed.

Lemma toInt32_small (n : Z) : - 2 ^ 31 <= n < 2 ^ 31 -> toInt32 n = n.
Proof.
  unfold toInt32. change (2 ^ 31) with 2147483648. change (2 ^ 32) with 4294967296.
  intros H. rewrite Z.mod_small; lia.
Qed.

(** One round of the loop is [31 * hash + char], wrapped to 32 bits. *)
Lemma hash_round (hash char : Z) :
  band (shl hash 5 - hash + char) (shl hash 5 - hash + char)
  = toInt32 (31 * hash + char).
Proof.
  unfold band, shl. rewrite Z.land_diag, Z.shiftl_mul_pow2 by lia.
  destruct (toInt32_spec hash) as [k1 H1]. rewrite H1.
  destruct (toInt32_spec ((hash + k1 * 2 ^ 32) * 2 ^ 5)) as [k2 H2]. rewrite H2.
  replace ((hash + k1 * 2 ^ 32) * 2 ^ 5 + k2 * 2 ^ 32 - hash + char)
    with (31 * hash + char + (32 * k1 + k2) * 2 ^ 32)
    by (change (2 ^ 5) with 32; lia).
  apply toInt32_shift.
Qed.

Lemma hashLoop_polynomial (codes : list Z) (hash hash' : Z) :
  (exists k, hash = hash' + k * 2 ^ 32) ->
  exists k, hashLoop codes hash = fold_left (fun h c => 31 * h + c) codes hash' + k * 2 ^ 32.
Proof.
  revert hash hash'. induction codes as [|char rest IH]; intros hash hash' [k Hk].
  - exists k. exact Hk.
  - cbn [hashLoop fold_left]. rewrite hash_round. apply IH.
    destruct (toInt32_spec (31 * hash + char)) as [k' Hk'].
    exists (k' + 31 * k). rewrite Hk', Hk. lia.
Qed.

Lemma hashLoop_range (codes : list Z) (hash : Z) :
  - 2 ^ 31 <= hash < 2 ^ 31 -> - 2 ^ 31 <= hashLoop codes hash < 2 ^ 31.
Proof.
  revert hash. induction codes as [|char rest IH]; intros hash H; [exact H|].
  cbn [hashLoop]. rewrite hash_round. apply IH. apply toInt32_range.
Qed.

Lemma hashLoop_is_polynomial (codes : list Z) :
  hashLoop codes 0 = toInt32 (polynomial31 codes).
Proof.
  destruct (hashLoop_polynomial codes 0 0) as [k Hk]; [exists 0; reflexivity|].
  unfold polynomial31.
  rewrite <- (toInt32_shift _ k), <- Hk. symmetry. apply toInt32_small.
  apply hashLoop_range. change (2 ^ 31) with 2147483648. lia.
Qed.

(** X14: the number [simpleHash] prints is the polynomial hash with
    multiplier 31 of the character codes, reduced to a signed 32-bit
    integer: the shifts and masks of the loop wrap around and never do
    anything else.  It always lies between -2^31 and 2^31 - 1. *)
Theorem simpleHash_is_polynomial31 (str : string) :
  simpleHash str = string_of_Z (toInt32 (polynomial31 (charCodes str))) /\
  - 2 ^ 31 <= hashLoop (charCodes str) 0 < 2 ^ 31.
Proof.
  split.
  - unfold simpleHash. rewrite hashLoop_is_polynomial. reflexivity.
  - apply hashLoop_range. change (2 ^ 31) with 2147483648. lia.
Qed.

Lemma charCodes_app (a b : string) :
  charCodes (a ++ b) = (charCodes a ++ charCodes b)%list.
Proof. unfold charCodes. rewrite list_ascii_of_string_app, map_app. reflexivity. Qed.

Lemma string_app_inv_head (p a b : string) : p ++ a = p ++ b -> a = b.
Proof.
  induction p as [|c p IH]; cbn; intros H; [exact H|].
  injection H as H. apply IH. exact H.
Qed.

Lemma same_hash_Aa_BB (before after : string) :
  simpleHash (before ++ "Aa" ++ after) = simpleHash (before ++ "BB" ++ after).
Proof.
  unfold simpleHash. f_equal. rewrite !hashLoop_is_polynomial. f_equal.
  rewrite !charCodes_app. unfold polynomial31. rewrite !fold_left_app. f_equal.
  generalize (fold_left (fun h c => 31 * h + c) (charCodes before) 0). intros h.
  change (charCodes "Aa") with [65; 97]. change (charCodes "BB") with [66; 66].
  cbn [fold_left]. lia.
Qed.

(** X15: the hash does not tell passwords apart: in any text, putting "BB"
    in the place of "Aa" gives a different string with the same hash. *)
Theorem simpleHash_collides (before after : string) :
  simpleHash (before ++ "Aa" ++ after) = simpleHash (before ++ "BB" ++ after) /\
  before ++ "Aa" ++ after <> before ++ "BB" ++ after.
Proof.
  split.
  - apply same_hash_Aa_BB.
  - intros H. apply string_app_inv_head in H. discriminate H.
Qed.

(** ** Signing up and signing in *)

Lemma find_email_none (email hash : string) (users : list User.t) :
  find (fun u => String.eqb (User.email u) email) users = None ->
  find (fun u => String.eqb (User.email u) email
                 && String.eqb (User.passwordHash u) hash) users = None.
Proof.
  induction users as [|u users IH]; cbn; [reflexivity|].
  destruct (String.eqb (User.email u) email); [discriminate|]. exact IH.
Qed.

(** X16: a submit that hands no user to [onLogin] shows an error and leaves
    the storage exactly as it was; a submit that hands over a user shows no
    error, has put that user into the session, and that user is among the
    stored accounts with the email of the form and the hash of the
    password typed. *)
Theorem handleAuth_outcomes (now : N) (form : Auth.Form) (st : Auth.Storage) :
  let o := Auth.handleAuth now form st in
  (Auth.onLogin o = None -> Auth.storage o = st /\ Auth.error o <> "") /\
  (forall user,
     Auth.onLogin o = Some user ->
     Auth.error o = "" /\
     Auth.bf_session (Auth.storage o) = Some user /\
     In user (Auth.storedUsers (Auth.storage o)) /\
     User.email user = Auth.email form /\
     User.passwordHash user = simpleHash (Auth.password form)).
Proof.
  cbv zeta. unfold Auth.handleAuth.
  destruct (negb (Auth.isLogin form)
            && negb (String.eqb (Auth.password form) (Auth.confirmPassword form))).
  { split; [intros _; split; [reflexivity | discriminate] | intros u H; discriminate H]. }
  destruct (Auth.isLogin form).
  - destruct (find _ (Auth.storedUsers st)) as [user|] eqn:Ef.
    + split; [intros H; discriminate H|].
      intros u H. injection H as <-. cbn.
      apply find_some in Ef. destruct Ef as [Hin Hp].
      apply andb_true_iff in Hp. destruct Hp as [He Hh].
      apply String.eqb_eq in He, Hh. repeat split; assumption.
    + split; [intros _; split; [reflexivity | discriminate] | intros u H; discriminate H].
  - destruct (find _ (Auth.storedUsers st)) as [user|] eqn:Ef.
    + split; [intros _; split; [reflexivity | discriminate] | intros u H; discriminate H].
    + split; [intros H; discriminate H|].
      intros u H. injection H as <-. cbn. repeat split.
      apply in_or_app. right. left. reflexivity.
Qed.

(** X17: a submit never removes or changes a stored account: the accounts
    afterwards are the ones before, in order, followed by at most one new
    one; and if no two accounts shared an email before, none do after. *)
Theorem handleAuth_only_appends (now : N) (form : Auth.Form) (st : Auth.Storage) :
  let before := Auth.storedUsers st in
  let after := Auth.storedUsers (Auth.storage (Auth.handleAuth now form st)) in
  (exists added, after = (before ++ added)%list /\ (List.length added <= 1)%nat) /\
  (NoDup (map User.email before) -> NoDup (map User.email after)).
Proof.
  cbv zeta. unfold Auth.handleAuth.
  assert (Hsame : (exists added,
                     Auth.storedUsers st = (Auth.storedUsers st ++ added)%list
                     /\ (List.length added <= 1)%nat)
                  /\ (NoDup (map User.email (Auth.storedUsers st))
                      -> NoDup (map User.email (Auth.storedUsers st)))).
  { split; [exists []; rewrite app_nil_r; split; [reflexivity | cbn; lia] | tauto]. }
  destruct (negb (Auth.isLogin form)
            && negb (String.eqb (Auth.password form) (Auth.confirmPassword form)));
    [exact Hsame|].
  destruct (Auth.isLogin form).
  - destruct (find _ (Auth.storedUsers st)); exact Hsame.
  - destruct (find _ (Auth.storedUsers st)) as [user|] eqn:Ef; [exact Hsame|].
    cbn [Auth.storage Auth.storedUsers Auth.bf_users]. split.
    + eexists. split; [reflexivity | cbn; lia].
    + intros Hnd. rewrite map_app. cbn. apply NoDup_snoc; [exact Hnd|].
      intros Hin. apply in_map_iff in Hin. destruct Hin as (u & He & Hu).
      pose proof (find_none _ _ Ef u Hu) as Hno. cbn in Hno.
      rewrite He, String.eqb_refl in Hno. discriminate Hno.
Qed.

Lemma handleAuth_only_appends_witness :
  NoDup (map User.email
           (Auth.storedUsers
              (Auth.storage
                 (Auth.handleAuth 1700000000000 (Auth.signUp "a@b.c" "" "secret")
                    (Auth.mkStorage None None))))).
Proof.
  apply (handleAuth_only_appends 1700000000000 (Auth.signUp "a@b.c" "" "secret")
           (Auth.mkStorage None None)).
  constructor.
Defined.

Lemma signUp_new_account (now : N) (email name password : string) (st : Auth.Storage) :
  find (fun u => String.eqb (User.email u) email) (Auth.storedUsers st) = None ->
  Auth.handleAuth now (Auth.signUp email name password) st
  = let newUser :=
      User.mk (Canvas.timestamp_id now) email
              (Canvas.or_string name (Auth.before_first "@" email))
              (simpleHash password) in
    Auth.mkOutcome
      (Auth.mkStorage (Some (Auth.storedUsers st ++ [newUser])%list) (Some newUser))
      "" (Some newUser).
Proof.
  intros Hfree. unfold Auth.handleAuth, Auth.signUp.
  cbn [Auth.isLogin Auth.password Auth.confirmPassword Auth.email Auth.name].
  rewrite String.eqb_refl. cbn [negb andb]. rewrite Hfree. reflexivity.
Qed.

Lemma signIn_after_signUp
    (now now' : N) (email name password attempt : string) (st : Auth.Storage) :
  find (fun u => String.eqb (User.email u) email) (Auth.storedUsers st) = None ->
  let o1 := Auth.handleAuth now (Auth.signUp email name password) st in
  let o2 := Auth.handleAuth now' (Auth.signIn email attempt) (Auth.storage o1) in
  Auth.onLogin o1 <> None /\
  (simpleHash attempt = simpleHash password ->
   Auth.onLogin o2 = Auth.onLogin o1 /\
   Auth.storedUsers (Auth.storage o2) = Auth.storedUsers (Auth.storage o1)) /\
  (simpleHash attempt <> simpleHash password ->
   Auth.onLogin o2 = None /\ Auth.storage o2 = Auth.storage o1).
Proof.
  intros Hfree. cbv zeta. rewrite (signUp_new_account now email name password st Hfree).
  cbv zeta. cbn [Auth.storage Auth.onLogin].
  split; [discriminate|].
  unfold Auth.handleAuth, Auth.signIn.
  cbn [Auth.isLogin Auth.password Auth.confirmPassword Auth.email negb andb
       Auth.storedUsers Auth.bf_users].
  rewrite find_app_absent by (apply find_email_none; exact Hfree).
  cbn [find User.email User.passwordHash]. rewrite String.eqb_refl. cbn [andb].
  destruct (String.eqb_spec (simpleHash password) (simpleHash attempt)) as [E|E].
  - split; [intros _; split; reflexivity|]. intros Hne. exfalso. apply Hne. symmetry. exact E.
  - split; [intros He; exfalso; apply E; symmetry; exact He|].
    intros _. split; reflexivity.
Qed.

(** X18: after a sign-up with an email that was not yet registered, a
    sign-in with that email hands over the very account that was created
    when the password typed has the hash of the sign-up password, and the
    list of accounts is not touched; with any other hash nobody is signed
    in and the storage stays as it was. *)
Theorem signUp_then_signIn
    (now now' : N) (email name password attempt : string) (st : Auth.Storage) :
  find (fun u => String.eqb (User.email u) email) (Auth.storedUsers st) = None ->
  let o1 := Auth.handleAuth now (Auth.signUp email name password) st in
  let o2 := Auth.handleAuth now' (Auth.signIn email attempt) (Auth.storage o1) in
  Auth.onLogin o1 <> None /\
  (simpleHash attempt = simpleHash password ->
   Auth.onLogin o2 = Auth.onLogin o1 /\
   Auth.storedUsers (Auth.storage o2) = Auth.storedUsers (Auth.storage o1)) /\
  (simpleHash attempt <> simpleHash password ->
   Auth.onLogin o2 = None /\ Auth.storage o2 = Auth.storage o1).
Proof. exact (signIn_after_signUp now now' email name password attempt st). Qed.

Lemma signUp_then_signIn_witness :
  Auth.onLogin
    (Auth.handleAuth 1700000000001 (Auth.signIn "a@b.c" "secret")
       (Auth.storage
          (Auth.handleAuth 1700000000000 (Auth.signUp "a@b.c" "" "secret")
             (Auth.mkStorage None None))))
  = Auth.onLogin
      (Auth.handleAuth 1700000000000 (Auth.signUp "a@b.c" "" "secret")
         (Auth.mkStorage None None)).
Proof.
  apply (signUp_then_signIn 1700000000000 1700000000001 "a@b.c" "" "secret" "secret"
           (Auth.mkStorage None None) eq_refl).
  reflexivity.
Defined.

(** X19: an account can be entered with a password that was never set: if
    the sign-up password contains "Aa", the sign-in with "BB" in its place,
    a different password, hands over the same account. *)
Theorem signIn_accepts_colliding_password
    (now now' : N) (email name before after : string) (st : Auth.Storage) :
  find (fun u => String.eqb (User.email u) email) (Auth.storedUsers st) = None ->
  let password := before ++ "Aa" ++ after in
  let attempt := before ++ "BB" ++ after in
  let o1 := Auth.handleAuth now (Auth.signUp email name password) st in
  let o2 := Auth.handleAuth now' (Auth.signIn email attempt) (Auth.storage o1) in
  attempt <> password /\
  Auth.onLogin o2 = Auth.onLogin o1 /\
  Auth.onLogin o2 <> None.
Proof.
  intros Hfree password attempt o1 o2.
  assert (Hh : simpleHash attempt = simpleHash password).
  { subst attempt password. symmetry. apply same_hash_Aa_BB. }
  destruct (signIn_after_signUp now now' email name password attempt st Hfree)
    as (H1 & H2 & _).
  destruct (H2 Hh) as [H3 _]. fold o1 in H1, H3. fold o2 in H3.
  split; [|split].
  - subst attempt password. intros H. apply string_app_inv_head in H. discriminate H.
  - exact H3.
  - rewrite H3. exact H1.
Qed.

Lemma signIn_accepts_colliding_password_witness :
  Auth.onLogin
    (Auth.handleAuth 1700000000001 (Auth.signIn "a@b.c" "myBBpass")
       (Auth.storage
          (Auth.handleAuth 1700000000000 (Auth.signUp "a@b.c" "" "myAapass")
             (Auth.mkStorage None None))))
  <> None.
Proof.
  apply (signIn_accepts_colliding_password 1700000000000 1700000000001 "a@b.c" ""
           "my" "pass" (Auth.mkStorage None None) eq_refl).
Defined.

(** * Properties of the project list *)

Lemma stored_in_sync_saveProjects (st : App.t) : stored_in_sync (App.saveProjects st).
Proof.
  unfold stored_in_sync, App.saveProjects.
  destruct (App.projects st) as [|p l] eqn:E; [left; exact E | right; reflexivity].
Qed.

Lemma stored_in_sync_same (st st' : App.t) :
  App.projects st' = App.projects st ->
  App.bf_projects st' = App.bf_projects st ->
  stored_in_sync st -> stored_in_sync st'.
Proof. unfold stored_in_sync. intros -> ->. tauto. Qed.

Lemma stored_in_sync_step (st : App.t) (e : App.Event) :
  stored_in_sync st -> stored_in_sync (App.step st e).
Proof.
  intros H. destruct e as [|generated now now'|updated|id confirmed|id answer|p|];
    cbn [App.step].
  - exact (stored_in_sync_same st _ eq_refl eq_refl H).
  - unfold App.createProject.
    destruct (negb (App.createProject_starts st)); [exact H|].
    destruct generated as [[[|name0 names] data]|].
    + exact (stored_in_sync_same st _ eq_refl eq_refl H).
    + eapply stored_in_sync_same; [| |apply stored_in_sync_saveProjects];
        reflexivity.
    + exact (stored_in_sync_same st _ eq_refl eq_refl H).
  - apply stored_in_sync_saveProjects.
  - unfold App.deleteProject. destruct confirmed; [|exact H].
    apply stored_in_sync_saveProjects.
  - unfold App.rename. destruct (truthy answer); [|exact H].
    destruct answer; [apply stored_in_sync_saveProjects | exact H].
  - exact (stored_in_sync_same st _ eq_refl eq_refl H).
  - exact (stored_in_sync_same st _ eq_refl eq_refl H).
Qed.

(** X20: from the start of the application on, whatever is done to the
    project list (create, update, rename, delete, select, navigate), the
    list in the storage is the list on screen whenever that list is not
    empty. *)
Theorem projects_stored_in_sync
    (stored : option (list Project.t)) (events : list App.Event) :
  let st := App.run (App.mount stored) events in
  App.projects st <> [] -> App.bf_projects st = Some (App.projects st).
Proof.
  cbv zeta.
  assert (H0 : stored_in_sync (App.mount stored)).
  { unfold App.mount. destruct stored as [l|].
    - apply stored_in_sync_saveProjects.
    - left. reflexivity. }
  assert (H : stored_in_sync (App.run (App.mount stored) events)).
  { unfold App.run. generalize (App.mount stored) H0. clear H0.
    induction events as [|e events IH]; intros st Hst; [exact Hst|].
    cbn [fold_left]. apply IH. apply stored_in_sync_step. exact Hst. }
  intros Hne. destruct H as [H|H]; [contradiction | exact H].
Qed.

Lemma projects_stored_in_sync_witness :
  let p := Project.mk (sample_project None) 1700000000000 in
  let q := Project.mk (BrandProject.mk "p2" "Zen" "Tea" "Leaves" "Calm" "English" None)
                      1700000000500 in
  App.bf_projects
    (App.run (App.mount (Some [p; q]))
       [App.Rename "p2" (Some "Zen Tea"); App.DeleteProject "p1" true])
  = Some [Project.with_name q "Zen Tea"].
Proof.
  cbv zeta.
  apply (projects_stored_in_sync
           (Some [Project.mk (sample_project None) 1700000000000;
                  Project.mk (BrandProject.mk "p2" "Zen" "Tea" "Leaves" "Calm" "English" None)
                             1700000000500])
           [App.Rename "p2" (Some "Zen Tea"); App.DeleteProject "p1" true]).
  discriminate.
Defined.

(** X21: deleting the last project is not written to the storage: when a
    confirmed delete leaves the list empty, the storage keeps the list from
    before the delete, and the next start of the application shows the
    deleted projects again. *)
Theorem deleted_last_project_returns (id : string) (st : App.t) :
  App.bf_projects st = Some (App.projects st) ->
  App.projects st <> [] ->
  (forall p, In p (App.projects st) -> Project.id p = id) ->
  let st' := App.deleteProject id true st in
  App.projects st' = [] /\
  App.bf_projects st' = Some (App.projects st) /\
  App.projects (App.mount (App.bf_projects st')) = App.projects st.
Proof.
  intros Hsync Hne Hall st'. subst st'.
  assert (Hf : filter (fun p => negb (String.eqb (Project.id p) id)) (App.projects st)
               = []).
  { clear Hsync Hne. induction (App.projects st) as [|p l IH]; [reflexivity|].
    cbn. rewrite (Hall p (or_introl eq_refl)), String.eqb_refl. cbn.
    apply IH. intros q Hq. apply Hall. right. exact Hq. }
  unfold App.deleteProject, App.saveProjects, App.setProjects.
  cbn [App.projects]. rewrite Hf. cbn [App.projects App.bf_projects].
  split; [reflexivity|]. split; [exact Hsync|].
  rewrite Hsync. unfold App.mount, App.saveProjects, App.setProjects.
  cbn [App.projects]. destruct (App.projects st); reflexivity.
Qed.

Lemma deleted_last_project_returns_witness :
  let p := Project.mk (sample_project None) 1700000000000 in
  App.projects
    (App.mount (App.bf_projects (App.deleteProject "p1" true (App.mount (Some [p])))))
  = [p].
Proof.
  cbv zeta.
  apply (deleted_last_project_returns "p1"
           (App.mount (Some [Project.mk (sample_project None) 1700000000000]))
           eq_refl).
  - discriminate.
  - intros p [<- | []]. reflexivity.
Defined.

(** X22: creating a project does nothing while industry or description is
    empty.  Otherwise the in-progress flag is off again when it is over,
    whatever the outcome; a failed request, or a bundle that proposes no
    name, leaves the list, the storage, the selection and the view as they
    were; a bundle with names puts the new project, called by the first
    name and carrying the form's fields and the bundle, in front of the
    list, stores the list, selects the project and opens the editor. *)
Theorem createProject_outcomes
    (generated : option (list string * BrandGeneratedData.t)) (now now' : N)
    (st : App.t) :
  let st' := App.createProject generated now now' st in
  (App.createProject_starts st = false -> st' = st) /\
  (App.createProject_starts st = true ->
   App.isGenerating st' = false /\
   ((generated = None \/ exists data, generated = Some ([], data)) ->
    App.projects st' = App.projects st /\
    App.bf_projects st' = App.bf_projects st /\
    App.selectedProject st' = App.selectedProject st /\
    App.view st' = App.view st) /\
   (forall name0 names data,
      generated = Some (name0 :: names, data) ->
      exists newProject,
        App.projects st' = newProject :: App.projects st /\
        App.bf_projects st' = Some (newProject :: App.projects st) /\
        App.selectedProject st' = Some newProject /\
        App.view st' = App.editor /\
        Project.fields newProject
        = BrandProject.mk (Canvas.timestamp_id now) name0 (App.industry st)
            (App.description st) (App.tone st) (App.language st) (Some data))).
Proof.
  cbv zeta. unfold App.createProject. split.
  - intros H. rewrite H. reflexivity.
  - intros H. rewrite H. cbn [negb].
    destruct generated as [[[|name0 names] data]|].
    + split; [reflexivity|]. split.
      * intros _. repeat split.
      * intros n ns d E. discriminate E.
    + split; [reflexivity|]. split.
      * intros [E | [d E]]; discriminate E.
      * intros n ns d E. injection E as <- <- <-.
        eexists. repeat split.
    + split; [reflexivity|]. split.
      * intros _. repeat split.
      * intros n ns d E. discriminate E.
Qed.

Lemma createProject_outcomes_witness :
  let st := App.mk [] App.new None "Retail" "Shoes" "Bold" "English" false None in
  App.projects (App.createProject None 1700000000000 1700000000001 st) = [] /\
  App.isGenerating (App.createProject None 1700000000000 1700000000001 st) = false.
Proof.
  cbv zeta.
  destruct (createProject_outcomes None 1700000000000 1700000000001
              (App.mk [] App.new None "Retail" "Shoes" "Bold" "English" false None))
    as [_ H].
  destruct (H eq_refl) as (Hg & Hfail & _).
  destruct (Hfail (or_introl eq_refl)) as (Hp & _).
  split; [exact Hp | exact Hg].
Defined.

Lemma map_id_replace (updated : Project.t) (l : list Project.t) :
  map Project.id
      (map (fun p => if String.eqb (Project.id p) (Project.id updated) then updated else p)
           l)
  = map Project.id l.
Proof.
  rewrite map_map. apply map_ext. intros p.
  destruct (String.eqb_spec (Project.id p) (Project.id updated)) as [E|E];
    [symmetry; exact E | reflexivity].
Qed.

Lemma projects_saveProjects (st : App.t) :
  App.projects (App.saveProjects st) = App.projects st.
Proof.
  unfold App.saveProjects. destruct (App.projects st) as [|p l] eqn:E;
    [exact E | reflexivity].
Qed.

(** X23: updating and renaming never add, drop or reorder projects: the ids
    of the list stay as they are.  An update replaces exactly the projects
    that carry the id of the updated one, and a rename changes nothing but
    the name of the projects with the given id; a cancelled or empty answer
    to the rename prompt changes nothing at all. *)
Theorem update_and_rename_keep_ids
    (updated : Project.t) (id : string) (answer : option string) (st : App.t) :
  map Project.id (App.projects (App.updateProject updated st))
  = map Project.id (App.projects st) /\
  map Project.id (App.projects (App.rename id answer st))
  = map Project.id (App.projects st) /\
  (forall (n : nat) (p : Project.t),
     nth_error (App.projects st) n = Some p ->
     nth_error (App.projects (App.updateProject updated st)) n
     = Some (if String.eqb (Project.id p) (Project.id updated) then updated else p) /\
     exists p',
       nth_error (App.projects (App.rename id answer st)) n = Some p' /\
       Project.createdAt p' = Project.createdAt p /\
       BrandProject.generatedData (Project.fields p')
       = BrandProject.generatedData (Project.fields p) /\
       (Project.id p <> id -> p' = p)) /\
  (truthy answer = false -> App.rename id answer st = st).
Proof.
  split; [|split; [|split]].
  - unfold App.updateProject. rewrite projects_saveProjects. apply map_id_replace.
  - unfold App.rename. destruct (truthy answer); [|reflexivity].
    destruct answer as [name|]; [|reflexivity].
    rewrite projects_saveProjects. cbn [App.projects App.setProjects].
    rewrite map_map. apply map_ext. intros p.
    destruct (String.eqb (Project.id p) id); reflexivity.
  - intros n p Hn. split.
    + unfold App.updateProject. rewrite projects_saveProjects.
      cbn [App.projects App.setProjects App.setSelectedProject].
      exact (map_nth_error
               (fun q => if String.eqb (Project.id q) (Project.id updated)
                         then updated else q) _ _ Hn).
    + unfold App.rename. destruct (truthy answer);
        [|exists p; repeat split; exact Hn].
      destruct answer as [name|]; [|exists p; repeat split; exact Hn].
      rewrite projects_saveProjects. cbn [App.projects App.setProjects].
      rewrite (map_nth_error
                 (fun q => if String.eqb (Project.id q) id
                           then Project.with_name q name else q) _ _ Hn).
      eexists. split; [reflexivity|].
      destruct (String.eqb_spec (Project.id p) id) as [E|E].
      * repeat split. intros Hne. contradiction.
      * repeat split.
  - intros Ht. unfold App.rename. rewrite Ht. reflexivity.
Qed.

(** * Properties of the icon generation and of the chat *)

Lemma filter_not_plain (ops : list Pdf.DocOp) :
  forallb plain ops = true -> filter (fun op => negb (plain op)) ops = [].
Proof.
  induction ops as [|op ops IH]; cbn; [reflexivity|].
  intros H. apply andb_true_iff in H. destruct H as [H1 H2].
  rewrite H1. cbn. apply IH. exact H2.
Qed.

(** X24: generating the icon clears its in-flight flag whatever the
    outcome.  A failed request leaves the data as they were; a successful
    one replaces the icon and nothing else.  When a project that carries
    the data after a successful generation is exported, with its selected
    palette present, colours that the library accepts and an image that it
    can decode, the kit is saved and the one image call in it is the call
    for the new icon. *)
Theorem handleGenerateLogo_then_export
    (lib : JsPDF) (result : option string) (st : Editor.t)
    (d : BrandGeneratedData.t) (palette : ColorPalette.t) :
  Editor.data st = Some d ->
  Editor.handleGenerateLogo_starts st = true ->
  ExportEngine.selectedPalette (BrandGeneratedData.visuals d) = Some palette ->
  let st' := Editor.handleGenerateLogo result st in
  Editor.isGeneratingLogo st' = false /\
  (result = None -> Editor.data st' = Editor.data st) /\
  (forall url,
     result = Some url ->
     exists d',
       Editor.data st' = Some d' /\
       icon_url d' = Some url /\
       ExportEngine.without_icon_data d' = ExportEngine.without_icon_data d /\
       forall project,
         BrandProject.generatedData project = Some d' ->
         url <> "" ->
         decodes lib url = true ->
         forallb (acceptsColor lib) (ColorPalette.colors palette) = true ->
         exists doc,
           ExportEngine.saved (ExportEngine.exportToPDF lib project)
           = Some (kit_filename project, doc) /\
           filter (fun op => negb (plain op)) doc = [icon_call lib url]).
Proof.
  intros Hd Hs Hp st'. subst st'. unfold Editor.handleGenerateLogo. rewrite Hs.
  cbn [negb]. split; [reflexivity|]. split.
  - intros ->. cbn. reflexivity.
  - intros url ->. cbn [Editor.data Editor.isGeneratingLogo]. rewrite Hd.
    exists (Editor.with_icon url d). split; [reflexivity|]. split; [reflexivity|].
    split; [reflexivity|].
    intros project Hproj Hurl Hdec Hc.
    destruct (exportToPDF_with_data lib project (Editor.with_icon url d) palette
                Hproj Hp Hc)
      as (later & Hplain & _ & _ & _ & _ & Hsaved).
    eexists. split; [exact Hsaved|].
    rewrite !filter_app, (filter_not_plain _ Hplain).
    unfold cover_icon. change (icon_url (Editor.with_icon url d)) with (Some url).
    cbv iota beta. rewrite (truthy_Some url Hurl), Hdec. reflexivity.
Qed.

Lemma handleGenerateLogo_then_export_witness :
  let st := Editor.mk (Some (sample_data None)) false in
  let project := sample_project (Editor.data (Editor.handleGenerateLogo (Some "icon") st)) in
  Editor.isGeneratingLogo (Editor.handleGenerateLogo (Some "icon") st) = false /\
  exists doc,
    ExportEngine.saved (ExportEngine.exportToPDF (sample_jsPDF true) project)
    = Some ("Acme_Corp_BrandKit.pdf", doc) /\
    filter (fun op => negb (plain op)) doc
    = [Pdf.addImage "icon" "PNG" 65%float 120%float 80%float 80%float].
Proof.
  cbv zeta.
  destruct (handleGenerateLogo_then_export (sample_jsPDF true) (Some "icon")
              (Editor.mk (Some (sample_data None)) false) (sample_data None)
              (ColorPalette.mk "Main" ["#4f46e5"; "#ffffff"] "bold")
              eq_refl eq_refl eq_refl)
    as (H1 & _ & H3).
  split; [exact H1|].
  destruct (H3 "icon" eq_refl) as (d' & Hd' & _ & _ & Hexport).
  injection Hd' as <-.
  exact (Hexport (sample_project (Some (Editor.with_icon "icon" (sample_data None))))
                 eq_refl ltac:(discriminate) eq_refl eq_refl).
Defined.

(** ** The transcript of the chat *)

Lemma or_string_not_empty (s fallback : string) :
  fallback <> "" -> Canvas.or_string s fallback <> "".
Proof.
  intros H. unfold Canvas.or_string.
  destruct (String.eqb_spec s ""); [exact H | assumption].
Qed.

Lemma count_role_app (r : Chat.Role) (l l' : list Chat.ChatMessage) :
  Chat.count_role r (l ++ l') = (Chat.count_role r l + Chat.count_role r l')%nat.
Proof. unfold Chat.count_role. rewrite filter_app, length_app. reflexivity. Qed.

Lemma saveSession_fields (st : Chat.t) :
  Chat.messages (Chat.saveSession st) = Chat.messages st /\
  Chat.inFlight (Chat.saveSession st) = Chat.inFlight st /\
  (Chat.messages st = [] \/
   Chat.bf_chat_session (Chat.saveSession st) = Some (Chat.messages st)).
Proof.
  unfold Chat.saveSession. destruct (Chat.messages st) as [|m l] eqn:E.
  - split; [exact E|]. split; [reflexivity | left; reflexivity].
  - split; [reflexivity|]. split; [reflexivity | right; reflexivity].
Qed.

(** X25: in a chat started with no saved transcript, whatever is typed, sent
    and answered, and in whatever order the replies arrive: no bubble is
    empty (a message of the user is never blank, a message of the advisor,
    reply or fallback, always has text); the user's messages are as many as
    the advisor's plus the requests still pending; and the transcript in the
    session storage is the one on screen whenever that is not empty. *)
Theorem chat_transcript_invariant (events : list Chat.Event) :
  let st := Chat.run (Chat.mount None) events in
  forallb Chat.has_text (Chat.messages st) = true /\
  Chat.count_role Chat.user (Chat.messages st)
  = (Chat.count_role Chat.model (Chat.messages st) + Chat.inFlight st)%nat /\
  (Chat.messages st <> [] -> Chat.bf_chat_session st = Some (Chat.messages st)).
Proof.
  cbv zeta.
  assert (H : forall st,
             (forallb Chat.has_text (Chat.messages st) = true /\
              Chat.count_role Chat.user (Chat.messages st)
              = (Chat.count_role Chat.model (Chat.messages st) + Chat.inFlight st)%nat /\
              (Chat.messages st = [] \/
               Chat.bf_chat_session st = Some (Chat.messages st))) ->
             forallb Chat.has_text (Chat.messages (Chat.run st events)) = true /\
             Chat.count_role Chat.user (Chat.messages (Chat.run st events))
             = (Chat.count_role Chat.model (Chat.messages (Chat.run st events))
                + Chat.inFlight (Chat.run st events))%nat /\
             (Chat.messages (Chat.run st events) = [] \/
              Chat.bf_chat_session (Chat.run st events)
              = Some (Chat.messages (Chat.run st events)))).
  { induction events as [|e events IH]; intros st Hst; [exact Hst|].
    cbn [Chat.run fold_left]. apply IH. clear IH.
    destruct Hst as (Ht & Hc & Hs).
    destruct e as [s|now|reply now]; cbn [Chat.step].
    - cbn. repeat split; assumption.
    - unfold Chat.sendMessage. destruct (Chat.blank (Chat.input st)) eqn:Eb;
        [repeat split; assumption|].
      match goal with |- context [Chat.saveSession ?x] =>
        destruct (saveSession_fields x) as (Hm & Hi & Hsv); rewrite Hm, Hi
      end.
      cbn [Chat.messages Chat.inFlight] in *.
      rewrite forallb_app, Ht, !count_role_app, Hc.
      change (Chat.count_role Chat.user [Chat.mkMessage Chat.user (Chat.input st) now])
        with 1%nat.
      change (Chat.count_role Chat.model [Chat.mkMessage Chat.user (Chat.input st) now])
        with 0%nat.
      split; [|split; [lia|]].
      + cbn [forallb andb]. unfold Chat.has_text. cbn [Chat.role Chat.text].
        rewrite Eb. reflexivity.
      + destruct Hsv as [Hsv|Hsv]; [left; exact Hsv | right; exact Hsv].
    - unfold Chat.settle. destruct (Chat.inFlight st) as [|pending] eqn:Ei;
        [rewrite Ei; repeat split; assumption|].
      match goal with |- context [Chat.saveSession ?x] =>
        destruct (saveSession_fields x) as (Hm & Hi & Hsv); rewrite Hm, Hi
      end.
      cbn [Chat.messages Chat.inFlight] in *.
      rewrite forallb_app, Ht, !count_role_app, Hc. cbn [andb].
      split; [|split; [cbn [Chat.count_role filter Chat.role List.length]; lia|]].
      + cbn [forallb]. unfold Chat.has_text. cbn [Chat.role Chat.text].
        rewrite andb_true_r. apply negb_true_iff. apply String.eqb_neq.
        destruct reply as [response|]; [|discriminate].
        apply or_string_not_empty. discriminate.
      + destruct Hsv as [Hsv|Hsv]; [left; exact Hsv | right; exact Hsv]. }
  destruct (H (Chat.mount None)) as (H1 & H2 & H3).
  - cbn. repeat split. left. reflexivity.
  - split; [exact H1|]. split; [exact H2|].
    intros Hne. destruct H3 as [H3|H3]; [contradiction | exact H3].
Qed.

(** * Instances *)

Lemma handleAuth_outcomes_witness :
  Auth.storage
    (Auth.handleAuth 1700000000000 (Auth.mkForm false "a@b.c" "" "secret" "secrte")
       (Auth.mkStorage None None))
  = Auth.mkStorage None None.
Proof.
  apply (proj1 (handleAuth_outcomes 1700000000000
                  (Auth.mkForm false "a@b.c" "" "secret" "secrte")
                  (Auth.mkStorage None None))).
  reflexivity.
Defined.

Lemma update_and_rename_keep_ids_witness :
  let p := Project.mk (sample_project None) 1700000000000 in
  let st := App.mount (Some [p]) in
  App.rename "p1" None st = st.
Proof.
  cbv zeta.
  apply (update_and_rename_keep_ids
           (Project.mk (sample_project None) 1700000000000) "p1" None
           (App.mount (Some [Project.mk (sample_project None) 1700000000000]))).
  reflexivity.
Defined.

Lemma chat_transcript_invariant_witness :
  let events :=
    [Chat.Type_ "hello"; Chat.Send 1; Chat.Type_ "   "; Chat.Send 2;
     Chat.Type_ "again"; Chat.Send 3; Chat.Settle (Some "") 4; Chat.Settle None 5] in
  Chat.bf_chat_session (Chat.run (Chat.mount None) events)
  = Some (Chat.messages (Chat.run (Chat.mount None) events)).
Proof.
  cbv zeta.
  apply (chat_transcript_invariant
           [Chat.Type_ "hello"; Chat.Send 1; Chat.Type_ "   "; Chat.Send 2;
            Chat.Type_ "again"; Chat.Send 3; Chat.Settle (Some "") 4; Chat.Settle None 5]).
  discriminate.
Defined.

Lemma stored_in_sync_run (events : list App.Event) (st : App.t) :
  stored_in_sync st -> stored_in_sync (App.run st events).
Proof.
  revert st. induction events as [|e events IH]; intros st H; [exact H|].
  cbn [App.run fold_left]. apply IH. apply stored_in_sync_step. exact H.
Qed.

Lemma stored_in_sync_mount (stored : option (list Project.t)) :
  stored_in_sync (App.mount stored).
Proof.
  unfold App.mount. destruct stored as [l|].
  - apply stored_in_sync_saveProjects.
  - left. reflexivity.
Qed.

(** X26: the project list survives a restart: after any sequence of events,
    if the list on screen is not empty, starting the application again from
    what the storage then holds shows the same list. *)
Theorem projects_survive_restart
    (stored : option (list Project.t)) (events : list App.Event) :
  let st := App.run (App.mount stored) events in
  App.projects st <> [] ->
  App.projects (App.mount (App.bf_projects st)) = App.projects st.
Proof.
  cbv zeta. intros Hne.
  destruct (stored_in_sync_run events _ (stored_in_sync_mount stored)) as [H|H];
    [contradiction|].
  rewrite H. unfold App.mount. rewrite projects_saveProjects. reflexivity.
Qed.

Lemma projects_survive_restart_witness :
  let p := Project.mk (sample_project None) 1700000000000 in
  App.projects
    (App.mount
       (App.bf_projects
          (App.run (App.mount (Some [p])) [App.Rename "p1" (Some "Acme Shoes")])))
  = [Project.with_name p "Acme Shoes"].
Proof.
  cbv zeta.
  apply (projects_survive_restart
           (Some [Project.mk (sample_project None) 1700000000000])
           [App.Rename "p1" (Some "Acme Shoes")]).
  discriminate.
Defined.
